(** * NASA PDF Tool: text extraction and redact-and-reinsert editing

    A shallow embedding of [app/pdf_processing.py] (the functions
    [extract_text_from_pdf] and [apply_text_edits_to_pdf]) and of the JSON
    hand-over of [app/routes.py], with the properties the design document
    states about them.

    Conventions of the embedding.
    - A Python [str] is a [string]: one character per code point below 256.
    - A Python number is a [pynum]: an [int] (as [Z]) or a [float] (binary64,
      the kernel's primitive floats).
    - The dictionaries PyMuPDF returns from [page.get_text("dict")] are
      records whose fields are options: [None] is an absent key, which is
      what every [d.get(key, default)] of the source distinguishes.
    - The [edits] dictionary is a [gmap] from page keys to the list of the
      items of the page's dictionary, in iteration order.
    - PyMuPDF itself is not part of the repository: opening, loading a page
      and reading its text, marking, committing, inserting, saving and
      closing are taken as parameters that may fail, and every call that
      modifies a page is recorded in that page's log. *)

From Stdlib Require Import ZArith Ascii String List Bool Lia PrimFloat.
From Stdlib Require Import DecimalString Decimal DecimalNat.
From Stdlib Require DecimalFacts SpecFloat FloatOps FloatAxioms.
From stdpp Require Import base option list gmap strings.

Local Open Scope string_scope.
Local Open Scope list_scope.
Local Open Scope Z_scope.

(** ** Python numbers *)

Inductive pynum : Type :=
| PyInt (z : Z)
| PyFloat (f : float).

(** [x - 1] for a number [x]: integer subtraction on an [int], binary64
    subtraction (the literal [1] converted to [1.0]) on a [float]. *)
Definition py_sub1 (x : pynum) : pynum :=
  match x with
  | PyInt z => PyInt (z - 1)
  | PyFloat f => PyFloat (PrimFloat.sub f 1%float)
  end.

(** ** Python's [str(n)] and [int(s)] *)

(** [str(n)] for a non-negative [int]: the decimal digits, no sign, no
    leading zero (["0"] for zero). *)
Definition str (n : nat) : string := NilZero.string_of_uint (Nat.to_uint n).

(** The characters [int] drops around a numeral, for code points below
    256. CPython hands an ASCII text to [PyLong_FromString] as it is, where
    [Py_ISSPACE] holds of HT, LF, VT, FF, CR and the space only; in a text
    that is not ASCII, the characters of [str.isspace] from code point 128 on
    (NEL and NBSP) are turned into spaces first. The separators FS, GS, RS
    and US (28 to 31) are blanks for [str.isspace] but not for [int]. *)
Definition is_space (c : ascii) : bool :=
  let n := N_of_ascii c in
  ((9 <=? n) && (n <=? 13) || (n =? 32) || (n =? 133) || (n =? 160))%N.

Definition digit_value (c : ascii) : option Z :=
  let n := Z.of_N (N_of_ascii c) in
  if (48 <=? n) && (n <=? 57) then Some (n - 48) else None.

Fixpoint lstrip (s : string) : string :=
  match s with
  | String c s' => if is_space c then lstrip s' else s
  | EmptyString => EmptyString
  end.

(** The digit scan of [PyLong_FromString] in base 10: digits, with single
    underscores allowed between two digits. Returns the value read and the
    rest of the text, or [None] where CPython reports a syntax error. *)
Fixpoint scan_digits (acc : Z) (prev_underscore : bool) (s : string) : option (Z * string) :=
  match s with
  | String c s' =>
      match digit_value c with
      | Some d => scan_digits (10 * acc + d) false s'
      | None =>
          if Ascii.eqb c "_"%char
          then (if prev_underscore then None else scan_digits acc true s')
          else (if prev_underscore then None else Some (acc, s))
      end
  | EmptyString => if prev_underscore then None else Some (acc, s)
  end.

Definition starts_with_digit (s : string) : bool :=
  match s with
  | String c _ => bool_decide (is_Some (digit_value c))
  | EmptyString => false
  end.

Definition scan_unsigned (s : string) : option Z :=
  if starts_with_digit s then
    match scan_digits 0 false s with
    | Some (v, rest) =>
        match lstrip rest with
        | EmptyString => Some v
        | _ => None
        end
    | None => None
    end
  else None.

(** The numeral of a text, as [PyLong_FromString] reads it in base 10:
    leading and trailing blanks are dropped, one sign is allowed, no blank
    may follow the sign. [None] is [ValueError]. *)
Definition long_from_string (s : string) : option Z :=
  match lstrip s with
  | String "+" s' => scan_unsigned s'
  | String "-" s' => Z.opp <$> scan_unsigned s'
  | s' => scan_unsigned s'
  end.

(** [sys.get_int_max_str_digits()], at its default. *)
Definition max_str_digits : nat := 4300.

(** The number of digits of a text. In a text [long_from_string] reads, they
    are the digits of the numeral, leading zeros included. *)
Fixpoint count_digits (s : string) : nat :=
  match s with
  | EmptyString => 0%nat
  | String c s' => ((if digit_value c is Some _ then 1 else 0) + count_digits s')%nat
  end.

(** [int(s)] for a [str]: [Some v] is the value, [None] is [ValueError],
    which is also raised for a numeral of more than [max_str_digits]
    digits. *)
Definition py_int (s : string) : option Z :=
  if (count_digits s <=? max_str_digits)%nat then long_from_string s else None.

(** ** The structured text of a page *)

(** A span of [page.get_text("dict")]. *)
Record span : Type := Span {
  span_text  : option string;
  span_bbox  : option (list pynum);
  span_font  : option string;
  span_size  : option pynum;
  span_color : option Z
}.

Record line : Type := Line { line_spans : option (list span) }.

Record block : Type := Block {
  block_type  : option Z;
  block_lines : option (list line)
}.

Record page_dict : Type := PageDict { pd_blocks : option (list block) }.

(** The fragment [extract_text_from_pdf] stores for a span. *)
Record span_info : Type := SpanInfo {
  si_text  : string;
  si_bbox  : list pynum;
  si_font  : string;
  si_size  : pynum;
  si_color : Z
}.

(** [block.get('type') != 0] *)
Definition block_skipped (b : block) : bool :=
  match block_type b with
  | Some 0 => false
  | _ => true
  end.

(** ** [extract_text_from_pdf] *)

(** The dictionary built at lines 62-68. *)
Definition make_span_info (s : span) : span_info :=
  {| si_text  := default "" (span_text s);
     si_bbox  := default [] (span_bbox s);
     si_font  := default "" (span_font s);
     si_size  := default (PyInt 0) (span_size s);
     si_color := default 0 (span_color s) |}.

(** The loops of lines 56-69, each [fold_left] one [for], the accumulator
    being [page_spans]. *)
Definition extract_line (page_spans : list span_info) (l : line) : list span_info :=
  fold_left (fun acc s => acc ++ [make_span_info s]) (default [] (line_spans l)) page_spans.

Definition extract_block (page_spans : list span_info) (b : block) : list span_info :=
  if block_skipped b then page_spans
  else fold_left extract_line (default [] (block_lines b)) page_spans.

Definition extract_page (pd : page_dict) : list span_info :=
  fold_left extract_block (default [] (pd_blocks pd)) [].

Record extraction : Type := Extraction { pages : list (list span_info) }.

(** What a call does: it raises, or it returns. The errors are those of
    the library calls the source makes outside a handler or re-raises:
    [fitz.open] (lines 42 and 102), [doc[page_number]] and
    [page.get_text("dict")] (lines 50, 52, 109 and 115), [doc.save]
    (line 191) and [doc.close] (lines 72 and 195). *)
Inductive exn : Type := OpenError | PageError | SaveError | CloseError.

Inductive outcome (A : Type) : Type :=
| Raise (e : exn)
| Return (a : A).
Arguments Raise {A} e.
Arguments Return {A} a.

(** ** [apply_text_edits_to_pdf]: the traversal of lines 115-122 *)

Definition spans_of_line (spans : list span) (l : line) : list span :=
  fold_left (fun acc s => acc ++ [s]) (default [] (line_spans l)) spans.

Definition spans_of_block (spans : list span) (b : block) : list span :=
  if block_skipped b then spans
  else fold_left spans_of_line (default [] (block_lines b)) spans.

Definition derive_spans (pd : page_dict) : list span :=
  fold_left spans_of_block (default [] (pd_blocks pd)) [].

(** ** The document handle and the calls made on it *)

(** A colour as PyMuPDF takes it: the tuple of its RGB components. *)
Definition rgb : Type := (Z * Z * Z)%type.

(** The calls the source makes on a page. *)
Inductive call : Type :=
| AddRedactAnnot (bbox : list pynum) (fill : rgb)
| ApplyRedactions
| InsertText (point : pynum * pynum) (text : string)
    (fontname : string) (fontsize : pynum) (color : rgb).

(** A call and whether it returned ([true]) or raised ([false]). *)
Record event : Type := Event { ev_call : call; ev_ok : bool }.

(** A page of an open document: its structured text as parsed from the
    file (the source reads it once, before the page's first modification)
    and the calls made on it so far, oldest first. *)
Record page : Type := Page { page_text : page_dict; page_log : list event }.

Abbreviation document := (list page) (only parsing).

Definition log_event (e : event) (p : page) : page :=
  {| page_text := page_text p; page_log := page_log p ++ [e] |}.

Definition record_call (d : document) (page_number : nat) (c : call) (ok : bool) : document :=
  alter (log_event (Event c ok)) page_number d.

(** The document as [fitz.open] hands it over. *)
Definition new_document (pds : list page_dict) : document :=
  (fun pd => Page pd []) <$> pds.

(** What [page.get_text("dict")] returns for page [page_number], when it
    returns: whether it does is the library's [read_text] below. *)
Definition get_text (d : document) (page_number : nat) : page_dict :=
  match d !! page_number with
  | Some p => page_text p
  | None => PageDict None
  end.

(** PyMuPDF, as far as the source uses it. Whether a call fails may depend
    on the whole state of the document at that moment.
    - [fitz_open]: [None] when [fitz.open] raises;
    - [load_page]: [false] when [doc[page_number]] raises, as it does on
      every page of a document that was opened but is still encrypted;
    - [read_text]: [false] when [page.get_text("dict")] raises;
    - [add_redact_annot]: the annotation, [None] when the call raises;
    - [apply_redactions], [insert_text]: [false] when the call raises;
    - [save]: the bytes written, [None] when [doc.save] raises;
    - [close]: [false] when [doc.close] raises. *)
Class Fitz : Type := {
  annot : Type;
  fitz_open : string -> option (list page_dict);
  load_page : document -> nat -> bool;
  read_text : document -> nat -> bool;
  add_redact_annot : document -> nat -> list pynum -> rgb -> option annot;
  apply_redactions : document -> nat -> bool;
  insert_text : document -> nat -> pynum * pynum -> string -> string -> pynum -> rgb -> bool;
  save : document -> option (list Byte.byte);
  close : document -> bool
}.

(** An entry of [annotations] (lines 149-156). *)
Record plan_entry `{Fitz} : Type := PlanEntry {
  pe_annot : annot;
  pe_bbox : list pynum;
  pe_font : string;
  pe_size : pynum;
  pe_color : Z;
  pe_new_text : string
}.

(** [not bbox] for the value of [span.get("bbox")]. *)
Definition bbox_falsy (b : option (list pynum)) : bool :=
  match b with
  | None | Some [] => true
  | Some (_ :: _) => false
  end.

(** The items of a page's dictionary of edits, in iteration order. *)
Abbreviation page_edits_t := (list (string * string)) (only parsing).

Section Rewriter.
Context `{lib : Fitz}.

(** The loop over pages of lines 49-70, the accumulator being
    [extraction["pages"]]: [None] when [doc[page_number]] or
    [page.get_text("dict")] raises, which ends the loop and the call. *)
Fixpoint extract_pages (doc : document) (page_numbers : list nat)
    (acc : list (list span_info)) : option (list (list span_info)) :=
  match page_numbers with
  | [] => Some acc
  | page_number :: rest =>
      if load_page doc page_number && read_text doc page_number
      then extract_pages doc rest (acc ++ [extract_page (get_text doc page_number)])
      else None
  end.

(** [extract_text_from_pdf] (lines 41-73). *)
Definition extract_text_from_pdf (file_path : string) : outcome extraction :=
  match fitz_open file_path with
  | None => Raise OpenError
  | Some pds =>
      let doc := new_document pds in
      match extract_pages doc (seq 0 (length doc)) [] with
      | None => Raise PageError
      | Some page_lists =>
          if close doc then Return (Extraction page_lists) else Raise CloseError
      end
  end.

(** One turn of the loop of lines 127-159: the state is the document and
    [annotations]. *)
Definition plan_step (page_number : nat) (spans : list span)
    (st : document * list plan_entry) (item : string * string)
  : document * list plan_entry :=
  let '(d, annotations) := st in
  let '(span_index_str, new_text) := item in
  match py_int span_index_str with
  | None => st
  | Some span_index =>
      if (span_index <? 0) || (span_index >=? Z.of_nat (length spans)) then st
      else
        match spans !! Z.to_nat span_index with
        | None => st
        | Some s =>
            let bbox := span_bbox s in
            if bbox_falsy bbox then st
            else
              let bbox := default [] bbox in
              match add_redact_annot d page_number bbox (1, 1, 1) with
              | None =>
                  (record_call d page_number (AddRedactAnnot bbox (1, 1, 1)) false,
                   annotations)
              | Some a =>
                  (record_call d page_number (AddRedactAnnot bbox (1, 1, 1)) true,
                   annotations ++
                   [ {| pe_annot := a;
                        pe_bbox := bbox;
                        pe_font := default "helv" (span_font s);
                        pe_size := default (PyInt 12) (span_size s);
                        pe_color := default 0 (span_color s);
                        pe_new_text := new_text |} ])
              end
        end
  end.

(** [(bbox[0], bbox[3] - 1)]; [None] when an index is out of range. *)
Definition insertion_point (bbox : list pynum) : option (pynum * pynum) :=
  match bbox !! 0%nat, bbox !! 3%nat with
  | Some x0, Some y1 => Some (x0, py_sub1 y1)
  | _, _ => None
  end.

(** The call of lines 179-182 for an entry and its insertion point. *)
Definition insert_call (item : plan_entry) (pt : pynum * pynum) : call :=
  InsertText pt (pe_new_text item) (pe_font item) (pe_size item) (0, 0, 0).

(** One turn of the loop of lines 169-185. *)
Definition insert_step (page_number : nat) (d : document) (item : plan_entry) : document :=
  match insertion_point (pe_bbox item) with
  | None => d
  | Some pt =>
      record_call d page_number (insert_call item pt)
        (insert_text d page_number pt (pe_new_text item) (pe_font item) (pe_size item) (0, 0, 0))
  end.

(** The body of the loop over pages (lines 109-185), once [doc[page_number]]
    and, on a page with an entry, [page.get_text("dict")] have returned. *)
Definition apply_page (edits : gmap string page_edits_t) (d : document) (page_number : nat)
  : document :=
  let page_key := str page_number in
  match edits !! page_key with
  | None => d
  | Some page_edits =>
      let spans := derive_spans (get_text d page_number) in
      let '(d1, annotations) := fold_left (plan_step page_number spans) page_edits (d, []) in
      if apply_redactions d1 page_number
      then fold_left (insert_step page_number) annotations
             (record_call d1 page_number ApplyRedactions true)
      else record_call d1 page_number ApplyRedactions false
  end.

(** The document the loop over pages ends with when every page is read. *)
Definition apply_pages (edits : gmap string page_edits_t) (d : document) : document :=
  fold_left (apply_page edits) (seq 0 (length d)) d.

(** The loop over pages (lines 108-185): [None] when [doc[page_number]]
    raises (line 109, on every page) or [page.get_text("dict")] does
    (line 115, on a page with an entry), which ends the loop and the
    call. *)
Fixpoint apply_loop (edits : gmap string page_edits_t) (page_numbers : list nat)
    (d : document) : option document :=
  match page_numbers with
  | [] => Some d
  | page_number :: rest =>
      if load_page d page_number then
        match edits !! str page_number with
        | None => apply_loop edits rest d
        | Some _ =>
            if read_text d page_number
            then apply_loop edits rest (apply_page edits d page_number)
            else None
        end
      else None
  end.

(** [apply_text_edits_to_pdf] (lines 101-197). *)
Definition apply_text_edits_to_pdf (pdf_path : string) (edits : gmap string page_edits_t)
  : outcome (list Byte.byte) :=
  match fitz_open pdf_path with
  | None => Raise OpenError
  | Some pds =>
      let doc := new_document pds in
      match apply_loop edits (seq 0 (length doc)) doc with
      | None => Raise PageError
      | Some doc' =>
          match save doc' with
          | None => Raise SaveError
          | Some output => if close doc' then Return output else Raise CloseError
          end
      end
  end.

End Rewriter.

(** ** A library instance to run the model on

    [toy_fitz bad_page] opens one file, ["doc.pdf"], with two pages. Every
    page can be read. Marking fails on a box with fewer than four
    coordinates, the commit fails on page [bad_page], inserting fails for a
    font size of zero, and saving writes one byte per page: the number of
    calls logged on it. *)

Definition hello_span : span :=
  Span (Some "Hello") (Some [PyInt 10; PyInt 10; PyInt 50; PyInt 20])
       (Some "Helvetica") (Some (PyInt 12)) (Some 0).

Definition world_span : span :=
  Span (Some "World") (Some [PyFloat 60.5; PyFloat 10; PyFloat 99.25; PyFloat 20.5])
       None None None.

(** A span with an empty font name and a size of zero. *)
Definition plain_span : span :=
  Span (Some "x") (Some [PyInt 1; PyInt 2; PyInt 3; PyInt 4]) (Some "") (Some (PyInt 0)) (Some 255).

Definition image_block : block := Block (Some 1) None.

Definition toy_page0 : page_dict :=
  PageDict (Some [ Block (Some 0) (Some [ Line (Some [hello_span]); Line (Some [world_span]) ]);
                   image_block;
                   Block (Some 0) (Some [ Line (Some [plain_span]) ]) ]).

Definition toy_page1 : page_dict :=
  PageDict (Some [ image_block; Block (Some 0) (Some [ Line (Some [hello_span]) ]) ]).

Definition toy_pages : list page_dict := [toy_page0; toy_page1].

Definition is_zero (x : pynum) : bool :=
  match x with
  | PyInt z => z =? 0
  | PyFloat f => PrimFloat.eqb f 0%float
  end.

Definition toy_fitz (bad_page : option nat) : Fitz :=
  {| annot := nat;
     fitz_open path := if String.eqb path "doc.pdf" then Some toy_pages else None;
     load_page d n := true;
     read_text d n := true;
     add_redact_annot d n bbox fill :=
       if (length bbox <? 4)%nat then None
       else Some (length (from_option page_log [] (d !! n)));
     apply_redactions d n := negb (bool_decide (bad_page = Some n));
     insert_text d n pt text font size color := negb (is_zero size);
     save d := Some ((fun p => default Byte.xff (Byte.of_nat (length (page_log p)))) <$> d);
     close d := true |}.

(** [toy_fitz] on a file that is protected by a password: [fitz.open]
    returns the document, and no page of it can be loaded. *)
Definition locked_fitz : Fitz :=
  {| annot := nat;
     fitz_open := @fitz_open (toy_fitz None);
     load_page d n := false;
     read_text d n := true;
     add_redact_annot := @add_redact_annot (toy_fitz None);
     apply_redactions := @apply_redactions (toy_fitz None);
     insert_text := @insert_text (toy_fitz None);
     save := @save (toy_fitz None);
     close d := true |}.

(** The scenario of the design document: replace fragment 0 of page 0. *)
Definition bonjour_edits : gmap string page_edits_t :=
  {[ "0" := [("0", "Bonjour")] ]}.

(** ** Readings of a page's log *)

(** The boxes of the marks that were added, in order. *)
Definition marked_ok (log : list event) : list (list pynum) :=
  omap (fun e => match ev_call e, ev_ok e with
                 | AddRedactAnnot bbox _, true => Some bbox
                 | _, _ => None
                 end) log.

(** The outcomes of the commits attempted, in order. *)
Definition commits (log : list event) : list bool :=
  omap (fun e => match ev_call e with
                 | ApplyRedactions => Some (ev_ok e)
                 | _ => None
                 end) log.

(** The [insert_text] calls attempted, in order. *)
Definition insertions (log : list event) : list call :=
  omap (fun e => match ev_call e with
                 | InsertText _ _ _ _ _ => Some (ev_call e)
                 | _ => None
                 end) log.

Definition call_point (c : call) : option (pynum * pynum) :=
  match c with
  | InsertText pt _ _ _ _ => Some pt
  | _ => None
  end.

Definition call_color (c : call) : option rgb :=
  match c with
  | InsertText _ _ _ _ color => Some color
  | _ => None
  end.

Definition is_mark (e : event) : Prop :=
  match ev_call e with AddRedactAnnot _ _ => True | _ => False end.

Definition is_insert (e : event) : Prop :=
  match ev_call e with InsertText _ _ _ _ _ => True | _ => False end.

(** A document with [evs] added at the end of the log of page [n]. *)
Definition extend_log (evs : list event) (p : page) : page :=
  {| page_text := page_text p; page_log := page_log p ++ evs |}.

Definition append_events (d : document) (n : nat) (evs : list event) : document :=
  alter (extend_log evs) n d.

(** The state of the document when the loop over pages reaches page [n]. *)
Definition doc_before `{Fitz} (edits : gmap string page_edits_t) (d : document) (n : nat)
  : document :=
  fold_left (apply_page edits) (seq 0 n) d.

(** The list [spans] the rewriter builds when it reaches page [n]. *)
Definition rederived_spans `{Fitz} (edits : gmap string page_edits_t) (d : document) (n : nat)
  : list span :=
  derive_spans (get_text (doc_before edits d n) n).

(** ** Notions the properties are stated with *)

(** The anchor as the design document words it, for a box whose bottom-left
    corner is (x0, y1): that corner, one unit up. One unit less is [z - 1]
    for an integer [z] and the binary64 difference of [f] and 1.0 for a
    float [f]. *)
Definition spec_anchor (x0 y1 : pynum) : pynum * pynum :=
  match y1 with
  | PyInt z => (x0, PyInt (z - 1))
  | PyFloat f => (x0, PyFloat (PrimFloat.sub f 1%float))
  end.

Section RewriterNotions.
Context `{lib : Fitz}.

(** The call the reinsertion loop attempts for an entry, if any. *)
Definition attempted (item : plan_entry) : option call :=
  insert_call item <$> insertion_point (pe_bbox item).

(** The reinsertion call as the design document words it: for an entry with
    bounding box (x0, y0, x1, y1), the text at the anchor, in the entry's
    font and size, in black; the entry's colour plays no part. *)
Definition spec_reinsertion (item : plan_entry) : option call :=
  match pe_bbox item with
  | x0 :: _ :: _ :: y1 :: _ =>
      Some (InsertText (spec_anchor x0 y1) (pe_new_text item) (pe_font item) (pe_size item)
              (0, 0, 0))
  | _ => None
  end.

(** The plan ([annotations]) the rewriter has built from the items of page
    [n] when it commits the page. *)
Definition page_plan (edits : gmap string page_edits_t) (d : document) (n : nat)
    (items : page_edits_t) : list plan_entry :=
  (fold_left (plan_step n (rederived_spans edits d n)) items (doc_before edits d n, [])).2.

(** Every page is loaded and read when [extract_text_from_pdf] gets to
    it. *)
Definition extract_reads (doc : document) : bool :=
  forallb (fun n => load_page doc n && read_text doc n) (seq 0 (length doc)).

(** Page [n] is loaded when the loop of [apply_text_edits_to_pdf] gets to
    it, and its text is read if the page has an entry in the edits. *)
Definition page_reads (edits : gmap string page_edits_t) (d : document) (n : nat) : bool :=
  load_page (doc_before edits d n) n
  && match edits !! str n with
     | Some _ => read_text (doc_before edits d n) n
     | None => true
     end.

Definition apply_reads (edits : gmap string page_edits_t) (d : document) : bool :=
  forallb (page_reads edits d) (seq 0 (length d)).

(** What a page's turn of the loop adds to its log. *)
Definition page_run (edits : gmap string page_edits_t) (n : nat) (evs : list event) : Prop :=
  match edits !! str n with
  | None => evs = []
  | Some items =>
      exists marks ok ins (plan : list plan_entry),
        evs = marks ++ Event ApplyRedactions ok :: ins
        /\ Forall is_mark marks
        /\ marked_ok marks = pe_bbox <$> plan
        /\ ev_call <$> ins = (if ok then omap attempted plan else [])
        /\ (length marks <= length items)%nat
  end.

End RewriterNotions.

(** The page a key designates: the [n] with [str n = k], if there is one. *)
Definition page_key_index (k : string) : option nat :=
  match NilZero.uint_of_string k with
  | Some u => if decide (str (Nat.of_uint u) = k) then Some (Nat.of_uint u) else None
  | None => None
  end.

(** A key that parses as a non-negative integer: [int] returns for it, and
    the value is not negative. *)
Definition well_formed_key (k : string) : bool :=
  match py_int k with
  | Some v => 0 <=? v
  | None => false
  end.

(** The edits without the entries whose page key or fragment key is
    malformed. *)
Definition drop_malformed (edits : gmap string page_edits_t) : gmap string page_edits_t :=
  List.filter (fun item : string * string => well_formed_key item.1) <$>
    filter (fun kv : string * list (string * string) => well_formed_key kv.1 = true) edits.

(** A fragment key that, if it parses, gives an index within [spans]. *)
Definition in_range (spans : list span) (item : string * string) : bool :=
  match py_int item.1 with
  | Some i => (0 <=? i) && (i <? Z.of_nat (length spans))
  | None => true
  end.

(** The edits without the entries of pages the document does not have and
    without the entries whose index is outside the page's spans. *)
Definition drop_out_of_range (pds : list page_dict) (edits : gmap string page_edits_t)
  : gmap string page_edits_t :=
  map_imap (fun k (items : list (string * string)) =>
              n ← page_key_index k;
              pd ← pds !! n;
              Some (List.filter (in_range (derive_spans pd)) items)) edits.

(** The edits used below: three on page 0 (fragment 2, a malformed key, an
    index out of range, fragment 1), one on page 1, one under the page key
    ["05"]. *)
Definition toy_edits : gmap string page_edits_t :=
  {[ "0" := [("2", "a"); ("x", "b"); ("7", "c"); ("1", "W")];
     "1" := [("0", "P1")];
     "05" := [("0", "z")] ]}.

(** One edit, on page 0, for a fragment the page does not have. *)
Definition stray_edits : gmap string page_edits_t :=
  {[ "0" := [("7", "c")] ]}.

(** * The JSON hand-over of [routes.py]

    [upload] writes the extraction with [json.dump]; [edit] reads it back
    with [json.load]. Both are Python's [json] module with its default
    settings, modelled here after CPython's [json.encoder] and
    [json.decoder]: the encoder escapes everything outside printable ASCII
    and separates items with [", "] and [": "]; the decoder is the scanner
    with its string, number, array and object readers.

    [float.__repr__] and [float(text)] are parameters ([float_repr] and
    [float_of_string]). A recursion bound replaces Python's call stack; the
    length of the text is enough for every text. *)

(** ** Python values *)

#[local] Unset Elimination Schemes.
Inductive pyval : Type :=
| PyNone
| PyBool (b : bool)
| PyNumber (x : pynum)
| PyStr (s : string)
| PyList (l : list pyval)
| PyDict (items : list (string * pyval)).
#[local] Set Elimination Schemes.

(** The dictionary [extract_text_from_pdf] builds for a span (lines 62-68),
    keys in insertion order. The bbox is its sequence of coordinates:
    [json] writes a tuple as it writes a list, and reads a list. *)
Definition span_info_value (f : span_info) : pyval :=
  PyDict [ ("text", PyStr (si_text f));
           ("bbox", PyList (PyNumber <$> si_bbox f));
           ("font", PyStr (si_font f));
           ("size", PyNumber (si_size f));
           ("color", PyNumber (PyInt (si_color f))) ].

(** The dictionary [extract_text_from_pdf] returns. *)
Definition extraction_value (ex : extraction) : pyval :=
  PyDict [ ("pages", PyList ((fun frags => PyList (span_info_value <$> frags)) <$> pages ex)) ].

(** ** The encoder *)

Definition dquote : ascii := ascii_of_N 34.
Definition backslash : ascii := ascii_of_N 92.

Definition hex_char (n : N) : ascii :=
  if (n <? 10)%N then ascii_of_N (48 + n) else ascii_of_N (87 + n).

(** [ESCAPE_DCT] and the [\uXXXX] fallback of [py_encode_basestring_ascii],
    for a code point below 256. *)
Definition escape_char (c : ascii) : string :=
  let n := N_of_ascii c in
  if (n =? 34)%N then String backslash (String dquote "")
  else if (n =? 92)%N then String backslash (String backslash "")
  else if (n =? 10)%N then String backslash "n"
  else if (n =? 13)%N then String backslash "r"
  else if (n =? 9)%N then String backslash "t"
  else if (n =? 8)%N then String backslash "b"
  else if (n =? 12)%N then String backslash "f"
  else if ((32 <=? n) && (n <=? 126))%N then String c ""
  else String backslash
         (String "u" (String "0" (String "0"
            (String (hex_char (n / 16)) (String (hex_char (n mod 16)) ""))))).

Fixpoint escape_string (s : string) : string :=
  match s with
  | EmptyString => ""
  | String c s' => escape_char c +:+ escape_string s'
  end.

Definition encode_basestring_ascii (s : string) : string :=
  String dquote (escape_string s +:+ String dquote "").

(** [int.__repr__] *)
Definition int_repr (z : Z) : string :=
  if z <? 0 then String "-" (str (Z.to_nat (- z))) else str (Z.to_nat z).

(** Items joined by [", "]. *)
Fixpoint join (l : list string) : string :=
  match l with
  | [] => ""
  | x :: l' => x +:+ match l' with [] => "" | _ :: _ => ", " +:+ join l' end
  end.

(** ** The decoder's readers that do not recurse *)

Definition is_json_ws (c : ascii) : bool :=
  let n := N_of_ascii c in ((n =? 32) || (n =? 9) || (n =? 10) || (n =? 13))%N.

Fixpoint skip_ws (s : string) : string :=
  match s with
  | String c s' => if is_json_ws c then skip_ws s' else s
  | EmptyString => EmptyString
  end.

Definition hex_value (c : ascii) : option N :=
  let n := N_of_ascii c in
  if ((48 <=? n) && (n <=? 57))%N then Some (n - 48)%N
  else if ((97 <=? n) && (n <=? 102))%N then Some (n - 87)%N
  else if ((65 <=? n) && (n <=? 70))%N then Some (n - 55)%N
  else None.

Definition hex4 (h1 h2 h3 h4 : ascii) : option N :=
  a ← hex_value h1; b ← hex_value h2; c ← hex_value h3; d ← hex_value h4;
  Some (((a * 16 + b) * 16 + c) * 16 + d)%N.

(** The [BACKSLASH] table of the decoder. *)
Definition unescape (e : ascii) : option ascii :=
  let n := N_of_ascii e in
  if (n =? 34)%N then Some dquote
  else if (n =? 92)%N then Some backslash
  else if (n =? 47)%N then Some "/"%char
  else if (n =? 98)%N then Some (ascii_of_N 8)
  else if (n =? 102)%N then Some (ascii_of_N 12)
  else if (n =? 110)%N then Some (ascii_of_N 10)
  else if (n =? 114)%N then Some (ascii_of_N 13)
  else if (n =? 116)%N then Some (ascii_of_N 9)
  else None.

Definition cons_char (c : ascii) (r : string * string) : string * string :=
  (String c r.1, r.2).

(** [scanstring], strict, on the text after the opening quote: the string
    read and the text after the closing quote. A [\uXXXX] escape of a code
    point from 256 on is beyond the strings of this embedding. *)
Fixpoint scanstring (s : string) : option (string * string) :=
  match s with
  | EmptyString => None
  | String c s' =>
      let n := N_of_ascii c in
      if (n =? 34)%N then Some ("", s')
      else if (n =? 92)%N then
        match s' with
        | String e s'' =>
            if (N_of_ascii e =? 117)%N then
              match s'' with
              | String h1 (String h2 (String h3 (String h4 r))) =>
                  match hex4 h1 h2 h3 h4 with
                  | Some cp =>
                      if (cp <? 256)%N then cons_char (ascii_of_N cp) <$> scanstring r
                      else None
                  | None => None
                  end
              | _ => None
              end
            else
              match unescape e with
              | Some ch => cons_char ch <$> scanstring s''
              | None => None
              end
        | EmptyString => None
        end
      else if (n <? 32)%N then None
      else cons_char c <$> scanstring s'
  end.

Definition is_digit (c : ascii) : bool :=
  let n := N_of_ascii c in ((48 <=? n) && (n <=? 57))%N.

(** The longest run of digits at the start, and what follows. *)
Fixpoint take_digits (s : string) : string * string :=
  match s with
  | String c s' => if is_digit c then cons_char c (take_digits s') else ("", s)
  | EmptyString => ("", "")
  end.

(** The three groups of [NUMBER_RE]: the integer (an optional minus sign,
    then either 0 or a digit from 1 to 9 followed by any digits), the
    optional fraction (a dot and one digit or more) and the optional
    exponent (e or E, an optional sign, one digit or more). *)
Definition match_unsigned (s : string) : option (string * string) :=
  match s with
  | String c r =>
      if (N_of_ascii c =? 48)%N then Some ("0", r)
      else if is_digit c then Some (cons_char c (take_digits r))
      else None
  | EmptyString => None
  end.

Definition match_integer (s : string) : option (string * string) :=
  match s with
  | String c r => if Ascii.eqb c "-" then cons_char c <$> match_unsigned r else match_unsigned s
  | EmptyString => None
  end.

(** An absent group is [""]: a group that is present is never empty. *)
Definition match_frac (s : string) : string * string :=
  match s with
  | String d (String c r) =>
      if Ascii.eqb d "." && is_digit c then cons_char d (cons_char c (take_digits r))
      else ("", s)
  | _ => ("", s)
  end.

Definition match_exp (s : string) : string * string :=
  match s with
  | String e r =>
      if ((N_of_ascii e =? 101) || (N_of_ascii e =? 69))%N then
        match r with
        | String c r' =>
            if is_digit c then cons_char e (cons_char c (take_digits r'))
            else if ((N_of_ascii c =? 43) || (N_of_ascii c =? 45))%N then
              match r' with
              | String c' r'' =>
                  if is_digit c'
                  then cons_char e (cons_char c (cons_char c' (take_digits r'')))
                  else ("", s)
              | EmptyString => ("", s)
              end
            else ("", s)
        | EmptyString => ("", s)
        end
      else ("", s)
  | EmptyString => ("", s)
  end.

(** The groups [integer], [frac] and [exp], and the text after the match. *)
Definition match_number (s : string) : option (string * string * string * string) :=
  match match_integer s with
  | None => None
  | Some (i, r1) =>
      let '(f, r2) := match_frac r1 in
      let '(e, r3) := match_exp r2 in
      Some (i, f, e, r3)
  end.

Fixpoint strip_prefix (p s : string) : option string :=
  match p with
  | EmptyString => Some s
  | String a p' =>
      match s with
      | String b s' => if Ascii.eqb a b then strip_prefix p' s' else None
      | EmptyString => None
      end
  end.

(** [dict(pairs)]: a later pair with a key already present replaces the
    value in place. *)
Fixpoint dict_set (d : list (string * pyval)) (k : string) (v : pyval)
  : list (string * pyval) :=
  match d with
  | [] => [(k, v)]
  | (k', v') :: d' => if String.eqb k' k then (k', v) :: d' else (k', v') :: dict_set d' k v
  end.

Definition dict_of_pairs (pairs : list (string * pyval)) : list (string * pyval) :=
  fold_left (fun d kv => dict_set d kv.1 kv.2) pairs [].

(** What may follow a value in the encoder's output: the end of the text, a
    comma, or a closing bracket or brace. *)
Definition delimited (rest : string) : bool :=
  match rest with
  | EmptyString => true
  | String c _ => let n := N_of_ascii c in ((n =? 44) || (n =? 93) || (n =? 125))%N
  end.

(** A match and the text after it, once [rest] is added to the text. *)
Definition add_rest (rest : string) (p : string * string) : string * string :=
  (p.1, p.2 +:+ rest).

(** The number of nodes of a value: a bound on the calls the decoder
    nests and on the turns of its loops. *)
Fixpoint size (v : pyval) : nat :=
  match v with
  | PyList l => S (foldr (fun v n => size v + n)%nat 0%nat l)
  | PyDict items => S (foldr (fun kv n => size kv.2 + n)%nat 0%nat items)
  | _ => 1
  end.

(** The first character of an encoded value. *)
Definition value_start (c : ascii) : bool :=
  let n := N_of_ascii c in
  (is_digit c || (n =? 34) || (n =? 123) || (n =? 91) || (n =? 110) || (n =? 116)
   || (n =? 102) || (n =? 78) || (n =? 73) || (n =? 45))%N.

Section Json.
Variable float_repr : float -> string.
Variable float_of_string : string -> option float.

(** [floatstr] of [json.encoder] with [allow_nan]. *)
Definition floatstr (f : float) : string :=
  if negb (PrimFloat.eqb f f) then "NaN"
  else if PrimFloat.eqb f infinity then "Infinity"
  else if PrimFloat.eqb f neg_infinity then "-Infinity"
  else float_repr f.

(** [json.dumps(v)], which is also what [json.dump(v, fp)] writes. *)
Fixpoint json_dumps (v : pyval) : string :=
  match v with
  | PyNone => "null"
  | PyBool b => if b then "true" else "false"
  | PyNumber (PyInt z) => int_repr z
  | PyNumber (PyFloat f) => floatstr f
  | PyStr s => encode_basestring_ascii s
  | PyList l => String "[" (join (json_dumps <$> l) +:+ "]")
  | PyDict items =>
      String "{"
        (join ((fun kv => encode_basestring_ascii kv.1 +:+ ": " +:+ json_dumps kv.2) <$> items)
         +:+ "}")
  end.

(** A number at the start of [s]: the numeral of the integer group when
    there is no other group, [float] of the whole match otherwise. The
    limit of [int] on the number of digits is left out of the decoder: a
    property below that depends on what a text is decoded to takes a text
    the encoder wrote, or a text of at most [max_str_digits] digits in
    all. *)
Definition scan_number (s : string) : option (pyval * string) :=
  match match_number s with
  | Some (i, f, e, r) =>
      if String.eqb f "" && String.eqb e ""
      then (fun z => (PyNumber (PyInt z), r)) <$> long_from_string i
      else (fun x => (PyNumber (PyFloat x), r)) <$> float_of_string (i +:+ f +:+ e)
  | None => None
  end.

(** The loop of [JSONArray]; [s] is at the start of a value. *)
Fixpoint array_loop (scan : string -> option (pyval * string)) (n : nat)
    (values : list pyval) (s : string) : option (list pyval * string) :=
  match n with
  | O => None
  | S n' =>
      match scan s with
      | None => None
      | Some (v, r) =>
          match skip_ws r with
          | String "]" r' => Some (values ++ [v], r')
          | String "," r' => array_loop scan n' (values ++ [v]) (skip_ws r')
          | _ => None
          end
      end
  end.

Definition JSONArray (scan : string -> option (pyval * string)) (n : nat) (s : string)
  : option (list pyval * string) :=
  match skip_ws s with
  | String "]" r => Some ([], r)
  | s1 => array_loop scan n [] s1
  end.

(** The loop of [JSONObject]; [s] is just after the opening quote of a
    key. *)
Fixpoint object_loop (scan : string -> option (pyval * string)) (n : nat)
    (pairs : list (string * pyval)) (s : string) : option (list (string * pyval) * string) :=
  match n with
  | O => None
  | S n' =>
      match scanstring s with
      | None => None
      | Some (key, r) =>
          match (match r with String ":" _ => r | _ => skip_ws r end) with
          | String ":" r2 =>
              match scan (skip_ws r2) with
              | None => None
              | Some (v, r3) =>
                  match skip_ws r3 with
                  | String "}" r4 => Some (dict_of_pairs (pairs ++ [(key, v)]), r4)
                  | String "," r4 =>
                      match skip_ws r4 with
                      | String c r5 =>
                          if Ascii.eqb c dquote
                          then object_loop scan n' (pairs ++ [(key, v)]) r5
                          else None
                      | EmptyString => None
                      end
                  | _ => None
                  end
              end
          | _ => None
          end
      end
  end.

Definition JSONObject (scan : string -> option (pyval * string)) (n : nat) (s : string)
  : option (list (string * pyval) * string) :=
  match skip_ws s with
  | String "}" r => Some ([], r)
  | String c r => if Ascii.eqb c dquote then object_loop scan n [] r else None
  | EmptyString => None
  end.

Definition with_rest {A B : Type} (f : A -> B) (r : A * string) : B * string := (f r.1, r.2).

(** [scan_once] of [json.scanner]. *)
Fixpoint scan_once (fuel : nat) (s : string) : option (pyval * string) :=
  match fuel with
  | O => None
  | S fuel' =>
      match s with
      | EmptyString => None
      | String c s' =>
          if Ascii.eqb c dquote then with_rest PyStr <$> scanstring s'
          else if Ascii.eqb c "{" then with_rest PyDict <$> JSONObject (scan_once fuel') fuel' s'
          else if Ascii.eqb c "[" then with_rest PyList <$> JSONArray (scan_once fuel') fuel' s'
          else
            match strip_prefix "null" s, strip_prefix "true" s, strip_prefix "false" s with
            | Some r, _, _ => Some (PyNone, r)
            | _, Some r, _ => Some (PyBool true, r)
            | _, _, Some r => Some (PyBool false, r)
            | None, None, None =>
                match scan_number s with
                | Some res => Some res
                | None =>
                    match strip_prefix "NaN" s, strip_prefix "Infinity" s,
                          strip_prefix "-Infinity" s with
                    | Some r, _, _ => Some (PyNumber (PyFloat nan), r)
                    | _, Some r, _ => Some (PyNumber (PyFloat infinity), r)
                    | _, _, Some r => Some (PyNumber (PyFloat neg_infinity), r)
                    | None, None, None => None
                    end
                end
            end
      end
  end.

(** [json.loads(s)], which is also [json.load(fp)] for a file holding [s]:
    [None] is [JSONDecodeError]. *)
Definition json_loads (s : string) : option pyval :=
  match scan_once (String.length s) (skip_ws s) with
  | Some (v, r) =>
      match skip_ws r with
      | EmptyString => Some v
      | _ => None
      end
  | None => None
  end.

(** A text that [NUMBER_RE] matches whole, with a fraction or an exponent:
    what the decoder hands to [float]. *)
Definition is_float_token (s : string) : bool :=
  match match_number s with
  | Some (_, f, e, r) => String.eqb r "" && negb (String.eqb f "" && String.eqb e "")
  | None => false
  end.

(** What the round trip needs of [float.__repr__] and [float] for a finite
    [f]: the text is a JSON number that is read as a float, and reading it
    gives [f] back. *)
Definition float_ok (f : float) : Prop :=
  PrimFloat.eqb f f = true ->
  PrimFloat.eqb f infinity = false ->
  PrimFloat.eqb f neg_infinity = false ->
  is_float_token (float_repr f) = true /\ float_of_string (float_repr f) = Some f.

Definition num_ok (x : pynum) : Prop :=
  match x with
  | PyInt _ => True
  | PyFloat f => float_ok f
  end.

(** The values the round trip is stated for: their floats are read back
    from their [repr], and no dictionary has a key twice. *)
Fixpoint wf_value (v : pyval) : Prop :=
  match v with
  | PyNumber x => num_ok x
  | PyList l => foldr (fun v P => wf_value v /\ P) True l
  | PyDict items => NoDup items.*1 /\ foldr (fun kv P => wf_value kv.2 /\ P) True items
  | _ => True
  end.

(** The text of one item of a dictionary. *)
Definition pair_text (kv : string * pyval) : string :=
  encode_basestring_ascii kv.1 +:+ ": " +:+ json_dumps kv.2.

(** Every float of the model is read back from its [repr]. *)
Definition extraction_floats_ok (ex : extraction) : Prop :=
  Forall (Forall (fun f => Forall num_ok (si_bbox f) /\ num_ok (si_size f))) (pages ex).

End Json.

(** Stand-ins for [float.__repr__] and [float] on the floats of the toy
    pages. *)
Definition toy_float_repr (f : float) : string :=
  if PrimFloat.Leibniz.eqb f 20.5%float then "20.5"
  else if PrimFloat.Leibniz.eqb f 60.5%float then "60.5"
  else if PrimFloat.Leibniz.eqb f 10%float then "10.0"
  else if PrimFloat.Leibniz.eqb f 99.25%float then "99.25"
  else "0.0".

Definition toy_float_of_string (s : string) : option float :=
  if String.eqb s "20.5" then Some 20.5%float
  else if String.eqb s "60.5" then Some 60.5%float
  else if String.eqb s "10.0" then Some 10%float
  else if String.eqb s "99.25" then Some 99.25%float
  else Some 0%float.

(** The extraction of the toy document. *)
Definition toy_extraction : extraction := Extraction (extract_page <$> toy_pages).

(** * What the two functions of [pdf_processing.py] compute

    The loops of the source, read as lists: the spans a page contributes,
    the edits of a page that reach the library, and the calls they lead
    to. *)

(** The spans of the text blocks of a page, in block, line and span
    order. *)
Definition text_spans (pd : page_dict) : list span :=
  b ← default [] (pd_blocks pd);
  if block_skipped b then []
  else l ← default [] (block_lines b); default [] (line_spans l).

(** The span an edit addresses and its replacement text: the key parses
    as an index within [spans] and the span there has a non-empty box. *)
Definition valid_edit (spans : list span) (item : string * string) : option (span * string) :=
  match py_int item.1 with
  | Some i =>
      if (0 <=? i) && (i <? Z.of_nat (length spans)) then
        match spans !! Z.to_nat i with
        | Some s => if bbox_falsy (span_bbox s) then None else Some (s, item.2)
        | None => None
        end
      else None
  | None => None
  end.

Definition span_box (s : span) : list pynum := default [] (span_bbox s).

(** The mark of an edit: the span's box, filled white. *)
Definition mark_call (v : span * string) : call :=
  AddRedactAnnot (span_box v.1) (1, 1, 1).

(** The insertion of an edit, when the box has the two coordinates of the
    anchor. *)
Definition text_call (v : span * string) : option call :=
  pt ← insertion_point (span_box v.1);
  Some (InsertText pt v.2 (default "helv" (span_font v.1))
          (default (PyInt 12) (span_size v.1)) (0, 0, 0)).

(** The edits whose mark was added. *)
Definition planned (vs : list (span * string)) (oks : list bool) : list (span * string) :=
  fst <$> List.filter snd (zip vs oks).

(** The log of a page that had the valid edits [vs]: one mark per edit,
    added or not; one commit; if it went through, one insertion per added
    mark that has an anchor. *)
Definition page_log_of (vs : list (span * string)) (log : list event) : Prop :=
  exists (oks : list bool) (ok : bool) (ioks : list bool),
    length oks = length vs
    /\ length ioks = length (omap text_call (planned vs oks))
    /\ log = zip_with (fun v o => Event (mark_call v) o) vs oks
             ++ Event ApplyRedactions ok
             :: (if ok then zip_with Event (omap text_call (planned vs oks)) ioks else []).

(** A call on a page that the edits of the page ask for: a white mark on
    the non-empty box of the span that the key of one of the page's edits
    is the index of; the commit, on a page that has an entry; or the
    insertion in black of the replacement text of an edit whose key is the
    index of a span, anchored at that span's box, in its font and size or
    their defaults. *)
Definition call_asked_for (spans : list span) (page_edits : option page_edits_t) (c : call)
  : Prop :=
  match c with
  | AddRedactAnnot bbox fill =>
      fill = (1, 1, 1) /\ bbox <> []
      /\ exists items key text i s,
           page_edits = Some items /\ (key, text) ∈ items
           /\ py_int key = Some (Z.of_nat i) /\ spans !! i = Some s
           /\ span_bbox s = Some bbox
  | ApplyRedactions => is_Some page_edits
  | InsertText pt text font size color =>
      color = (0, 0, 0)
      /\ exists items key i s,
           page_edits = Some items /\ (key, text) ∈ items
           /\ py_int key = Some (Z.of_nat i) /\ spans !! i = Some s
           /\ insertion_point (span_box s) = Some pt
           /\ font = default "helv" (span_font s)
           /\ size = default (PyInt 12) (span_size s)
  end.

(** [k] zeros. *)
Fixpoint zeros (k : nat) : string :=
  match k with
  | O => ""
  | S k' => String "0" (zeros k')
  end.

(** Every character of [s] is a blank for [int]. *)
Fixpoint blank (s : string) : bool :=
  match s with
  | EmptyString => true
  | String c s' => is_space c && blank s'
  end.

(** A spelling of the index [i] that [int] accepts: blanks, an optional
    plus sign, leading zeros, the digits, blanks. *)
Definition spelling (lead : string) (plus : bool) (k : nat) (i : nat) (trail : string)
  : string :=
  lead +:+ (if plus then "+" else "") +:+ zeros k +:+ str i +:+ trail.

(** What may follow the digits: nothing, or a character that is neither a
    digit nor an underscore. *)
Definition ends_digits (rest : string) : Prop :=
  match rest with
  | EmptyString => True
  | String c _ => digit_value c = None /\ Ascii.eqb c "_" = false
  end.

(** * The text [json.dump] writes *)

(** A printable ASCII character. *)
Definition printable (c : ascii) : bool :=
  let n := N_of_ascii c in ((32 <=? n) && (n <=? 126))%N.

Fixpoint all_chars (p : ascii -> bool) (s : string) : bool :=
  match s with
  | EmptyString => true
  | String c s' => p c && all_chars p s'
  end.

(** * [routes.py]: the file name check *)

(** ['.' in filename]. *)
Fixpoint contains_char (c : ascii) (s : string) : bool :=
  match s with
  | EmptyString => false
  | String x s' => Ascii.eqb x c || contains_char c s'
  end.

(** [s.rsplit(sep, 1)] for a separator of one character: the text before
    the last separator and the text after it, or [s] alone when it has no
    separator. *)
Fixpoint rsplit1 (sep : ascii) (s : string) : list string :=
  match s with
  | EmptyString => [""]
  | String x s' =>
      match rsplit1 sep s' with
      | [head; tail] => [String x head; tail]
      | _ => if Ascii.eqb x sep then [""; s'] else [String x s']
      end
  end.

(** [str.lower] on a code point below 256: the letters A-Z and the
    capital letters of Latin-1 (192-222 but for the multiplication sign)
    move up by 32. *)
Definition lower_char (c : ascii) : ascii :=
  let n := N_of_ascii c in
  if ((65 <=? n) && (n <=? 90) || (192 <=? n) && (n <=? 222) && negb (n =? 215))%N
  then ascii_of_N (n + 32) else c.

Fixpoint lower (s : string) : string :=
  match s with
  | EmptyString => ""
  | String c s' => String (lower_char c) (lower s')
  end.

(** [allowed_file] (lines 20-27). The second operand of [and] is evaluated
    only when the name has a dot, and the split then has its two parts. *)
Definition allowed_file (filename : string) : bool :=
  contains_char "." filename
  && match rsplit1 "." filename !! 1%nat with
     | Some ext => String.eqb (lower ext) "pdf"
     | None => false
     end.

(** * [apply_text_edits_to_pdf] on any decoded value

    [save] hands [apply_text_edits_to_pdf] whatever [json.loads] made of
    the form field: the edits may be any JSON value, and so may each
    replacement text. The module below is the function again, with
    Python's behaviour on such values: the membership test, the
    subscription and [.items()] raise on the wrong kind of value, and the
    replacement text reaches [insert_text] as it is. *)

(** [key in text] for two strings: [key] occurs in [text]. *)
Fixpoint occurs_in (key text : string) : bool :=
  String.prefix key text
  || match text with
     | EmptyString => false
     | String _ text' => occurs_in key text'
     end.

(** The value under [key] in the items of a dictionary. *)
Fixpoint dict_get (items : list (string * pyval)) (key : string) : option pyval :=
  match items with
  | [] => None
  | (k, v) :: items' => if String.eqb k key then Some v else dict_get items' key
  end.

(** What [apply_text_edits_to_pdf] may raise on any value: the errors of
    the library ([exn]) and Python's own. *)
Inductive error : Type :=
| Library (e : exn)
| TypeError
| KeyError
| AttributeError.

Module Dynamic.

Inductive call : Type :=
| AddRedactAnnot (bbox : list pynum) (fill : rgb)
| ApplyRedactions
| InsertText (point : pynum * pynum) (text : pyval)
    (fontname : string) (fontsize : pynum) (color : rgb).

Record event : Type := Event { ev_call : call; ev_ok : bool }.

Record page : Type := Page { page_text : page_dict; page_log : list event }.

Definition log_event (e : event) (p : page) : page :=
  {| page_text := page_text p; page_log := page_log p ++ [e] |}.

Definition record_call (d : list page) (page_number : nat) (c : call) (ok : bool)
  : list page :=
  alter (log_event (Event c ok)) page_number d.

Definition new_document (pds : list page_dict) : list page :=
  (fun pd => Page pd []) <$> pds.

(** What [page.get_text("dict")] returns, when it returns. *)
Definition get_text (d : list page) (page_number : nat) : page_dict :=
  match d !! page_number with
  | Some p => page_text p
  | None => PageDict None
  end.

(** PyMuPDF, with [insert_text] taking any value as its text. *)
Class Fitz : Type := {
  annot : Type;
  fitz_open : string -> option (list page_dict);
  load_page : list page -> nat -> bool;
  read_text : list page -> nat -> bool;
  add_redact_annot : list page -> nat -> list pynum -> rgb -> option annot;
  apply_redactions : list page -> nat -> bool;
  insert_text : list page -> nat -> pynum * pynum -> pyval -> string -> pynum -> rgb -> bool;
  save : list page -> option (list Byte.byte);
  close : list page -> bool
}.

Record plan_entry `{Fitz} : Type := PlanEntry {
  pe_annot : annot;
  pe_bbox : list pynum;
  pe_font : string;
  pe_size : pynum;
  pe_color : Z;
  pe_new_text : pyval
}.

(** [page_key in edits] (line 111). *)
Definition contains (edits : pyval) (page_key : string) : error + bool :=
  match edits with
  | PyDict items => inr (bool_decide (is_Some (dict_get items page_key)))
  | PyList l =>
      inr (existsb (fun v => match v with PyStr s => String.eqb s page_key | _ => false end) l)
  | PyStr s => inr (occurs_in page_key s)
  | PyNone | PyBool _ | PyNumber _ => inl TypeError
  end.

(** [edits[page_key]] (line 126), once [page_key in edits] holds. *)
Definition getitem (edits : pyval) (page_key : string) : error + pyval :=
  match edits with
  | PyDict items =>
      match dict_get items page_key with
      | Some v => inr v
      | None => inl KeyError
      end
  | _ => inl TypeError
  end.

(** [page_edits.items()] (line 127). *)
Definition items (page_edits : pyval) : error + list (string * pyval) :=
  match page_edits with
  | PyDict items => inr items
  | _ => inl AttributeError
  end.

Section Rewriter.
Context `{lib : Fitz}.

(** One turn of the loop of lines 127-159. *)
Definition plan_step (page_number : nat) (spans : list span)
    (st : list page * list plan_entry) (item : string * pyval)
  : list page * list plan_entry :=
  let '(d, annotations) := st in
  let '(span_index_str, new_text) := item in
  match py_int span_index_str with
  | None => st
  | Some span_index =>
      if (span_index <? 0) || (span_index >=? Z.of_nat (length spans)) then st
      else
        match spans !! Z.to_nat span_index with
        | None => st
        | Some s =>
            let bbox := span_bbox s in
            if bbox_falsy bbox then st
            else
              let bbox := default [] bbox in
              match add_redact_annot d page_number bbox (1, 1, 1) with
              | None =>
                  (record_call d page_number (AddRedactAnnot bbox (1, 1, 1)) false,
                   annotations)
              | Some a =>
                  (record_call d page_number (AddRedactAnnot bbox (1, 1, 1)) true,
                   annotations ++
                   [ {| pe_annot := a;
                        pe_bbox := bbox;
                        pe_font := default "helv" (span_font s);
                        pe_size := default (PyInt 12) (span_size s);
                        pe_color := default 0 (span_color s);
                        pe_new_text := new_text |} ])
              end
        end
  end.

(** One turn of the loop of lines 169-185. *)
Definition insert_step (page_number : nat) (d : list page) (item : plan_entry) : list page :=
  match insertion_point (pe_bbox item) with
  | None => d
  | Some pt =>
      record_call d page_number
        (InsertText pt (pe_new_text item) (pe_font item) (pe_size item) (0, 0, 0))
        (insert_text d page_number pt (pe_new_text item) (pe_font item) (pe_size item) (0, 0, 0))
  end.

(** The body of the loop over pages (lines 109-185): the page is loaded
    before the edits are looked at, and its text is read before the
    page's edits are taken out of them. *)
Definition apply_page (edits : pyval) (d : list page) (page_number : nat)
  : error + list page :=
  if load_page d page_number then
    let page_key := str page_number in
    match contains edits page_key with
    | inl e => inl e
    | inr false => inr d
    | inr true =>
        if read_text d page_number then
          let spans := derive_spans (get_text d page_number) in
          match getitem edits page_key with
          | inl e => inl e
          | inr page_edits =>
              match items page_edits with
              | inl e => inl e
              | inr page_items =>
                  let '(d1, annotations) :=
                    fold_left (plan_step page_number spans) page_items (d, []) in
                  if apply_redactions d1 page_number
                  then inr (fold_left (insert_step page_number) annotations
                              (record_call d1 page_number ApplyRedactions true))
                  else inr (record_call d1 page_number ApplyRedactions false)
              end
          end
        else inl (Library PageError)
    end
  else inl (Library PageError).

(** The loop over pages: an error ends it. *)
Fixpoint apply_pages (edits : pyval) (page_numbers : list nat) (d : list page)
  : error + list page :=
  match page_numbers with
  | [] => inr d
  | page_number :: rest =>
      match apply_page edits d page_number with
      | inl e => inl e
      | inr d' => apply_pages edits rest d'
      end
  end.

(** [apply_text_edits_to_pdf] (lines 101-197). *)
Definition apply_text_edits_to_pdf (pdf_path : string) (edits : pyval)
  : error + list Byte.byte :=
  match fitz_open pdf_path with
  | None => inl (Library OpenError)
  | Some pds =>
      let d := new_document pds in
      match apply_pages edits (seq 0 (length d)) d with
      | inl e => inl e
      | inr d' =>
          match save d' with
          | None => inl (Library SaveError)
          | Some output => if close d' then inr output else inl (Library CloseError)
          end
      end
  end.

End Rewriter.

End Dynamic.

(** ** The edits of the documented shape among the values *)

(** A call, a page and a document of the typed rewriter, as the general
    one has them. *)
Definition embed_call (c : call) : Dynamic.call :=
  match c with
  | AddRedactAnnot bbox fill => Dynamic.AddRedactAnnot bbox fill
  | ApplyRedactions => Dynamic.ApplyRedactions
  | InsertText pt text fontname fontsize color =>
      Dynamic.InsertText pt (PyStr text) fontname fontsize color
  end.

Definition embed_event (e : event) : Dynamic.event :=
  Dynamic.Event (embed_call (ev_call e)) (ev_ok e).

Definition embed_page (p : page) : Dynamic.page :=
  Dynamic.Page (page_text p) (embed_event <$> page_log p).

Definition embed (d : document) : list Dynamic.page := embed_page <$> d.

(** The library as the typed rewriter meets it: every text is a string. *)
Definition typed_lib (L : Dynamic.Fitz) : Fitz :=
  {| annot := @Dynamic.annot L;
     fitz_open := @Dynamic.fitz_open L;
     load_page d n := Dynamic.load_page (embed d) n;
     read_text d n := Dynamic.read_text (embed d) n;
     add_redact_annot d n bbox fill := Dynamic.add_redact_annot (embed d) n bbox fill;
     apply_redactions d n := Dynamic.apply_redactions (embed d) n;
     insert_text d n pt text fontname fontsize color :=
       Dynamic.insert_text (embed d) n pt (PyStr text) fontname fontsize color;
     save d := Dynamic.save (embed d);
     close d := Dynamic.close (embed d) |}.

(** An entry of [annotations] of the typed rewriter, as the general one
    has it. *)
Definition embed_entry `{L : Dynamic.Fitz} (a : @plan_entry (typed_lib L))
  : @Dynamic.plan_entry L :=
  {| Dynamic.pe_annot := pe_annot a;
     Dynamic.pe_bbox := pe_bbox a;
     Dynamic.pe_font := pe_font a;
     Dynamic.pe_size := pe_size a;
     Dynamic.pe_color := pe_color a;
     Dynamic.pe_new_text := PyStr (pe_new_text a) |}.

Definition embed_state `{L : Dynamic.Fitz}
    (st : document * list (@plan_entry (typed_lib L)))
  : list Dynamic.page * list (@Dynamic.plan_entry L) :=
  (embed st.1, embed_entry <$> st.2).

(** The items of a dictionary of strings. *)
Definition page_edits_of (v : pyval) : option page_edits_t :=
  match v with
  | PyDict items =>
      mapM (fun it : string * pyval =>
              match it.2 with
              | PyStr s => Some (it.1, s)
              | _ => None
              end) items
  | _ => None
  end.

(** The edits a value stands for, when it has the documented shape: a
    dictionary of dictionaries of strings. *)
Definition edits_of (v : pyval) : option (gmap string page_edits_t) :=
  match v with
  | PyDict items =>
      list_to_map <$> mapM (fun kv : string * pyval => pair kv.1 <$> page_edits_of kv.2) items
  | _ => None
  end.

(** The outcome of the typed function among those of the general one. *)
Definition lift_outcome {A : Type} (o : outcome A) : error + A :=
  match o with
  | Raise e => inl (Library e)
  | Return a => inr a
  end.

(** * [routes.py] and [utils.py]: the requests

    The server is the files of the upload folder, the deletion threads
    that were started and the messages flashed to the user. Writing and
    removing a file, reading a PDF and the UTF-8 codec are the host's;
    [uuid.uuid4] is an input of [upload]. A thread is taken to start when
    asked to, and a template to render; log lines are left out. Texts are
    strings of code points below 256, as everywhere in this development. *)

Record config_t : Type := Config {
  UPLOAD_FOLDER : string;
  FILE_RETENTION_TIME : Z
}.

Record server : Type := Server {
  files : gmap string (list Byte.byte);
  timers : list (string * Z);
  flashed : list string
}.

(** What a view returns. *)
Inductive location : Type :=
| RequestUrl
| IndexUrl
| EditUrl (file_id : string).

Inductive response : Type :=
| RedirectTo (to : location)
| RenderIndex
| RenderUpload
| RenderEdit (file_id : string) (extraction : pyval)
| SendFile (content : list Byte.byte) (download_name : string).

Inductive http_method : Type := GET | POST.

(** The request [upload] sees: the method and [request.files['pdf_file']],
    a file name and the content sent. *)
Record upload_request : Type := UploadRequest {
  req_method : http_method;
  req_pdf_file : option (string * list Byte.byte)
}.

(** How a write ends: the content is in the file, or the write raised,
    leaving no file of its own making ([None]) or a file with what had
    been written until then. *)
Inductive write_result : Type :=
| Written
| WriteFailed (left : option (list Byte.byte)).

(** The host.
    - [host_lib]: PyMuPDF on a document that is open; which file
      [fitz.open] opens is up to the files of the server ([fitz_on]);
    - [parse_pdf]: what [fitz.open] makes of a file with this content,
      [None] when it raises;
    - [write_outcome]: how writing this content to the path ends, in this
      state of the files;
    - [removable]: whether [os.remove] of the path goes through;
    - [encode_utf8], [decode_utf8]: the text codec of [open];
    - [host_float_repr], [host_float_of_string]: [float.__repr__] and
      [float]. *)
Class Host : Type := {
  host_lib : Dynamic.Fitz;
  parse_pdf : list Byte.byte -> option (list page_dict);
  write_outcome : gmap string (list Byte.byte) -> string -> list Byte.byte -> write_result;
  removable : gmap string (list Byte.byte) -> string -> bool;
  encode_utf8 : string -> list Byte.byte;
  decode_utf8 : list Byte.byte -> option string;
  host_float_repr : float -> string;
  host_float_of_string : string -> option float
}.

(** [s.startswith(c)] and [s.endswith(c)] for a character. *)
Definition starts_with (c : ascii) (s : string) : bool :=
  match s with
  | String x _ => Ascii.eqb x c
  | EmptyString => false
  end.

Fixpoint ends_with (c : ascii) (s : string) : bool :=
  match s with
  | EmptyString => false
  | String x EmptyString => Ascii.eqb x c
  | String _ s' => ends_with c s'
  end.

(** [os.path.join(a, b)] of [posixpath]. *)
Definition path_join (a b : string) : string :=
  if starts_with "/" b then b
  else if String.eqb a "" || ends_with "/" a then a +:+ b
  else a +:+ "/" +:+ b.

(** The folder and the separator [os.path.join] puts before a name that
    starts with [file_id]. *)
Definition path_prefix (a file_id : string) : string :=
  if starts_with "/" file_id then ""
  else if String.eqb a "" || ends_with "/" a then a
  else a +:+ "/".

Definition pdf_path (cfg : config_t) (file_id : string) : string :=
  path_join (UPLOAD_FOLDER cfg) (file_id +:+ ".pdf").

Definition json_path (cfg : config_t) (file_id : string) : string :=
  path_join (UPLOAD_FOLDER cfg) (file_id +:+ ".json").

Definition flash (message : string) (w : server) : server :=
  {| files := files w; timers := timers w; flashed := flashed w ++ [message] |}.

Section Requests.
Context `{host : Host}.

(** PyMuPDF over the files of the server. *)
Definition fitz_on (fs : gmap string (list Byte.byte)) : Dynamic.Fitz :=
  {| Dynamic.annot := @Dynamic.annot host_lib;
     Dynamic.fitz_open path := fs !! path ≫= parse_pdf;
     Dynamic.load_page := @Dynamic.load_page host_lib;
     Dynamic.read_text := @Dynamic.read_text host_lib;
     Dynamic.add_redact_annot := @Dynamic.add_redact_annot host_lib;
     Dynamic.apply_redactions := @Dynamic.apply_redactions host_lib;
     Dynamic.insert_text := @Dynamic.insert_text host_lib;
     Dynamic.save := @Dynamic.save host_lib;
     Dynamic.close := @Dynamic.close host_lib |}.

Definition set_file (path : string) (content : list Byte.byte) (w : server) : server :=
  {| files := <[path := content]> (files w); timers := timers w; flashed := flashed w |}.

(** [file.save(path)], and [open(path, 'w')] with the [json.dump] that
    follows: the server after it, and whether it returned ([true]) or
    raised. *)
Definition write_file (path : string) (content : list Byte.byte) (w : server)
  : server * bool :=
  match write_outcome (files w) path content with
  | Written => (set_file path content w, true)
  | WriteFailed None => (w, false)
  | WriteFailed (Some partial) => (set_file path partial w, false)
  end.

(** [delete_file] (utils.py, lines 12-24): a failure of [os.remove] is
    logged and goes no further. *)
Definition delete_file (file_path : string) (w : server) : server :=
  match files w !! file_path with
  | Some _ =>
      if removable (files w) file_path
      then {| files := delete file_path (files w);
              timers := timers w; flashed := flashed w |}
      else w
  | None => w
  end.

(** [schedule_file_deletion] (utils.py, lines 26-47) starts the thread;
    [deletion_task] is what the thread does once [delay] seconds have
    passed. *)
Definition schedule_file_deletion (file_path : string) (delay : Z) (w : server) : server :=
  {| files := files w; timers := timers w ++ [(file_path, delay)]; flashed := flashed w |}.

Definition deletion_task (timer : string * Z) (w : server) : server :=
  delete_file timer.1 w.

(** [upload] (lines 36-97); [unique_id] is [str(uuid.uuid4())]. *)
Definition upload (cfg : config_t) (unique_id : string) (req : upload_request) (w : server)
  : server * response :=
  match req_method req with
  | GET => (w, RenderUpload)
  | POST =>
      match req_pdf_file req with
      | None => (flash "No file part in the request." w, RedirectTo RequestUrl)
      | Some (filename, content) =>
          if String.eqb filename ""
          then (flash "No file selected for uploading." w, RedirectTo RequestUrl)
          else if allowed_file filename then
            let file_path := pdf_path cfg unique_id in
            let '(w1, saved) := write_file file_path content w in
            if saved then
              let w2 := schedule_file_deletion file_path (FILE_RETENTION_TIME cfg) w1 in
              match extract_text_from_pdf (lib := typed_lib (fitz_on (files w2))) file_path with
              | Raise _ =>
                  (flash "Failed to process the uploaded PDF file." w2, RedirectTo RequestUrl)
              | Return extraction_result =>
                  let json_path := json_path cfg unique_id in
                  let text := json_dumps host_float_repr (extraction_value extraction_result) in
                  let '(w3, dumped) := write_file json_path (encode_utf8 text) w2 in
                  if dumped then
                    (schedule_file_deletion json_path (FILE_RETENTION_TIME cfg) w3,
                     RedirectTo (EditUrl unique_id))
                  else
                    (flash "Failed to process the uploaded PDF file." w3, RedirectTo RequestUrl)
              end
            else (flash "Failed to save the uploaded file." w1, RedirectTo RequestUrl)
          else (flash "Invalid file type. Please upload a PDF file." w, RedirectTo RequestUrl)
      end
  end.

(** [edit] (lines 99-123). *)
Definition edit (cfg : config_t) (file_id : string) (w : server) : server * response :=
  match files w !! json_path cfg file_id with
  | None => (flash "The requested file does not exist or has expired." w, RedirectTo IndexUrl)
  | Some content =>
      match decode_utf8 content ≫= json_loads host_float_of_string with
      | None => (flash "Failed to load file data for editing." w, RedirectTo IndexUrl)
      | Some extraction_result => (w, RenderEdit file_id extraction_result)
      end
  end.

(** [save] (lines 125-169), named [save_view] since [save] is [doc.save]
    here; [form_edits] is [request.form.get('edits')]. *)
Definition save_view (cfg : config_t) (file_id : string) (form_edits : option string)
    (w : server) : server * response :=
  let pdf_path := pdf_path cfg file_id in
  match files w !! pdf_path with
  | None => (flash "Original PDF file not found or has expired." w, RedirectTo IndexUrl)
  | Some _ =>
      match form_edits with
      | None | Some EmptyString => (flash "No edits provided." w, RedirectTo (EditUrl file_id))
      | Some edits_json =>
          match json_loads host_float_of_string edits_json with
          | None => (flash "Invalid edit data." w, RedirectTo (EditUrl file_id))
          | Some edits =>
              match Dynamic.apply_text_edits_to_pdf (lib := fitz_on (files w)) pdf_path edits with
              | inl _ => (flash "Failed to save edited PDF." w, RedirectTo (EditUrl file_id))
              | inr modified_pdf_bytes =>
                  (w, SendFile modified_pdf_bytes ("edited_" +:+ file_id +:+ ".pdf"))
              end
          end
      end
  end.

(** The ways [upload] ends: nothing was written; the PDF could not be
    saved and a part of it was left; the PDF was saved but not processed,
    with or without a part of the JSON file left; both files were
    written. *)
Inductive upload_end (cfg : config_t) (unique_id : string) (req : upload_request)
    (w : server) : server -> response -> Prop :=
| upload_nothing_written (w' : server) (r : response) :
    files w' = files w -> timers w' = timers w ->
    (forall file_id, r <> RedirectTo (EditUrl file_id)) ->
    upload_end cfg unique_id req w w' r
| upload_pdf_left (name : string) (content partial : list Byte.byte) (w' : server) :
    req_pdf_file req = Some (name, content) -> allowed_file name = true ->
    write_outcome (files w) (pdf_path cfg unique_id) content = WriteFailed (Some partial) ->
    files w' = <[pdf_path cfg unique_id := partial]> (files w) ->
    timers w' = timers w ->
    upload_end cfg unique_id req w w' (RedirectTo RequestUrl)
| upload_pdf_written (name : string) (content : list Byte.byte) (w' : server) :
    req_pdf_file req = Some (name, content) -> allowed_file name = true ->
    files w' = <[pdf_path cfg unique_id := content]> (files w) ->
    timers w' = timers w ++ [(pdf_path cfg unique_id, FILE_RETENTION_TIME cfg)] ->
    upload_end cfg unique_id req w w' (RedirectTo RequestUrl)
| upload_json_left (name : string) (content text partial : list Byte.byte) (w' : server) :
    req_pdf_file req = Some (name, content) -> allowed_file name = true ->
    write_outcome (<[pdf_path cfg unique_id := content]> (files w))
      (json_path cfg unique_id) text = WriteFailed (Some partial) ->
    files w'
    = <[json_path cfg unique_id := partial]>
        (<[pdf_path cfg unique_id := content]> (files w)) ->
    timers w' = timers w ++ [(pdf_path cfg unique_id, FILE_RETENTION_TIME cfg)] ->
    upload_end cfg unique_id req w w' (RedirectTo RequestUrl)
| upload_done (name : string) (content : list Byte.byte) (pds : list page_dict)
    (w' : server) :
    req_pdf_file req = Some (name, content) -> allowed_file name = true ->
    parse_pdf content = Some pds ->
    files w'
    = <[json_path cfg unique_id :=
          encode_utf8 (json_dumps host_float_repr
                         (extraction_value (Extraction (extract_page <$> pds))))]>
        (<[pdf_path cfg unique_id := content]> (files w)) ->
    timers w' = timers w ++ [(pdf_path cfg unique_id, FILE_RETENTION_TIME cfg);
                             (json_path cfg unique_id, FILE_RETENTION_TIME cfg)] ->
    upload_end cfg unique_id req w w' (RedirectTo (EditUrl unique_id)).

(** A host on which a write that fails leaves no file behind. *)
Definition clean_failures : Prop :=
  forall fs path content partial, write_outcome fs path content <> WriteFailed (Some partial).

End Requests.

(** The deletion threads of [ts] run to their end, in the order they were
    started. *)
Definition expire `{Host} (ts : list (string * Z)) (w : server) : server :=
  fold_left (fun w t => deletion_task t w) ts w.

(** The upload folder with its separator, as [os.path.join] puts it
    before a relative name. *)
Definition folder_prefix (cfg : config_t) : string :=
  if String.eqb (UPLOAD_FOLDER cfg) "" || ends_with "/" (UPLOAD_FOLDER cfg)
  then UPLOAD_FOLDER cfg
  else UPLOAD_FOLDER cfg +:+ "/".

(** ** A host to run the requests on

    [toy_dynamic] is [toy_fitz] again, for any text: inserting fails for a
    text that is not a string. [toy_host] takes the four bytes of
    [toy_pdf] for the toy document, writes and removes without failure and
    has a codec of one byte per character. *)

Definition toy_dynamic (bad_page : option nat) : Dynamic.Fitz :=
  {| Dynamic.annot := nat;
     Dynamic.fitz_open path := if String.eqb path "doc.pdf" then Some toy_pages else None;
     Dynamic.load_page d n := true;
     Dynamic.read_text d n := true;
     Dynamic.add_redact_annot d n bbox fill :=
       if (length bbox <? 4)%nat then None
       else Some (length (from_option Dynamic.page_log [] (d !! n)));
     Dynamic.apply_redactions d n := negb (bool_decide (bad_page = Some n));
     Dynamic.insert_text d n pt text font size color :=
       match text with
       | PyStr _ => negb (is_zero size)
       | _ => false
       end;
     Dynamic.save d :=
       Some ((fun p => default Byte.xff (Byte.of_nat (length (Dynamic.page_log p)))) <$> d);
     Dynamic.close d := true |}.

(** [toy_dynamic] on a file protected by a password: the document opens
    and no page of it can be loaded. *)
Definition locked_dynamic : Dynamic.Fitz :=
  {| Dynamic.annot := nat;
     Dynamic.fitz_open := @Dynamic.fitz_open (toy_dynamic None);
     Dynamic.load_page d n := false;
     Dynamic.read_text d n := true;
     Dynamic.add_redact_annot := @Dynamic.add_redact_annot (toy_dynamic None);
     Dynamic.apply_redactions := @Dynamic.apply_redactions (toy_dynamic None);
     Dynamic.insert_text := @Dynamic.insert_text (toy_dynamic None);
     Dynamic.save := @Dynamic.save (toy_dynamic None);
     Dynamic.close d := true |}.

Definition toy_pdf : list Byte.byte := list_byte_of_string "%PDF".

Definition toy_host : Host :=
  {| host_lib := toy_dynamic None;
     parse_pdf content :=
       if String.eqb (string_of_list_byte content) "%PDF" then Some toy_pages else None;
     write_outcome fs path content := Written;
     removable fs path := true;
     encode_utf8 := list_byte_of_string;
     decode_utf8 content := Some (string_of_list_byte content);
     host_float_repr := toy_float_repr;
     host_float_of_string := toy_float_of_string |}.

Definition toy_config : config_t := Config "/srv/uploads" 120.

Definition toy_request : upload_request :=
  UploadRequest POST (Some ("Report.PDF", toy_pdf)).

Definition empty_server : server := Server ∅ [] [].

(** A host whose disk is full: a write leaves the first byte and fails. *)
Definition full_host : Host :=
  {| host_lib := toy_dynamic None;
     parse_pdf := @parse_pdf toy_host;
     write_outcome fs path content := WriteFailed (Some (take 1 content));
     removable fs path := true;
     encode_utf8 := list_byte_of_string;
     decode_utf8 content := Some (string_of_list_byte content);
     host_float_repr := toy_float_repr;
     host_float_of_string := toy_float_of_string |}.

(** The edits of the scenario as the form field carries them. *)
Definition bonjour_value : pyval := PyDict [("0", PyDict [("0", PyStr "Bonjour")])].

Definition bonjour_json : string := json_dumps toy_float_repr bonjour_value.

(** * Properties *)

(** ** Generic facts on loops *)

Lemma fold_left_snoc {A B : Type} (f : A -> B) (l : list A) (acc : list B) :
  fold_left (fun acc x => acc ++ [f x]) l acc = acc ++ (f <$> l).
Proof.
  revert acc. induction l as [|x l IH]; intros acc; simpl.
  - by rewrite app_nil_r.
  - rewrite IH. by rewrite <- app_assoc.
Qed.

(** Two loops over the same list, started in related states and stepping
    in lockstep, end in related states. *)
Lemma fold_left_sim {A B X : Type} (R : A -> B -> Prop)
    (f : A -> X -> A) (g : B -> X -> B) (l : list X) :
  (forall a b x, R a b -> R (f a x) (g b x)) ->
  forall a b, R a b -> R (fold_left f l a) (fold_left g l b).
Proof.
  intros Hstep. induction l as [|x l IH]; intros a b Hab; simpl; auto.
Qed.

(** A loop whose body does nothing on the items a filter rejects may as
    well run on the filtered list. *)
Lemma fold_left_filter {A X : Type} (f : A -> X -> A) (keep : X -> bool) (l : list X) :
  (forall a x, keep x = false -> f a x = a) ->
  forall a, fold_left f (List.filter keep l) a = fold_left f l a.
Proof.
  intros Hskip. induction l as [|x l IH]; intros a; simpl; [done|].
  destruct (keep x) eqn:Hk; simpl; [apply IH|].
  rewrite (Hskip a x Hk). apply IH.
Qed.

(** Two loop bodies that agree wherever an invariant holds. *)
Lemma fold_left_inv_ext {A X : Type} (Inv : A -> Prop) (f g : A -> X -> A) (l : list X) :
  (forall a x, In x l -> Inv a -> f a x = g a x /\ Inv (f a x)) ->
  forall a, Inv a -> fold_left f l a = fold_left g l a /\ Inv (fold_left f l a).
Proof.
  induction l as [|x l IH]; intros Hstep a Ha; simpl; [done|].
  destruct (Hstep a x (or_introl eq_refl) Ha) as [Heq Hinv].
  rewrite <- Heq. apply IH; [|done].
  intros a' x' Hin. apply Hstep. by right.
Qed.

(** ** The two traversals *)

Lemma extract_line_app (page_spans : list span_info) (l : line) :
  extract_line page_spans l
  = page_spans ++ (make_span_info <$> default [] (line_spans l)).
Proof. unfold extract_line. apply fold_left_snoc. Qed.

Lemma spans_of_line_app (spans : list span) (l : line) :
  spans_of_line spans l = spans ++ default [] (line_spans l).
Proof.
  unfold spans_of_line.
  rewrite (fold_left_snoc (fun s => s)). by rewrite list_fmap_id.
Qed.

Lemma extract_line_sim (acc : list span_info) (spans : list span) (l : line) :
  acc = make_span_info <$> spans ->
  extract_line acc l = make_span_info <$> spans_of_line spans l.
Proof.
  intros ->. rewrite extract_line_app, spans_of_line_app. by rewrite fmap_app.
Qed.

Lemma extract_block_sim (acc : list span_info) (spans : list span) (b : block) :
  acc = make_span_info <$> spans ->
  extract_block acc b = make_span_info <$> spans_of_block spans b.
Proof.
  intros Hacc. unfold extract_block, spans_of_block.
  destruct (block_skipped b); [done|].
  apply (fold_left_sim (fun a s => a = make_span_info <$> s)); [|done].
  intros a s l. apply extract_line_sim.
Qed.

(** The fragments of a page are the re-derived spans, one for one. *)
Lemma extract_page_derive (pd : page_dict) :
  extract_page pd = make_span_info <$> derive_spans pd.
Proof.
  unfold extract_page, derive_spans.
  apply (fold_left_sim (fun a s => a = make_span_info <$> s)); [|done].
  intros a s b. apply extract_block_sim.
Qed.

(** ** Logs only grow, and only on the page at hand *)

Lemma record_call_append (d : document) (n : nat) (c : call) (ok : bool) :
  record_call d n c ok = append_events d n [Event c ok].
Proof. reflexivity. Qed.

Lemma append_events_nil (d : document) (n : nat) : append_events d n [] = d.
Proof.
  apply list_alter_id. intros [t l]. unfold extend_log; simpl. by rewrite app_nil_r.
Qed.

Lemma append_events_app (d : document) (n : nat) (evs1 evs2 : list event) :
  append_events (append_events d n evs1) n evs2 = append_events d n (evs1 ++ evs2).
Proof.
  unfold append_events. rewrite list_alter_alter_eq.
  apply list_alter_ext; [|done].
  intros [t l] _. unfold extend_log; simpl. by rewrite app_assoc.
Qed.

Lemma append_events_lookup (d : document) (n : nat) (evs : list event) :
  append_events d n evs !! n = extend_log evs <$> d !! n.
Proof. apply list_lookup_alter_eq. Qed.

Lemma append_events_lookup_ne (d : document) (n m : nat) (evs : list event) :
  n ≠ m -> append_events d n evs !! m = d !! m.
Proof. apply list_lookup_alter_ne. Qed.

Lemma append_events_length (d : document) (n : nat) (evs : list event) :
  length (append_events d n evs) = length d.
Proof. apply length_alter. Qed.

Lemma append_events_texts (d : document) (n : nat) (evs : list event) :
  page_text <$> append_events d n evs = page_text <$> d.
Proof.
  unfold append_events.
  rewrite (list_fmap_alter page_text (extend_log evs) (fun t => t)).
  - by apply list_alter_id.
  - apply Forall_forall. by intros [t l] _.
Qed.

Lemma get_text_texts (d d' : document) (n : nat) :
  page_text <$> d = page_text <$> d' -> get_text d n = get_text d' n.
Proof.
  intros Heq. unfold get_text.
  assert (Hl : page_text <$> d !! n = page_text <$> d' !! n)
    by (rewrite <- !list_lookup_fmap; by rewrite Heq).
  destruct (d !! n), (d' !! n); simpl in Hl; congruence.
Qed.

Lemma get_text_new_document (pds : list page_dict) (n : nat) (pd : page_dict) :
  pds !! n = Some pd -> get_text (new_document pds) n = pd.
Proof.
  intros Hn. unfold get_text, new_document. by rewrite list_lookup_fmap, Hn.
Qed.

Lemma marked_ok_marks_only (evs : list event) :
  Forall is_mark evs -> commits evs = [] /\ insertions evs = [].
Proof.
  induction 1 as [|[c ok] evs Hm _ [IH1 IH2]]; [done|].
  unfold is_mark in Hm. by destruct c.
Qed.

Lemma insertions_of_inserts (evs : list event) :
  Forall is_insert evs ->
  insertions evs = ev_call <$> evs /\ commits evs = [] /\ marked_ok evs = [].
Proof.
  induction 1 as [|[c ok] evs Hm _ (IH1 & IH2 & IH3)]; [done|].
  unfold is_insert in Hm. destruct c; simpl in Hm; try done.
  change (InsertText point text fontname fontsize color :: insertions evs
          = InsertText point text fontname fontsize color :: (ev_call <$> evs)
          /\ commits evs = [] /\ marked_ok evs = []).
  by rewrite IH1.
Qed.

Section RewriterFacts.
Context `{lib : Fitz}.

(** The planning loop adds marks to page [n] and nothing else; the entries
    it plans are those whose mark was added, in order. *)
Lemma plan_loop_events (n : nat) (spans : list span) (items : page_edits_t)
    (d : document) (anns : list plan_entry) :
  exists marks new,
    fold_left (plan_step n spans) items (d, anns) = (append_events d n marks, anns ++ new)
    /\ Forall is_mark marks
    /\ marked_ok marks = pe_bbox <$> new
    /\ (length marks <= length items)%nat.
Proof.
  revert d anns. induction items as [|[key text] items IH]; intros d anns.
  - exists [], []. by rewrite append_events_nil, app_nil_r.
  - assert (Hstep : exists m1 n1,
        plan_step n spans (d, anns) (key, text) = (append_events d n m1, anns ++ n1)
        /\ Forall is_mark m1 /\ marked_ok m1 = pe_bbox <$> n1
        /\ (length m1 <= 1)%nat).
    { unfold plan_step.
      assert (Hnone : exists (m1 : list event) (n1 : list plan_entry),
          (d, anns) = (append_events d n m1, anns ++ n1)
          /\ Forall is_mark m1 /\ marked_ok m1 = pe_bbox <$> n1
          /\ (length m1 <= 1)%nat).
      { exists [], []. rewrite append_events_nil, app_nil_r. simpl. repeat split; [done|lia]. }
      destruct (py_int key) as [i|]; [|done].
      destruct ((i <? 0) || (i >=? Z.of_nat (length spans))); [done|].
      destruct (spans !! Z.to_nat i) as [s|]; [|done].
      destruct (bbox_falsy (span_bbox s)); [done|].
      destruct (add_redact_annot d n _ _) as [a|].
      - eexists [_], [_]. rewrite record_call_append. split; [done|].
        split; [by repeat constructor|done].
      - eexists [_], []. rewrite record_call_append, app_nil_r. split; [done|].
        split; [by repeat constructor|done]. }
    destruct Hstep as (m1 & n1 & Hs & Hm1 & Hb1 & Hl1). cbn [fold_left]. rewrite Hs.
    destruct (IH (append_events d n m1) (anns ++ n1)) as (m2 & n2 & Hf & Hm2 & Hb2 & Hl2).
    exists (m1 ++ m2), (n1 ++ n2). rewrite Hf, append_events_app, app_assoc.
    split; [done|]. split; [by apply Forall_app|].
    split; [|rewrite length_app; simpl; lia].
    unfold marked_ok in *. by rewrite omap_app, fmap_app, Hb1, Hb2.
Qed.

(** The reinsertion loop adds to page [n] one [insert_text] call per entry
    that has an insertion point, in the order of the plan. *)
Lemma insert_loop_events (n : nat) (anns : list plan_entry) (d : document) :
  exists ins,
    fold_left (insert_step n) anns d = append_events d n ins
    /\ ev_call <$> ins = omap attempted anns.
Proof.
  revert d. induction anns as [|a anns IH]; intros d; simpl.
  - exists []. by rewrite append_events_nil.
  - unfold insert_step at 2. unfold attempted at 1.
    destruct (insertion_point (pe_bbox a)) as [pt|]; simpl.
    + destruct (IH (record_call d n (insert_call a pt)
                      (insert_text d n pt (pe_new_text a) (pe_font a) (pe_size a) (0, 0, 0))))
        as (ins & Hf & Hc).
      eexists (_ :: ins). rewrite Hf, record_call_append, append_events_app.
      split; [done|]. simpl. f_equal. exact Hc.
    + apply IH.
Qed.

Lemma attempted_is_insert (ins : list event) (anns : list plan_entry) :
  ev_call <$> ins = omap attempted anns -> Forall is_insert ins.
Proof.
  revert ins. induction anns as [|a anns IH]; intros ins; simpl.
  - by destruct ins.
  - unfold attempted at 1. destruct (insertion_point (pe_bbox a)); simpl; [|apply IH].
    destruct ins as [|[c ok] ins]; simpl; [done|].
    intros [= -> Hrest]. constructor; [done|by apply IH].
Qed.

Lemma apply_page_run (edits : gmap string page_edits_t) (d : document) (n : nat) :
  exists evs, apply_page edits d n = append_events d n evs /\ page_run edits n evs.
Proof.
  unfold apply_page, page_run. destruct (edits !! str n) as [items|].
  - destruct (plan_loop_events n (derive_spans (get_text d n)) items d [])
      as (marks & plan & Hf & Hm & Hb & Hl).
    rewrite Hf. simpl in Hb |- *.
    destruct (apply_redactions (append_events d n marks) n).
    + destruct (insert_loop_events n plan
                  (record_call (append_events d n marks) n ApplyRedactions true))
        as (ins & Hi & Hc).
      exists (marks ++ Event ApplyRedactions true :: ins).
      rewrite Hi, record_call_append, !append_events_app. split; [done|].
      by exists marks, true, ins, plan.
    + exists (marks ++ [Event ApplyRedactions false]).
      rewrite record_call_append, append_events_app. split; [done|].
      by exists marks, false, [], plan.
  - exists []. by rewrite append_events_nil.
Qed.

Lemma apply_page_texts (edits : gmap string page_edits_t) (d : document) (n : nat) :
  page_text <$> apply_page edits d n = page_text <$> d.
Proof.
  destruct (apply_page_run edits d n) as (evs & -> & _). apply append_events_texts.
Qed.

(** The loop over the pages [a, a + k): each of them gets its own run,
    the others are left as they are. *)
Lemma apply_pages_from (edits : gmap string page_edits_t) (k a : nat) (d : document) (m : nat) :
  exists evs,
    fold_left (apply_page edits) (seq a k) d !! m = extend_log evs <$> d !! m
    /\ (if decide (a <= m < a + k)%nat then page_run edits m evs else evs = []).
Proof.
  revert a d. induction k as [|k IH]; intros a d; simpl.
  - exists []. split; [|by case_decide; [lia|]].
    destruct (d !! m) as [[t l]|]; simpl; [|done].
    unfold extend_log; simpl. by rewrite app_nil_r.
  - destruct (apply_page_run edits d a) as (evs & -> & Hrun).
    destruct (IH (S a) (append_events d a evs)) as (evs' & Hl & Hrest).
    rewrite Hl. destruct (decide (a = m)) as [<-|Hne].
    + rewrite append_events_lookup. rewrite decide_False in Hrest by lia. subst evs'.
      exists evs. rewrite decide_True by lia. split; [|done].
      destruct (d !! a) as [[t l]|]; simpl; [|done].
      unfold extend_log; simpl. by rewrite app_nil_r.
    + rewrite append_events_lookup_ne by done. exists evs'. split; [done|].
      repeat case_decide; try done; lia.
Qed.

(** Every page of the document [apply_text_edits_to_pdf] saves: its text is
    the page's own, its log is the page's run. *)
Lemma final_page (edits : gmap string page_edits_t) (pds : list page_dict) (n : nat) (p : page) :
  apply_pages edits (new_document pds) !! n = Some p ->
  pds !! n = Some (page_text p) /\ page_run edits n (page_log p).
Proof.
  unfold apply_pages.
  destruct (apply_pages_from edits (length (new_document pds)) 0 (new_document pds) n)
    as (evs & -> & Hrun).
  unfold new_document in *. rewrite list_lookup_fmap, length_fmap in *.
  destruct (pds !! n) as [pd|] eqn:Hn; simpl; [|done].
  intros [= <-]. simpl. split; [done|].
  apply lookup_lt_Some in Hn. by rewrite decide_True in Hrun by lia.
Qed.

Lemma apply_pages_length (edits : gmap string page_edits_t) (d : document) :
  length (apply_pages edits d) = length d.
Proof.
  unfold apply_pages. generalize (seq 0 (length d)). intros l. revert d.
  induction l as [|n l IH]; intros d; simpl; [done|].
  rewrite IH. destruct (apply_page_run edits d n) as (evs & -> & _).
  apply append_events_length.
Qed.

End RewriterFacts.

(** ** Extraction and re-derivation agree (C1) *)

Section Claims.
Context `{lib : Fitz}.

Lemma fold_apply_page_texts (edits : gmap string page_edits_t) (l : list nat) (d : document) :
  page_text <$> fold_left (apply_page edits) l d = page_text <$> d.
Proof.
  revert d. induction l as [|n l IH]; intros d; simpl; [done|].
  by rewrite IH, apply_page_texts.
Qed.

Lemma rederived_spans_initial (edits : gmap string page_edits_t) (d : document) (n : nat) :
  rederived_spans edits d n = derive_spans (get_text d n).
Proof.
  unfold rederived_spans, doc_before. f_equal.
  apply get_text_texts, fold_apply_page_texts.
Qed.

(** The loop over pages reaches page [n] in the state [doc_before] and
    runs the body on it there: the [spans] of that turn are
    [rederived_spans]. *)
Lemma apply_pages_reaches (edits : gmap string page_edits_t) (d : document) (n : nat) :
  (n < length d)%nat ->
  apply_pages edits d
  = fold_left (apply_page edits) (seq (S n) (length d - S n))
      (apply_page edits (doc_before edits d n) n).
Proof.
  intros Hn. unfold apply_pages, doc_before.
  replace (length d) with (n + S (length d - S n))%nat at 1 by lia.
  by rewrite seq_app, fold_left_app.
Qed.

Lemma doc_before_S (edits : gmap string page_edits_t) (d : document) (n : nat) :
  doc_before edits d (S n) = apply_page edits (doc_before edits d n) n.
Proof. unfold doc_before. by rewrite seq_S, fold_left_app. Qed.

(** The loop of [extract_text_from_pdf] ends with all the pages, or with
    the first page that cannot be loaded or read. *)
Lemma extract_pages_spec (doc : document) (l : list nat) (acc : list (list span_info)) :
  extract_pages doc l acc
  = if forallb (fun n => load_page doc n && read_text doc n) l
    then Some (acc ++ ((fun n => extract_page (get_text doc n)) <$> l))
    else None.
Proof.
  revert acc. induction l as [|n l IH]; intros acc; simpl.
  - by rewrite app_nil_r.
  - destruct (load_page doc n && read_text doc n); simpl; [|done].
    rewrite IH. destruct (forallb _ l); [|done]. by rewrite <- app_assoc.
Qed.

Lemma extract_page_new_document (pds : list page_dict) :
  (fun n => extract_page (get_text (new_document pds) n))
    <$> seq 0 (length (new_document pds))
  = extract_page <$> pds.
Proof.
  replace (length (new_document pds)) with (length pds)
    by (unfold new_document; by rewrite length_fmap).
  apply list_eq. intros n. rewrite !list_lookup_fmap.
  destruct (pds !! n) as [pd|] eqn:Hn; simpl.
  - rewrite lookup_seq_lt by (by eapply lookup_lt_Some). simpl.
    by rewrite (get_text_new_document pds n pd Hn).
  - rewrite lookup_seq_ge; [done|]. by apply lookup_ge_None.
Qed.

(** [extract_text_from_pdf] on a file that opens. *)
Lemma extract_text_from_pdf_opened (path : string) (pds : list page_dict) :
  fitz_open path = Some pds ->
  extract_text_from_pdf path
  = if extract_reads (new_document pds)
    then if close (new_document pds)
         then Return (Extraction (extract_page <$> pds)) else Raise CloseError
    else Raise PageError.
Proof.
  intros Hopen. unfold extract_text_from_pdf, extract_reads. rewrite Hopen. cbn zeta.
  rewrite extract_pages_spec. destruct (forallb _ _); [|done].
  by rewrite app_nil_l, extract_page_new_document.
Qed.

(** The loop over pages of [apply_text_edits_to_pdf] from page [a] on. *)
Lemma apply_loop_from (edits : gmap string page_edits_t) (d : document) (k a : nat) :
  apply_loop edits (seq a k) (doc_before edits d a)
  = if forallb (page_reads edits d) (seq a k)
    then Some (doc_before edits d (a + k)) else None.
Proof.
  revert a. induction k as [|k IH]; intros a; simpl.
  - by rewrite Nat.add_0_r.
  - replace (a + S k)%nat with (S a + k)%nat by lia.
    unfold page_reads at 1.
    destruct (load_page (doc_before edits d a) a); simpl; [|done].
    destruct (edits !! str a) as [items|] eqn:He.
    + destruct (read_text (doc_before edits d a) a); simpl; [|done].
      by rewrite <- doc_before_S, IH.
    + assert (Hsame : doc_before edits d (S a) = doc_before edits d a).
      { rewrite doc_before_S. unfold apply_page. by rewrite He. }
      by rewrite <- Hsame at 1; rewrite IH.
Qed.

(** The loop over pages ends with the pages of [apply_pages], or with the
    first page that cannot be loaded or read. *)
Lemma apply_loop_spec (edits : gmap string page_edits_t) (d : document) :
  apply_loop edits (seq 0 (length d)) d
  = if apply_reads edits d then Some (apply_pages edits d) else None.
Proof. apply (apply_loop_from edits d (length d) 0). Qed.

(** [apply_text_edits_to_pdf] on a file that opens. *)
Lemma apply_text_edits_to_pdf_opened (path : string) (edits : gmap string page_edits_t)
    (pds : list page_dict) :
  fitz_open path = Some pds ->
  apply_text_edits_to_pdf path edits
  = if apply_reads edits (new_document pds)
    then match save (apply_pages edits (new_document pds)) with
         | None => Raise SaveError
         | Some output =>
             if close (apply_pages edits (new_document pds))
             then Return output else Raise CloseError
         end
    else Raise PageError.
Proof.
  intros Hopen. unfold apply_text_edits_to_pdf. rewrite Hopen. cbn zeta.
  rewrite apply_loop_spec. by destruct (apply_reads _ _).
Qed.

(** C1. For every document and every page, the list of spans that
    [apply_text_edits_to_pdf] re-derives when it reaches the page has the
    length and the order of the list of fragments [extract_text_from_pdf]
    returns for that page, and fragment [i] is built from span [i]: it holds
    the span's text, bbox, font, size and colour. Whatever edits are being
    applied, an index into the extraction designates the same span in the
    rewriter. The extraction is returned exactly when every page of the
    opened document is loaded and read and the document is closed. *)
Theorem rederived_spans_match_extraction (file_path : string)
    (edits : gmap string page_edits_t) :
  match fitz_open file_path with
  | None => extract_text_from_pdf file_path = Raise OpenError
  | Some pds =>
      ((exists ex, extract_text_from_pdf file_path = Return ex) <->
       extract_reads (new_document pds) = true /\ close (new_document pds) = true)
      /\ forall ex,
        extract_text_from_pdf file_path = Return ex ->
        length (pages ex) = length pds
        /\ forall n frags,
             pages ex !! n = Some frags ->
             let spans := rederived_spans edits (new_document pds) n in
             frags = make_span_info <$> spans
             /\ length spans = length frags
             /\ forall i s,
                  spans !! i = Some s ->
                  exists f,
                    frags !! i = Some f
                    /\ (forall t, span_text s = Some t -> si_text f = t)
                    /\ (forall b, span_bbox s = Some b -> si_bbox f = b)
                    /\ (forall t, span_font s = Some t -> si_font f = t)
                    /\ (forall z, span_size s = Some z -> si_size f = z)
                    /\ (forall c, span_color s = Some c -> si_color f = c)
  end.
Proof.
  destruct (fitz_open file_path) as [pds|] eqn:Hopen;
    [|by unfold extract_text_from_pdf; rewrite Hopen].
  rewrite (extract_text_from_pdf_opened file_path pds Hopen).
  split.
  { destruct (extract_reads (new_document pds)), (close (new_document pds));
      split; try (by intros [ex ?]); try (by intros [? ?]); by eexists. }
  intros ex Hex.
  assert (ex = Extraction (extract_page <$> pds)) as ->.
  { destruct (extract_reads (new_document pds)), (close (new_document pds));
      try done. by injection Hex. }
  cbn [pages]. split; [by rewrite length_fmap|].
  intros n frags Hn. rewrite list_lookup_fmap in Hn.
  destruct (pds !! n) as [pd|] eqn:Hpd; [|done]. simpl in Hn. injection Hn as <-.
  rewrite rederived_spans_initial, (get_text_new_document pds n pd Hpd), extract_page_derive.
  split; [done|]. split; [by rewrite length_fmap|].
  intros i s Hs. exists (make_span_info s).
  rewrite list_lookup_fmap, Hs. split; [done|].
  unfold make_span_info; simpl. by repeat split; intros ? ->.
Qed.

(** ** The plan entry of a valid edit (C2) *)

(** C2, as the code has it. For every valid edit on a page (the key parses
    to an index within the page's spans, the span has a bounding box, and the
    mark was added) the plan receives one more entry, which records the
    span's bbox and colour (0 when the span has none) and the replacement
    text; its font is the span's, and ["helv"] only when the span has no font
    at all; its size is the span's, and 12 only when the span has no size at
    all. An empty font name and a size of zero are recorded as they are. *)
Theorem plan_entry_of_valid_edit (n : nat) (spans : list span) (d : document)
    (anns : list plan_entry) (key text : string) (i : Z) (s : span) (a : annot) :
  py_int key = Some i ->
  0 <= i ->
  spans !! Z.to_nat i = Some s ->
  bbox_falsy (span_bbox s) = false ->
  add_redact_annot d n (default [] (span_bbox s)) (1, 1, 1) = Some a ->
  exists e,
    (plan_step n spans (d, anns) (key, text)).2 = anns ++ [e]
    /\ Some (pe_bbox e) = span_bbox s
    /\ pe_color e = default 0 (span_color s)
    /\ pe_new_text e = text
    /\ pe_font e = match span_font s with Some f => f | None => "helv" end
    /\ pe_size e = match span_size s with Some z => z | None => PyInt 12 end
    /\ (span_font s = Some "" -> pe_font e = "")
    /\ (span_size s = Some (PyInt 0) -> pe_size e = PyInt 0).
Proof.
  intros Hkey Hi Hs Hb Ha. unfold plan_step. rewrite Hkey.
  assert (Hlt : (Z.to_nat i < length spans)%nat) by (by eapply lookup_lt_Some).
  assert (Hr : (i <? 0) || (i >=? Z.of_nat (length spans)) = false).
  { rewrite Z.geb_leb. apply orb_false_iff. split; [apply Z.ltb_ge|apply Z.leb_gt]; lia. }
  rewrite Hr, Hs, Hb, Ha. eexists. split; [done|]. simpl.
  destruct (span_bbox s) as [b|]; [|done].
  repeat split; try done; by intros ->.
Qed.

(** ** Reinsertion follows mark and commit (C5) *)

Lemma omap_attempted_points (plan : list plan_entry) :
  omap call_point (omap attempted plan) = omap insertion_point (pe_bbox <$> plan).
Proof.
  induction plan as [|a plan IH]; [done|]. cbn [omap list_omap fmap list_fmap].
  unfold attempted at 1. destruct (insertion_point (pe_bbox a)); simpl; by rewrite <- IH.
Qed.

(** The three readings of the log of a page that had edits. *)
Lemma page_run_readings (marks ins : list event) (ok : bool) :
  Forall is_mark marks -> Forall is_insert ins ->
  let log := marks ++ Event ApplyRedactions ok :: ins in
  marked_ok log = marked_ok marks
  /\ commits log = [ok]
  /\ insertions log = ev_call <$> ins.
Proof.
  intros Hm Hi log. subst log.
  destruct (marked_ok_marks_only marks Hm) as [Hc1 Hi1].
  destruct (insertions_of_inserts ins Hi) as (Hi2 & Hc2 & Hm2).
  unfold marked_ok, commits, insertions in *.
  rewrite !omap_app. cbn [omap list_omap ev_call ev_ok].
  by rewrite Hc1, Hi1, Hi2, Hc2, Hm2, app_nil_r.
Qed.

(** C5. In the document [apply_text_edits_to_pdf] saves, on every page:
    replacement text is inserted only for marks that were added (the
    insertion points are those of the boxes marked, in order), and only
    after a commit that succeeded; when the commit failed nothing at all is
    inserted on the page. A page with an entry in the edits has its commit
    attempted exactly once, whatever happened on the other pages. *)
Theorem insertion_needs_mark_and_commit (edits : gmap string page_edits_t)
    (pds : list page_dict) (n : nat) (p : page) :
  apply_pages edits (new_document pds) !! n = Some p ->
  let log := page_log p in
  omap call_point (insertions log)
    = (if bool_decide (commits log = [true])
       then omap insertion_point (marked_ok log) else [])
  /\ (commits log <> [true] -> insertions log = [])
  /\ length (commits log) = match edits !! str n with Some _ => 1%nat | None => 0%nat end.
Proof.
  intros Hp. destruct (final_page edits pds n p Hp) as [_ Hrun]. simpl.
  unfold page_run in Hrun. destruct (edits !! str n) as [items|].
  - destruct Hrun as (marks & ok & ins & plan & -> & Hm & Hb & Hc & _).
    assert (Hi : Forall is_insert ins).
    { destruct ok; [by eapply attempted_is_insert|]. by destruct ins. }
    destruct (page_run_readings marks ins ok Hm Hi) as (-> & -> & ->).
    rewrite Hc, Hb. destruct ok; simpl.
    + by rewrite omap_attempted_points.
    + done.
  - by rewrite Hrun.
Qed.

(** ** Fatal and absorbed failures (C6) *)

(** C6, as the code has it. A file that cannot be opened makes both
    functions raise the error of [fitz.open]. On a file that opens,
    [extract_text_from_pdf] raises exactly when a page cannot be loaded or
    read or the document cannot be closed, and returns the extraction
    otherwise; [apply_text_edits_to_pdf] raises exactly when a page cannot
    be loaded, the text of a page with an entry in the edits cannot be read,
    the final save fails or the document cannot be closed, and returns the
    bytes the save wrote otherwise: whenever it raises, no bytes are
    returned. This holds for every behaviour of marking, committing and
    inserting: with a library whose pages can always be loaded and read,
    only the save and the close are left to fail. *)
Theorem open_read_save_close_raise (path : string) (edits : gmap string page_edits_t) :
  match fitz_open path with
  | None =>
      extract_text_from_pdf path = Raise OpenError
      /\ apply_text_edits_to_pdf path edits = Raise OpenError
  | Some pds =>
      let doc := new_document pds in
      let doc' := apply_pages edits doc in
      (extract_text_from_pdf path = Raise PageError <-> extract_reads doc = false)
      /\ (extract_text_from_pdf path = Raise CloseError <->
          extract_reads doc = true /\ close doc = false)
      /\ (forall ex, extract_text_from_pdf path = Return ex <->
            extract_reads doc = true /\ close doc = true
            /\ ex = Extraction (extract_page <$> pds))
      /\ (apply_text_edits_to_pdf path edits = Raise PageError <->
          apply_reads edits doc = false)
      /\ (apply_text_edits_to_pdf path edits = Raise SaveError <->
          apply_reads edits doc = true /\ save doc' = None)
      /\ (apply_text_edits_to_pdf path edits = Raise CloseError <->
          apply_reads edits doc = true /\ is_Some (save doc') /\ close doc' = false)
      /\ (forall out, apply_text_edits_to_pdf path edits = Return out <->
            apply_reads edits doc = true /\ save doc' = Some out /\ close doc' = true)
      /\ ((forall d n, load_page d n = true) -> (forall d n, read_text d n = true) ->
          extract_reads doc = true /\ apply_reads edits doc = true)
  end.
Proof.
  destruct (fitz_open path) as [pds|] eqn:Hopen.
  - cbn zeta.
    rewrite (extract_text_from_pdf_opened path pds Hopen),
      (apply_text_edits_to_pdf_opened path edits pds Hopen).
    assert (Hreads : (forall d n, load_page d n = true) ->
                     (forall d n, read_text d n = true) ->
                     extract_reads (new_document pds) = true
                     /\ apply_reads edits (new_document pds) = true).
    { intros Hl Hr. split; apply forallb_forall; intros n _.
      - by rewrite Hl, Hr.
      - unfold page_reads. rewrite Hl. destruct (edits !! str n); [apply Hr|done]. }
    destruct (extract_reads (new_document pds)), (close (new_document pds)),
      (apply_reads edits (new_document pds)),
      (save (apply_pages edits (new_document pds))) as [output|],
      (close (apply_pages edits (new_document pds)));
      split_and!; try exact Hreads; try (intros ?); split;
      try done; try (by intros [= ->]); try (by intros (? & ? & ?));
      try (by intros [? ?]); try (by intros (? & [? ?] & ?));
      try (by intros (_ & [= ->] & _)); try (by intros (_ & _ & ->)).
  - unfold extract_text_from_pdf, apply_text_edits_to_pdf. by rewrite Hopen.
Qed.

(** ** Where and how the replacement text is drawn (C7) *)

Lemma attempted_spec (item : plan_entry) : attempted item = spec_reinsertion item.
Proof.
  unfold attempted, spec_reinsertion, insertion_point, insert_call, spec_anchor, py_sub1.
  destruct (pe_bbox item) as [|x0 [|y0 [|x1 [|[z|f] rest]]]]; done.
Qed.

Lemma omap_attempted_spec (plan : list plan_entry) :
  omap attempted plan = omap spec_reinsertion plan.
Proof.
  induction plan as [|a plan IH]; [done|]. cbn [omap list_omap].
  fold (omap attempted plan) (omap spec_reinsertion plan).
  by rewrite IH, attempted_spec.
Qed.

Lemma spec_reinsertion_black (plan : list plan_entry) :
  Forall (fun c => call_color c = Some (0, 0, 0)) (omap spec_reinsertion plan).
Proof.
  induction plan as [|a plan IH]; [constructor|]. cbn [omap list_omap].
  fold (omap spec_reinsertion plan). unfold spec_reinsertion at 1.
  destruct (pe_bbox a) as [|x0 [|y0 [|x1 [|y1 rest]]]]; try done.
  by constructor.
Qed.

(** When the loop reaches page [n], nothing has been logged on it. *)
Lemma doc_before_page (edits : gmap string page_edits_t) (pds : list page_dict) (n : nat) :
  doc_before edits (new_document pds) n !! n = new_document pds !! n.
Proof.
  unfold doc_before.
  destruct (apply_pages_from edits n 0 (new_document pds) n) as (evs & -> & Hrun).
  rewrite decide_False in Hrun by lia. subst evs.
  destruct (new_document pds !! n) as [[t l]|]; simpl; [|done].
  unfold extend_log; simpl. by rewrite app_nil_r.
Qed.

(** The log of a page with an entry, in the document that is saved: the
    marks, the commit and, if it went through, the calls of the plan the
    page's turn built. *)
Lemma final_page_plan (edits : gmap string page_edits_t) (pds : list page_dict) (n : nat)
    (items : page_edits_t) (p : page) :
  edits !! str n = Some items ->
  apply_pages edits (new_document pds) !! n = Some p ->
  exists marks ok ins,
    page_log p = marks ++ Event ApplyRedactions ok :: ins
    /\ Forall is_mark marks
    /\ ev_call <$> ins
       = (if ok then omap attempted (page_plan edits (new_document pds) n items) else []).
Proof.
  intros He Hp.
  assert (Hn : (n < length (new_document pds))%nat).
  { apply lookup_lt_Some in Hp. by rewrite apply_pages_length in Hp. }
  rewrite (apply_pages_reaches edits _ n Hn) in Hp.
  destruct (apply_pages_from edits (length (new_document pds) - S n) (S n)
              (apply_page edits (doc_before edits (new_document pds) n) n) n)
    as (evs & Hl & Hevs).
  rewrite decide_False in Hevs by lia. subst evs. rewrite Hl in Hp. clear Hl.
  unfold page_plan, rederived_spans.
  set (d := doc_before edits (new_document pds) n) in *.
  assert (Hd : d !! n = new_document pds !! n) by apply doc_before_page.
  unfold apply_page in Hp. rewrite He in Hp.
  destruct (plan_loop_events n (derive_spans (get_text d n)) items d [])
    as (marks & plan & Hf & Hm & _ & _).
  rewrite Hf in Hp |- *. cbn [app snd] in Hp |- *.
  destruct (lookup_lt_is_Some_2 _ _ Hn) as [p0 Hp0].
  assert (Hlog0 : page_log p0 = []).
  { unfold new_document in Hp0. rewrite list_lookup_fmap in Hp0.
    destruct (pds !! n); [|done]. by injection Hp0 as <-. }
  destruct (apply_redactions (append_events d n marks) n).
  - destruct (insert_loop_events n plan
                (record_call (append_events d n marks) n ApplyRedactions true))
      as (ins & Hi & Hc).
    rewrite Hi, record_call_append, !append_events_app, append_events_lookup, Hd, Hp0 in Hp.
    simpl in Hp. injection Hp as <-.
    exists marks, true, ins. simpl. by rewrite Hlog0, app_nil_r.
  - rewrite record_call_append, append_events_app, append_events_lookup, Hd, Hp0 in Hp.
    simpl in Hp. injection Hp as <-.
    exists marks, false, []. simpl. by rewrite Hlog0, app_nil_r.
Qed.

(** C7. The reinsertion loop, run on any plan and any document, adds to the
    page exactly one [insert_text] call per entry that has a four-coordinate
    box (x0, y0, x1, y1), in plan order: the entry's replacement text at
    (x0, y1 - 1), with the entry's font name and size, in black (0, 0, 0)
    whatever colour the entry recorded. In the document that is finally
    saved, the insertions on a page with an entry are these calls for the
    plan the rewriter built on that page, if the commit went through, and
    every insertion on every page is in black. *)
Theorem reinsertion_anchor_font_and_black (n : nat) (anns : list plan_entry) (d : document)
    (edits : gmap string page_edits_t) (pds : list page_dict) :
  (exists ins,
      fold_left (insert_step n) anns d = append_events d n ins
      /\ ev_call <$> ins = omap spec_reinsertion anns)
  /\ (forall (item : plan_entry) x0 y0 x1 (z : Z) rest,
        pe_bbox item = x0 :: y0 :: x1 :: PyInt z :: rest ->
        spec_reinsertion item
        = Some (InsertText (x0, PyInt (z - 1)) (pe_new_text item) (pe_font item)
                  (pe_size item) (0, 0, 0)))
  /\ (forall (item : plan_entry) x0 y0 x1 (f : float) rest,
        pe_bbox item = x0 :: y0 :: x1 :: PyFloat f :: rest ->
        spec_reinsertion item
        = Some (InsertText (x0, PyFloat (PrimFloat.sub f 1%float)) (pe_new_text item)
                  (pe_font item) (pe_size item) (0, 0, 0)))
  /\ (forall m items p,
        edits !! str m = Some items ->
        apply_pages edits (new_document pds) !! m = Some p ->
        insertions (page_log p)
        = (if bool_decide (commits (page_log p) = [true])
           then omap spec_reinsertion (page_plan edits (new_document pds) m items)
           else []))
  /\ Forall (fun p => Forall (fun c => call_color c = Some (0, 0, 0))
                        (insertions (page_log p)))
       (apply_pages edits (new_document pds)).
Proof.
  split.
  { destruct (insert_loop_events n anns d) as (ins & Hf & Hc).
    exists ins. by rewrite <- omap_attempted_spec. }
  split; [by intros item x0 y0 x1 z rest Hb; unfold spec_reinsertion; rewrite Hb|].
  split; [by intros item x0 y0 x1 f rest Hb; unfold spec_reinsertion; rewrite Hb|].
  assert (Hpage : forall m items p,
            edits !! str m = Some items ->
            apply_pages edits (new_document pds) !! m = Some p ->
            insertions (page_log p)
            = (if bool_decide (commits (page_log p) = [true])
               then omap spec_reinsertion (page_plan edits (new_document pds) m items)
               else [])).
  { intros m items p He Hp.
    destruct (final_page_plan edits pds m items p He Hp) as (marks & ok & ins & -> & Hm & Hc).
    assert (Hi : Forall is_insert ins).
    { destruct ok; [by eapply attempted_is_insert|]. by destruct ins. }
    destruct (page_run_readings marks ins ok Hm Hi) as (_ & -> & ->).
    rewrite Hc, omap_attempted_spec. by destruct ok. }
  split; [exact Hpage|].
  apply Forall_lookup. intros m p Hp.
  destruct (edits !! str m) as [items|] eqn:He.
  - rewrite (Hpage m items p He Hp). case_bool_decide; [|constructor].
    apply spec_reinsertion_black.
  - destruct (final_page edits pds m p Hp) as [_ Hrun].
    unfold page_run in Hrun. rewrite He in Hrun. rewrite Hrun. constructor.
Qed.

(** ** Pages without edits (C8) *)

(** C8. A page whose index has no entry in the edits is, in the document
    that is saved, exactly as it was opened: its log is empty, so nothing
    was marked, no commit was made and no text was inserted on it. With no
    edits at all the whole document is as it was opened. *)
Theorem pages_without_edits_untouched (edits : gmap string page_edits_t)
    (pds : list page_dict) (n : nat) :
  edits !! str n = None ->
  apply_pages edits (new_document pds) !! n = new_document pds !! n
  /\ (forall p, apply_pages edits (new_document pds) !! n = Some p ->
        page_log p = []
        /\ marked_ok (page_log p) = [] /\ commits (page_log p) = []
        /\ insertions (page_log p) = [])
  /\ apply_pages ∅ (new_document pds) = new_document pds.
Proof.
  intros Hnone.
  assert (Hskip : forall (e : gmap string page_edits_t) m,
            e !! str m = None ->
            apply_pages e (new_document pds) !! m = new_document pds !! m).
  { intros e m He. unfold apply_pages.
    destruct (apply_pages_from e (length (new_document pds)) 0 (new_document pds) m)
      as (evs & -> & Hrun).
    assert (evs = []) as ->.
    { case_decide; [|done]. unfold page_run in Hrun. by rewrite He in Hrun. }
    destruct (new_document pds !! m) as [[t l]|]; simpl; [|done].
    unfold extend_log; simpl. by rewrite app_nil_r. }
  split; [by apply Hskip|]. split.
  - intros p Hp. rewrite Hskip in Hp by done.
    unfold new_document in Hp. rewrite list_lookup_fmap in Hp.
    destruct (pds !! n); simpl in Hp; [|done]. by injection Hp as <-.
  - apply list_eq. intros m. apply Hskip, lookup_empty.
Qed.

End Claims.

(** ** Decimal keys *)

Lemma to_uint_nonnil (n : nat) : Nat.to_uint n <> Nil.
Proof.
  intros Hnil. pose proof (Unsigned.of_to n) as Hn. rewrite Hnil in Hn.
  cbn in Hn. by subst n.
Qed.

Lemma str_inj (n m : nat) : str n = str m -> n = m.
Proof.
  unfold str. intros Heq. apply Unsigned.to_uint_inj.
  assert (Hs : NilZero.uint_of_string (NilZero.string_of_uint (Nat.to_uint n))
               = NilZero.uint_of_string (NilZero.string_of_uint (Nat.to_uint m)))
    by (by rewrite Heq).
  rewrite !NilZero.usu in Hs by apply to_uint_nonnil. by injection Hs.
Qed.

Lemma page_key_index_Some (k : string) (n : nat) :
  page_key_index k = Some n <-> str n = k.
Proof.
  unfold page_key_index. split.
  - destruct (NilZero.uint_of_string k) as [u|]; [|done].
    case_decide; [|done]. by intros [= <-].
  - intros <-. unfold str at 1. rewrite NilZero.usu by apply to_uint_nonnil.
    rewrite Unsigned.of_to. by rewrite decide_True.
Qed.

Lemma page_key_index_None (k : string) :
  page_key_index k = None <-> forall n, str n <> k.
Proof.
  split.
  - intros Hnone n Hn. apply page_key_index_Some in Hn. congruence.
  - intros Hne. destruct (page_key_index k) as [n|] eqn:Hk; [|done].
    apply page_key_index_Some in Hk. by destruct (Hne n).
Qed.

Lemma scan_digits_uint (u : uint) (acc : nat) :
  scan_digits (Z.of_nat acc) false (NilEmpty.string_of_uint u)
  = Some (Z.of_nat (Nat.of_uint_acc u acc), "").
Proof.
  revert acc. induction u; intros acc; [done|..];
    cbn [NilEmpty.string_of_uint Nat.of_uint_acc scan_digits];
    rewrite <- IHu;
    match goal with
    | |- context [digit_value ?c] =>
        let v := eval vm_compute in (digit_value c) in change (digit_value c) with v
    end;
    cbv iota beta; f_equal; rewrite Nat.tail_mul_spec; lia.
Qed.

Lemma digit_head (s : string) :
  starts_with_digit s = true -> long_from_string s = scan_unsigned s.
Proof.
  destruct s as [|c s]; [done|].
  destruct c as [[|] [|] [|] [|] [|] [|] [|] [|]]; try (by intros [=]); intros _; reflexivity.
Qed.

Lemma long_from_string_str (n : nat) : long_from_string (str n) = Some (Z.of_nat n).
Proof.
  unfold str. pose proof (to_uint_nonnil n) as Hnn. pose proof (Unsigned.of_to n) as Hof.
  destruct (Nat.to_uint n) as [|u|u|u|u|u|u|u|u|u|u] eqn:Hu; [done|..];
    unfold NilZero.string_of_uint; rewrite digit_head by done;
    unfold scan_unsigned; rewrite (scan_digits_uint _ 0);
    (replace (starts_with_digit _) with true by done); simpl lstrip; cbv iota;
    unfold Nat.of_uint in Hof; by rewrite Hof.
Qed.

(** [int] on a text within the limit on digits, and beyond it. *)
Lemma py_int_within (s : string) :
  (count_digits s <= max_str_digits)%nat -> py_int s = long_from_string s.
Proof. intros Hs. unfold py_int. by rewrite (proj2 (Nat.leb_le _ _) Hs). Qed.

Lemma py_int_beyond (s : string) :
  (max_str_digits < count_digits s)%nat -> py_int s = None.
Proof. intros Hs. unfold py_int. by rewrite (proj2 (Nat.leb_gt _ _) Hs). Qed.

Lemma py_int_Some (s : string) (v : Z) :
  py_int s = Some v ->
  long_from_string s = Some v /\ (count_digits s <= max_str_digits)%nat.
Proof.
  unfold py_int. destruct (Nat.leb_spec (count_digits s) max_str_digits); [done|done].
Qed.

(** [int(str(n)) == n], for a number [str] can write. *)
Lemma py_int_str (n : nat) :
  (count_digits (str n) <= max_str_digits)%nat -> py_int (str n) = Some (Z.of_nat n).
Proof. intros Hn. rewrite py_int_within by done. apply long_from_string_str. Qed.

(** ** Tolerance for keys and indices (C3, C4, C10) *)

(** The key of a page whose number is within the limit of [int] is
    well formed. *)
Lemma drop_malformed_lookup (edits : gmap string page_edits_t) (n : nat) :
  (count_digits (str n) <= max_str_digits)%nat ->
  drop_malformed edits !! str n
  = List.filter (fun item : string * string => well_formed_key item.1) <$> edits !! str n.
Proof.
  intros Hn. unfold drop_malformed. rewrite lookup_fmap, map_lookup_filter.
  destruct (edits !! str n) as [items|]; simpl; [|done].
  rewrite option_guard_True; [done|].
  simpl. unfold well_formed_key. rewrite py_int_str by done. apply Z.leb_le. lia.
Qed.

Lemma drop_out_of_range_lookup (pds : list page_dict) (edits : gmap string page_edits_t)
    (n : nat) (pd : page_dict) :
  pds !! n = Some pd ->
  drop_out_of_range pds edits !! str n
  = List.filter (in_range (derive_spans pd)) <$> edits !! str n.
Proof.
  intros Hn. unfold drop_out_of_range. rewrite map_lookup_imap.
  destruct (edits !! str n) as [items|]; simpl; [|done].
  rewrite (proj2 (page_key_index_Some (str n) n) eq_refl). simpl. by rewrite Hn.
Qed.

(** What is left after the malformed entries are dropped: the page entries
    with a well-formed key, each with its well-formed fragment entries, in
    their order. *)
Lemma drop_malformed_spec (edits : gmap string page_edits_t) (k : string)
    (items' : list (string * string)) :
  drop_malformed edits !! k = Some items' <->
  well_formed_key k = true
  /\ exists items, edits !! k = Some items
       /\ items' = List.filter (fun item : string * string => well_formed_key item.1) items.
Proof.
  unfold drop_malformed. rewrite lookup_fmap, fmap_Some. split.
  - intros (items & Hf & ->). apply map_lookup_filter_Some in Hf as [Hk Hwf].
    split; [done|]. by exists items.
  - intros (Hwf & items & Hk & ->). exists items. split; [|done].
    by apply map_lookup_filter_Some.
Qed.

(** What is left after the out-of-range entries are dropped: the entries
    of the pages the document has, each with the fragment entries whose
    index is within the page's spans, in their order. *)
Lemma drop_out_of_range_spec (pds : list page_dict) (edits : gmap string page_edits_t)
    (k : string) (items' : list (string * string)) :
  drop_out_of_range pds edits !! k = Some items' <->
  exists n pd items,
    k = str n /\ pds !! n = Some pd /\ edits !! k = Some items
    /\ items' = List.filter (in_range (derive_spans pd)) items.
Proof.
  unfold drop_out_of_range. rewrite map_lookup_imap. split.
  - destruct (edits !! k) as [items|]; simpl; [|done].
    destruct (page_key_index k) as [n|] eqn:Hk; simpl; [|done].
    destruct (pds !! n) as [pd|] eqn:Hn; simpl; [|done].
    intros [= <-]. apply page_key_index_Some in Hk. by exists n, pd, items.
  - intros (n & pd & items & -> & Hn & -> & ->). simpl.
    rewrite (proj2 (page_key_index_Some (str n) n) eq_refl). simpl. by rewrite Hn.
Qed.

Lemma get_text_of_texts (d : document) (pds : list page_dict) (n : nat) (pd : page_dict) :
  page_text <$> d = pds -> pds !! n = Some pd -> get_text d n = pd.
Proof.
  intros <- Hn. rewrite list_lookup_fmap in Hn. unfold get_text.
  destruct (d !! n); simpl in Hn; congruence.
Qed.

Section KeyFacts.
Context `{lib : Fitz}.

Lemma plan_step_malformed (n : nat) (spans : list span)
    (st : document * list plan_entry) (item : string * string) :
  well_formed_key item.1 = false -> plan_step n spans st item = st.
Proof.
  destruct st as [d anns], item as [key text]. unfold well_formed_key, plan_step. simpl.
  destruct (py_int key) as [v|]; [|done].
  intros Hv. apply Z.leb_gt in Hv.
  by replace (v <? 0) with true by (symmetry; apply Z.ltb_lt; lia).
Qed.

Lemma plan_step_out_of_range (n : nat) (spans : list span)
    (st : document * list plan_entry) (item : string * string) :
  in_range spans item = false -> plan_step n spans st item = st.
Proof.
  destruct st as [d anns], item as [key text]. unfold in_range, plan_step. simpl.
  destruct (py_int key) as [i|]; [|done].
  intros Hr. apply andb_false_iff in Hr.
  replace ((i <? 0) || (i >=? Z.of_nat (length spans))) with true; [done|].
  symmetry. apply orb_true_iff. rewrite Z.geb_leb.
  destruct Hr as [Hr|Hr]; [left; apply Z.ltb_lt; apply Z.leb_gt in Hr|
                           right; apply Z.leb_le; apply Z.ltb_ge in Hr]; lia.
Qed.

(** The fragment key is used through [int] only. *)
Lemma plan_step_key (n : nat) (spans : list span) (st : document * list plan_entry)
    (k1 k2 text : string) :
  py_int k1 = py_int k2 ->
  plan_step n spans st (k1, text) = plan_step n spans st (k2, text).
Proof. intros Hk. destruct st as [d anns]. unfold plan_step. by rewrite Hk. Qed.

Lemma apply_page_filter (keep : string * string -> bool)
    (e1 e2 : gmap string page_edits_t) (d : document) (n : nat) :
  (forall st item, keep item = false ->
                   plan_step n (derive_spans (get_text d n)) st item = st) ->
  e2 !! str n = List.filter keep <$> e1 !! str n ->
  apply_page e1 d n = apply_page e2 d n.
Proof.
  intros Hk He. unfold apply_page. rewrite He.
  destruct (e1 !! str n) as [items|]; simpl; [|done].
  by rewrite fold_left_filter.
Qed.

(** Two sets of edits that have entries for the same pages of [l] and on
    which the body of the loop does the same, wherever an invariant holds,
    take the loop over [l] to the same end. *)
Lemma apply_loop_ext (Inv : document -> Prop) (e1 e2 : gmap string page_edits_t)
    (l : list nat) :
  (forall d n, In n l -> Inv d ->
     (is_Some (e1 !! str n) <-> is_Some (e2 !! str n))
     /\ apply_page e1 d n = apply_page e2 d n /\ Inv (apply_page e1 d n)) ->
  forall d, Inv d -> apply_loop e1 l d = apply_loop e2 l d.
Proof.
  induction l as [|n l IH]; intros Hstep d Hd; [done|]. cbn [apply_loop].
  destruct (Hstep d n (or_introl eq_refl) Hd) as (Hsome & Hpage & Hinv).
  assert (Hrest : forall d', Inv d' -> apply_loop e1 l d' = apply_loop e2 l d').
  { apply IH. intros d' m Hin. apply Hstep. by right. }
  destruct (load_page d n); [|done].
  destruct (e1 !! str n) as [i1|] eqn:H1, (e2 !! str n) as [i2|] eqn:H2.
  - destruct (read_text d n); [|done]. rewrite <- Hpage. by apply Hrest.
  - by destruct (proj1 Hsome (mk_is_Some _ _ eq_refl)).
  - by destruct (proj2 Hsome (mk_is_Some _ _ eq_refl)).
  - by apply Hrest.
Qed.

(** The page key is used through the lookup of [str n] only, for the
    pages the document has. *)
Lemma apply_pages_same_lookups_below (e1 e2 : gmap string page_edits_t) (d : document) :
  (forall n, (n < length d)%nat -> e1 !! str n = e2 !! str n) ->
  apply_pages e1 d = apply_pages e2 d
  /\ apply_loop e1 (seq 0 (length d)) d = apply_loop e2 (seq 0 (length d)) d.
Proof.
  intros He.
  assert (Hpage : forall d' n, In n (seq 0 (length d)) ->
                    apply_page e1 d' n = apply_page e2 d' n).
  { intros d' n Hin. apply in_seq in Hin. unfold apply_page. by rewrite He by lia. }
  split.
  - unfold apply_pages. apply (fold_left_inv_ext (fun _ => True)); [|done].
    intros d' n Hin _. split; [by apply Hpage|done].
  - apply (apply_loop_ext (fun _ => True)); [|done].
    intros d' n Hin _. split; [|split; [by apply Hpage|done]].
    apply in_seq in Hin. by rewrite He by lia.
Qed.

Lemma apply_pages_same_lookups (e1 e2 : gmap string page_edits_t) (d : document) :
  (forall n, e1 !! str n = e2 !! str n) -> apply_pages e1 d = apply_pages e2 d.
Proof. intros He. by apply apply_pages_same_lookups_below. Qed.

Lemma apply_same_lookups (path : string) (e1 e2 : gmap string page_edits_t) :
  (forall n, e1 !! str n = e2 !! str n) ->
  apply_text_edits_to_pdf path e1 = apply_text_edits_to_pdf path e2.
Proof.
  intros He. unfold apply_text_edits_to_pdf.
  destruct (fitz_open path) as [pds|]; [|done]. cbn zeta.
  by rewrite (proj2 (apply_pages_same_lookups_below e1 e2 (new_document pds)
                       (fun n _ => He n))).
Qed.

Lemma apply_drop_malformed (edits : gmap string page_edits_t) (d : document) :
  (forall n, (n < length d)%nat -> (count_digits (str n) <= max_str_digits)%nat) ->
  apply_pages edits d = apply_pages (drop_malformed edits) d
  /\ apply_loop edits (seq 0 (length d)) d
     = apply_loop (drop_malformed edits) (seq 0 (length d)) d.
Proof.
  intros Hd.
  assert (Hpage : forall d' n, In n (seq 0 (length d)) ->
                    apply_page edits d' n = apply_page (drop_malformed edits) d' n).
  { intros d' n Hin. apply in_seq in Hin.
    apply (apply_page_filter (fun item => well_formed_key item.1)).
    - intros st item. apply plan_step_malformed.
    - apply drop_malformed_lookup, Hd. lia. }
  split.
  - unfold apply_pages. apply (fold_left_inv_ext (fun _ => True)); [|done].
    intros d' n Hin _. split; [by apply Hpage|done].
  - apply (apply_loop_ext (fun _ => True)); [|done].
    intros d' n Hin _. split; [|split; [by apply Hpage|done]].
    apply in_seq in Hin. rewrite drop_malformed_lookup by (apply Hd; lia).
    by rewrite fmap_is_Some.
Qed.

Lemma apply_drop_out_of_range (edits : gmap string page_edits_t) (pds : list page_dict) :
  apply_pages edits (new_document pds)
  = apply_pages (drop_out_of_range pds edits) (new_document pds)
  /\ apply_loop edits (seq 0 (length (new_document pds))) (new_document pds)
     = apply_loop (drop_out_of_range pds edits) (seq 0 (length (new_document pds)))
         (new_document pds).
Proof.
  assert (Hpage : forall d n, In n (seq 0 (length (new_document pds))) ->
            page_text <$> d = pds ->
            (is_Some (edits !! str n) <-> is_Some (drop_out_of_range pds edits !! str n))
            /\ apply_page edits d n = apply_page (drop_out_of_range pds edits) d n
            /\ page_text <$> apply_page edits d n = pds).
  { intros d n Hin Hinv.
    apply in_seq in Hin. unfold new_document in Hin. rewrite length_fmap in Hin.
    destruct (lookup_lt_is_Some_2 pds n) as [pd Hpd]; [lia|].
    split; [|split; [|by rewrite apply_page_texts]].
    - rewrite (drop_out_of_range_lookup pds edits n pd Hpd). by rewrite fmap_is_Some.
    - apply (apply_page_filter (in_range (derive_spans pd))).
      + intros st item. rewrite (get_text_of_texts d pds n pd Hinv Hpd).
        apply plan_step_out_of_range.
      + by apply drop_out_of_range_lookup. }
  assert (Hinit : page_text <$> new_document pds = pds).
  { unfold new_document. rewrite <- list_fmap_compose. apply list_fmap_id. }
  split.
  - unfold apply_pages.
    apply (fold_left_inv_ext (fun d => page_text <$> d = pds)); [|done].
    intros d n Hin Hinv. destruct (Hpage d n Hin Hinv) as (_ & ? & ?). done.
  - by apply (apply_loop_ext (fun d => page_text <$> d = pds)).
Qed.

(** A page whose edits are an empty list gets its commit and nothing
    else. *)
Lemma page_run_no_items (edits : gmap string page_edits_t) (n : nat) (evs : list event) :
  edits !! str n = Some [] -> page_run edits n evs ->
  exists ok, evs = [Event ApplyRedactions ok].
Proof.
  intros He Hrun. unfold page_run in Hrun. rewrite He in Hrun.
  destruct Hrun as (marks & ok & ins & plan & -> & _ & Hb & Hc & Hl).
  destruct marks; [|simpl in Hl; lia].
  symmetry in Hb. apply fmap_nil_inv in Hb as ->.
  assert (ins = []) as -> by (destruct ok; by apply fmap_nil_inv in Hc).
  by exists ok.
Qed.

(** C3, as the code has it. An edit whose fragment index is negative or not
    below the number of spans of its page, and the edits keyed to a page
    the document does not have, are skipped: the document that is saved,
    and so the outcome of the call, is the one the edits without them give,
    in which every other edit is applied as before. Nothing is raised for
    them, and nothing is marked or inserted for them. An entry for a page
    the document does not have touches no page. A page the document has
    is not left untouched: a page all of whose edits are out of range still
    gets its commit, and nothing else. *)
Theorem out_of_range_edits_skipped (path : string) (edits : gmap string page_edits_t)
    (pds : list page_dict) :
  apply_pages edits (new_document pds)
    = apply_pages (drop_out_of_range pds edits) (new_document pds)
  /\ (fitz_open path = Some pds ->
      apply_text_edits_to_pdf path edits
      = apply_text_edits_to_pdf path (drop_out_of_range pds edits))
  /\ (forall n p,
        drop_out_of_range pds edits !! str n = Some [] ->
        apply_pages edits (new_document pds) !! n = Some p ->
        (exists ok, page_log p = [Event ApplyRedactions ok])
        /\ marked_ok (page_log p) = [] /\ insertions (page_log p) = [])
  /\ (forall n items,
        (length pds <= n)%nat ->
        apply_pages (<[str n := items]> edits) (new_document pds)
        = apply_pages edits (new_document pds)
        /\ (fitz_open path = Some pds ->
            apply_text_edits_to_pdf path (<[str n := items]> edits)
            = apply_text_edits_to_pdf path edits)).
Proof.
  destruct (apply_drop_out_of_range edits pds) as [Hpages Hloop].
  split; [exact Hpages|]. split; [|split].
  - intros Hopen. unfold apply_text_edits_to_pdf. rewrite Hopen. cbn zeta.
    by rewrite Hloop.
  - intros n p He Hp. rewrite Hpages in Hp.
    destruct (final_page _ pds n p Hp) as [_ Hrun].
    destruct (page_run_no_items _ n _ He Hrun) as [ok ->].
    split; [by exists ok|done].
  - intros n items Hn.
    assert (Hsame : forall m, (m < length (new_document pds))%nat ->
                      <[str n := items]> edits !! str m = edits !! str m).
    { intros m Hm. unfold new_document in Hm. rewrite length_fmap in Hm.
      apply lookup_insert_ne. intros Heq. apply str_inj in Heq. lia. }
    destruct (apply_pages_same_lookups_below _ _ _ Hsame) as [Hp Hl].
    split; [exact Hp|].
    intros Hopen. unfold apply_text_edits_to_pdf. rewrite Hopen. cbn zeta.
    by rewrite Hl.
Qed.

(** C4. Keys that do not parse as non-negative integers never make the
    call fail, and each such entry is dropped on its own. On a document
    whose page numbers [int] reads back (they have no more digits than its
    limit), the pages end up as with the edits from which the malformed
    page entries and the malformed fragment entries have been removed, and
    the outcome of the call (the bytes returned or the error raised) is the
    same: with these edits the call returns whenever it does without them.
    What is removed is every entry whose key [int] refuses or reads as a
    negative number, and nothing else: among them the keys of more than
    4300 digits, and keys such as ["x"], ["-1"], ["1.5"], [""], ["+ 1"] and
    a digit after the separator FS; keys such as ["0"], [" 7 "], ["+05"] and
    ["1_0"] are kept. *)
Theorem malformed_keys_dropped (path : string) (edits : gmap string page_edits_t)
    (pds : list page_dict) :
  (forall n, (n < length pds)%nat -> (count_digits (str n) <= max_str_digits)%nat) ->
  apply_pages edits (new_document pds)
    = apply_pages (drop_malformed edits) (new_document pds)
  /\ (fitz_open path = Some pds ->
      apply_text_edits_to_pdf path edits
      = apply_text_edits_to_pdf path (drop_malformed edits)
      /\ forall out,
           apply_text_edits_to_pdf path (drop_malformed edits) = Return out ->
           apply_text_edits_to_pdf path edits = Return out)
  /\ (forall k items',
        drop_malformed edits !! k = Some items' <->
        well_formed_key k = true
        /\ exists items, edits !! k = Some items
             /\ items' = List.filter (fun item : string * string => well_formed_key item.1)
                           items)
  /\ (forall k, well_formed_key k = true <-> exists v, py_int k = Some v /\ 0 <= v)
  /\ (forall k, (4300 < count_digits k)%nat -> well_formed_key k = false)
  /\ Forall (fun key => well_formed_key key = false)
       ["x"; "-1"; "1.5"; ""; "+ 1"; String (ascii_of_N 28) "1"]
  /\ Forall (fun key => well_formed_key key = true) ["0"; " 7 "; "+05"; "1_0"].
Proof.
  intros Hpds.
  assert (Hd : forall n, (n < length (new_document pds))%nat ->
                 (count_digits (str n) <= max_str_digits)%nat).
  { intros n Hn. apply Hpds. unfold new_document in Hn. by rewrite length_fmap in Hn. }
  destruct (apply_drop_malformed edits (new_document pds) Hd) as [Hpages Hloop].
  split; [exact Hpages|]. split; [|split].
  - intros Hopen.
    assert (Heq : apply_text_edits_to_pdf path edits
                  = apply_text_edits_to_pdf path (drop_malformed edits)).
    { unfold apply_text_edits_to_pdf. rewrite Hopen. cbn zeta. by rewrite Hloop. }
    split; [exact Heq|]. intros out Hout. by rewrite Heq.
  - apply drop_malformed_spec.
  - split; [|split; [|split]].
    + intros k. unfold well_formed_key. destruct (py_int k) as [v|].
      * rewrite Z.leb_le. split; [by exists v|]. by intros (v' & [= <-] & Hv).
      * split; [done|]. by intros (v' & ? & _).
    + intros k Hk. unfold well_formed_key. by rewrite (py_int_beyond k Hk).
    + repeat (apply Forall_cons; split; [by vm_compute|]). by apply Forall_nil.
    + repeat (apply Forall_cons; split; [by vm_compute|]). by apply Forall_nil.
Qed.

(** C10. The edits of a page are found by looking up the string [str n]:
    two sets of edits with the same entries under the keys [str n] give the
    same document. So an entry under a key that is no [str n] (such as
    ["05"], [" 0"] or ["+1"], although [int] reads each of them) has no
    effect and raises nothing, while a fragment key is used through its
    integer value only: two keys with the same value act alike. *)
Theorem page_keys_matched_as_strings (path : string) (edits : gmap string page_edits_t)
    (d : document) (k : string) (v : page_edits_t) :
  (forall e1 e2 : gmap string page_edits_t,
      (forall n, e1 !! str n = e2 !! str n) -> apply_pages e1 d = apply_pages e2 d)
  /\ (page_key_index k = None ->
      apply_pages (<[k := v]> edits) d = apply_pages edits d
      /\ apply_text_edits_to_pdf path (<[k := v]> edits) = apply_text_edits_to_pdf path edits)
  /\ (page_key_index k = None <-> forall n, str n <> k)
  /\ Forall (fun key => page_key_index key = None /\ is_Some (py_int key))
       ["05"; " 0"; "+1"]
  /\ (forall n spans st k1 k2 text,
        py_int k1 = py_int k2 ->
        plan_step n spans st (k1, text) = plan_step n spans st (k2, text)).
Proof.
  split; [intros e1 e2; apply apply_pages_same_lookups|].
  split.
  - intros Hk.
    assert (Hsame : forall n, <[k := v]> edits !! str n = edits !! str n).
    { intros n. apply lookup_insert_ne. intros ->.
      by rewrite (proj2 (page_key_index_Some (str n) n) eq_refl) in Hk. }
    split; [by apply apply_pages_same_lookups|by apply apply_same_lookups].
  - split; [apply page_key_index_None|].
    split; [|intros n spans st k1 k2 text; apply plan_step_key].
    repeat (apply Forall_cons; split; [split; [by vm_compute|by vm_compute; eexists]|]).
    by apply Forall_nil.
Qed.

End KeyFacts.

(** * The JSON round trip *)

(** ** Text lemmas *)

Lemma append_cons (x : ascii) (a b : string) : String x a +:+ b = String x (a +:+ b).
Proof. reflexivity. Qed.

Lemma append_assoc (a b c : string) : (a +:+ b) +:+ c = a +:+ (b +:+ c).
Proof. induction a as [|x a IH]; [done|]. rewrite !append_cons. by f_equal. Qed.

Lemma append_nil_r (a : string) : a +:+ "" = a.
Proof. induction a as [|x a IH]; [done|]. rewrite append_cons. by f_equal. Qed.

Lemma length_append (a b : string) :
  String.length (a +:+ b) = (String.length a + String.length b)%nat.
Proof. induction a as [|x a IH]; [done|]. rewrite append_cons. simpl. by f_equal. Qed.

(** ** Strings survive the round trip *)

Lemma scanstring_escape_char (c : ascii) (t : string) :
  scanstring (escape_char c +:+ t) = cons_char c <$> scanstring t.
Proof. destruct c as [[|] [|] [|] [|] [|] [|] [|] [|]]; reflexivity. Qed.

Lemma scanstring_escape_string (s rest : string) :
  scanstring (escape_string s +:+ String dquote rest) = Some (s, rest).
Proof.
  induction s as [|c s IH]; [done|].
  cbn [escape_string]. rewrite append_assoc, scanstring_escape_char, IH. done.
Qed.

(** ** Numbers survive the round trip *)

Lemma delimited_head (c : ascii) (r : string) :
  delimited (String c r) = true ->
  is_digit c = false
  /\ Ascii.eqb c "." = false
  /\ Ascii.eqb c "-" = false
  /\ ((N_of_ascii c =? 101) || (N_of_ascii c =? 69))%N = false
  /\ ((N_of_ascii c =? 43) || (N_of_ascii c =? 45))%N = false
  /\ (N_of_ascii c =? 48)%N = false
  /\ is_json_ws c = false.
Proof.
  destruct c as [[|] [|] [|] [|] [|] [|] [|] [|]]; try (by intros [=]); by intros _.
Qed.

Lemma take_digits_append (s rest : string) :
  delimited rest = true -> take_digits (s +:+ rest) = add_rest rest (take_digits s).
Proof.
  intros Hd. induction s as [|c s IH].
  - destruct rest as [|c r]; [done|].
    destruct (delimited_head c r Hd) as (Hc & _).
    change ("" +:+ String c r) with (String c r). cbn [take_digits]. by rewrite Hc.
  - rewrite append_cons. cbn [take_digits]. rewrite IH.
    by destruct (is_digit c), (take_digits s).
Qed.

Lemma match_unsigned_append (s rest : string) :
  delimited rest = true -> match_unsigned (s +:+ rest) = add_rest rest <$> match_unsigned s.
Proof.
  intros Hd. destruct s as [|c s].
  - destruct rest as [|c r]; [done|].
    destruct (delimited_head c r Hd) as (Hc & _ & _ & _ & _ & H0 & _).
    change ("" +:+ String c r) with (String c r). unfold match_unsigned.
    by rewrite H0, Hc.
  - rewrite append_cons. unfold match_unsigned.
    destruct (N_of_ascii c =? 48)%N; [done|].
    destruct (is_digit c); [|done].
    rewrite take_digits_append by done. by destruct (take_digits s).
Qed.

Lemma match_integer_append (s rest : string) :
  delimited rest = true -> match_integer (s +:+ rest) = add_rest rest <$> match_integer s.
Proof.
  intros Hd. destruct s as [|c s].
  - destruct rest as [|c r]; [done|].
    destruct (delimited_head c r Hd) as (_ & _ & Hm & _).
    change ("" +:+ String c r) with (String c r). unfold match_integer. rewrite Hm.
    exact (match_unsigned_append "" (String c r) Hd).
  - rewrite append_cons. unfold match_integer.
    destruct (Ascii.eqb c "-").
    + rewrite match_unsigned_append by done. by destruct (match_unsigned s) as [[? ?]|].
    + by rewrite <- append_cons, match_unsigned_append.
Qed.

Lemma match_frac_append (s rest : string) :
  delimited rest = true -> match_frac (s +:+ rest) = add_rest rest (match_frac s).
Proof.
  intros Hd. destruct s as [|d [|c s]].
  - destruct rest as [|d [|c r]]; try done.
    destruct (delimited_head d _ Hd) as (_ & Hdot & _).
    change ("" +:+ String d (String c r)) with (String d (String c r)).
    unfold match_frac. by rewrite Hdot.
  - destruct rest as [|c r]; [done|].
    destruct (delimited_head c r Hd) as (Hc & _).
    change (String d "" +:+ String c r) with (String d (String c r)).
    unfold match_frac. rewrite Hc. by rewrite andb_false_r.
  - rewrite !append_cons. unfold match_frac.
    destruct (Ascii.eqb d "." && is_digit c); [|done].
    rewrite take_digits_append by done. by destruct (take_digits s).
Qed.

Lemma match_exp_append (s rest : string) :
  delimited rest = true -> match_exp (s +:+ rest) = add_rest rest (match_exp s).
Proof.
  intros Hd.
  assert (Hrest : match_exp rest = ("", rest)).
  { destruct rest as [|c r]; [done|].
    destruct (delimited_head c r Hd) as (_ & _ & _ & He & _).
    unfold match_exp. by rewrite He. }
  destruct s as [|e s]; [exact Hrest|].
  rewrite append_cons. unfold match_exp.
  destruct ((N_of_ascii e =? 101) || (N_of_ascii e =? 69))%N; [|done].
  destruct s as [|c s].
  - destruct rest as [|c r]; [done|].
    destruct (delimited_head c r Hd) as (Hc & _ & _ & _ & Hs & _).
    change ("" +:+ String c r) with (String c r). cbv beta iota. by rewrite Hc, Hs.
  - rewrite append_cons. destruct (is_digit c).
    + rewrite take_digits_append by done. by destruct (take_digits s).
    + destruct ((N_of_ascii c =? 43) || (N_of_ascii c =? 45))%N; [|done].
      destruct s as [|c' s].
      * destruct rest as [|c' r]; [done|].
        destruct (delimited_head c' r Hd) as (Hc & _).
        change ("" +:+ String c' r) with (String c' r). cbv beta iota. by rewrite Hc.
      * rewrite append_cons. destruct (is_digit c'); [|done].
        rewrite take_digits_append by done. by destruct (take_digits s).
Qed.

(** A number followed by a delimiter is matched as it is matched alone. *)
Lemma match_number_append (s rest i f e r : string) :
  delimited rest = true ->
  match_number s = Some (i, f, e, r) ->
  match_number (s +:+ rest) = Some (i, f, e, r +:+ rest).
Proof.
  intros Hd. unfold match_number. rewrite match_integer_append by done.
  destruct (match_integer s) as [[i' r1]|]; [|done]. cbn.
  rewrite match_frac_append by done. destruct (match_frac r1) as [f' r2]. cbn.
  rewrite match_exp_append by done. destruct (match_exp r2) as [e' r3]. cbn.
  by intros [= -> -> -> ->].
Qed.

Lemma take_digits_concat (s : string) : (take_digits s).1 +:+ (take_digits s).2 = s.
Proof.
  induction s as [|c s IH]; [done|]. cbn [take_digits].
  destruct (is_digit c); [|done]. unfold cons_char. cbn [fst snd].
  rewrite append_cons. by f_equal.
Qed.

Lemma match_unsigned_concat (s : string) (p : string * string) :
  match_unsigned s = Some p -> p.1 +:+ p.2 = s.
Proof.
  destruct s as [|c s]; [done|]. unfold match_unsigned.
  destruct (N_of_ascii c =? 48)%N eqn:H0.
  - intros [= <-]. cbn. f_equal.
    apply N.eqb_eq in H0. rewrite <- (ascii_N_embedding c), H0. done.
  - destruct (is_digit c); [|done]. intros [= <-]. unfold cons_char. cbn [fst snd].
    rewrite append_cons. f_equal. apply take_digits_concat.
Qed.

Lemma match_integer_concat (s : string) (p : string * string) :
  match_integer s = Some p -> p.1 +:+ p.2 = s.
Proof.
  destruct s as [|c s]; [done|]. unfold match_integer.
  destruct (Ascii.eqb c "-").
  - destruct (match_unsigned s) as [q|] eqn:Hq; [|done]. intros [= <-].
    unfold cons_char. cbn [fst snd]. rewrite append_cons. f_equal.
    by apply match_unsigned_concat.
  - apply match_unsigned_concat.
Qed.

Lemma match_frac_concat (s : string) : (match_frac s).1 +:+ (match_frac s).2 = s.
Proof.
  destruct s as [|d [|c s]]; try done. unfold match_frac.
  destruct (Ascii.eqb d "." && is_digit c); [|done].
  unfold cons_char. cbn [fst snd]. rewrite !append_cons. do 2 f_equal.
  apply take_digits_concat.
Qed.

Lemma match_exp_concat (s : string) : (match_exp s).1 +:+ (match_exp s).2 = s.
Proof.
  destruct s as [|e s]; [done|]. unfold match_exp.
  destruct ((N_of_ascii e =? 101) || (N_of_ascii e =? 69))%N; [|done].
  destruct s as [|c s]; [done|].
  destruct (is_digit c).
  - unfold cons_char. cbn [fst snd]. rewrite !append_cons. do 2 f_equal.
    apply take_digits_concat.
  - destruct ((N_of_ascii c =? 43) || (N_of_ascii c =? 45))%N; [|done].
    destruct s as [|c' s]; [done|]. destruct (is_digit c'); [|done].
    unfold cons_char. cbn [fst snd]. rewrite !append_cons. do 3 f_equal.
    apply take_digits_concat.
Qed.

(** The groups and the rest make up the text. *)
Lemma match_number_concat (s i f e r : string) :
  match_number s = Some (i, f, e, r) -> i +:+ f +:+ e +:+ r = s.
Proof.
  unfold match_number. destruct (match_integer s) as [[i' r1]|] eqn:Hi; [|done].
  pose proof (match_frac_concat r1) as Hf. destruct (match_frac r1) as [f' r2].
  pose proof (match_exp_concat r2) as He. destruct (match_exp r2) as [e' r3].
  intros [= <- <- <- <-]. cbn [fst snd] in *.
  apply match_integer_concat in Hi. cbn [fst snd] in Hi. by rewrite He, Hf.
Qed.

(** The decimal text of a natural number has no leading zero. *)
Lemma to_uint_D0 (n : nat) (u : uint) : Nat.to_uint n = D0 u -> u = Nil.
Proof.
  intros Hu. pose proof (Unsigned.to_of (Nat.to_uint n)) as Hn.
  rewrite Unsigned.of_to, Hu, DecimalFacts.unorm_D0 in Hn. unfold unorm in Hn.
  destruct (nzhead u) eqn:Hz; try discriminate.
  - by injection Hn.
  - by destruct (DecimalFacts.nzhead_nonzero _ _ Hz).
Qed.

Lemma take_digits_uint (u : uint) :
  take_digits (NilEmpty.string_of_uint u) = (NilEmpty.string_of_uint u, "").
Proof.
  induction u; [done|..]; cbn [NilEmpty.string_of_uint take_digits];
    rewrite IHu; reflexivity.
Qed.

Lemma match_unsigned_str (n : nat) : match_unsigned (str n) = Some (str n, "").
Proof.
  unfold str. pose proof (to_uint_nonnil n) as Hnn. pose proof (to_uint_D0 n) as H0.
  destruct (Nat.to_uint n) as [|u|u|u|u|u|u|u|u|u|u]; [done|..].
  { by rewrite (H0 u eq_refl). }
  all: unfold NilZero.string_of_uint; cbn [NilEmpty.string_of_uint].
  all: unfold match_unsigned; cbn -[take_digits]; by rewrite take_digits_uint.
Qed.

Lemma str_head (n : nat) : exists c t, str n = String c t /\ is_digit c = true.
Proof.
  unfold str. pose proof (to_uint_nonnil n) as Hnn.
  destruct (Nat.to_uint n); [done|..]; by eexists _, _.
Qed.

Lemma is_digit_facts (c : ascii) :
  is_digit c = true ->
  Ascii.eqb c "-" = false /\ starts_with_digit (String c "") = true.
Proof.
  destruct c as [[|] [|] [|] [|] [|] [|] [|] [|]]; try (by intros [=]); by intros _.
Qed.

Lemma scan_unsigned_str (n : nat) : scan_unsigned (str n) = Some (Z.of_nat n).
Proof.
  rewrite <- long_from_string_str. symmetry. apply digit_head.
  destruct (str_head n) as (c & t & -> & Hc). by apply is_digit_facts in Hc as [_ Hc].
Qed.

(** The numeral of [repr(z)] is [z]. *)
Lemma long_from_string_int_repr (z : Z) : long_from_string (int_repr z) = Some z.
Proof.
  unfold int_repr. destruct (z <? 0) eqn:Hz.
  - apply Z.ltb_lt in Hz.
    change (long_from_string (String "-" (str (Z.to_nat (- z)))))
      with (Z.opp <$> scan_unsigned (str (Z.to_nat (- z)))).
    rewrite scan_unsigned_str. simpl. f_equal. lia.
  - apply Z.ltb_ge in Hz. rewrite long_from_string_str. f_equal. lia.
Qed.

Lemma match_number_int (z : Z) : match_number (int_repr z) = Some (int_repr z, "", "", "").
Proof.
  unfold int_repr, match_number. destruct (z <? 0).
  - unfold match_integer. change (Ascii.eqb "-" "-") with true. cbv iota.
    by rewrite match_unsigned_str.
  - destruct (str_head (Z.to_nat z)) as (c & t & Hs & Hc).
    assert (Hi : match_integer (str (Z.to_nat z)) = Some (str (Z.to_nat z), "")).
    { rewrite <- match_unsigned_str. rewrite Hs. unfold match_integer.
      by rewrite (proj1 (is_digit_facts c Hc)). }
    by rewrite Hi.
Qed.

Section JsonNumbers.
Variable float_repr : float -> string.
Variable float_of_string : string -> option float.

Lemma scan_number_int (z : Z) (rest : string) :
  delimited rest = true ->
  scan_number float_of_string (int_repr z +:+ rest) = Some (PyNumber (PyInt z), rest).
Proof.
  intros Hd. unfold scan_number.
  rewrite (match_number_append _ rest _ _ _ _ Hd (match_number_int z)).
  cbn. by rewrite long_from_string_int_repr.
Qed.

Lemma scan_number_float (tok : string) (f : float) (rest : string) :
  delimited rest = true ->
  is_float_token tok = true ->
  float_of_string tok = Some f ->
  scan_number float_of_string (tok +:+ rest) = Some (PyNumber (PyFloat f), rest).
Proof.
  intros Hd Htok Hf. unfold is_float_token in Htok. unfold scan_number.
  destruct (match_number tok) as [[[[i fr] e] r]|] eqn:Hm; [|done].
  apply andb_true_iff in Htok as [Hr Hfe]. apply String.eqb_eq in Hr as ->.
  rewrite (match_number_append _ rest _ _ _ _ Hd Hm).
  apply negb_true_iff in Hfe. rewrite Hfe.
  apply match_number_concat in Hm. rewrite append_nil_r in Hm. rewrite Hm, Hf. done.
Qed.

End JsonNumbers.

(** ** The special floats *)

Lemma SFcompare_refl (x : SpecFloat.spec_float) :
  x <> SpecFloat.S754_nan -> SpecFloat.SFcompare x x = Some Eq.
Proof.
  destruct x as [s|s| |s m e]; intros Hx; try done; simpl.
  - by destruct s.
  - rewrite Z.compare_refl. destruct s; simpl; by rewrite ?Pos.compare_cont_refl, ?Pos.compare_refl.
Qed.

Lemma float_is_nan (f : float) : PrimFloat.eqb f f = false -> f = nan.
Proof.
  rewrite FloatAxioms.eqb_spec. unfold SpecFloat.SFeqb. intros Hc.
  destruct (FloatOps.Prim2SF f) as [s|s| |s m e] eqn:Hn.
  - by rewrite SFcompare_refl in Hc.
  - by rewrite SFcompare_refl in Hc.
  - rewrite <- (FloatAxioms.SF2Prim_Prim2SF f), Hn. reflexivity.
  - by rewrite SFcompare_refl in Hc.
Qed.

Lemma float_is_infinity (f : float) : PrimFloat.eqb f infinity = true -> f = infinity.
Proof.
  rewrite FloatAxioms.eqb_spec. unfold SpecFloat.SFeqb. intros Hc.
  apply FloatAxioms.Prim2SF_inj.
  change (FloatOps.Prim2SF infinity) with (SpecFloat.S754_infinity false) in *.
  destruct (FloatOps.Prim2SF f) as [s|s| |s m e]; simpl in Hc; try done; by destruct s.
Qed.

Lemma float_is_neg_infinity (f : float) :
  PrimFloat.eqb f neg_infinity = true -> f = neg_infinity.
Proof.
  rewrite FloatAxioms.eqb_spec. unfold SpecFloat.SFeqb. intros Hc.
  apply FloatAxioms.Prim2SF_inj.
  change (FloatOps.Prim2SF neg_infinity) with (SpecFloat.S754_infinity true) in *.
  destruct (FloatOps.Prim2SF f) as [s|s| |s m e]; simpl in Hc; try done; by destruct s.
Qed.

(** ** Induction on values *)

Section PyvalInd.
Variable P : pyval -> Prop.
Hypothesis HNone : P PyNone.
Hypothesis HBool : forall b, P (PyBool b).
Hypothesis HNumber : forall x, P (PyNumber x).
Hypothesis HStr : forall s, P (PyStr s).
Hypothesis HList : forall l, Forall P l -> P (PyList l).
Hypothesis HDict : forall items, Forall (fun kv => P kv.2) items -> P (PyDict items).

Fixpoint pyval_ind (v : pyval) : P v :=
  match v with
  | PyNone => HNone
  | PyBool b => HBool b
  | PyNumber x => HNumber x
  | PyStr s => HStr s
  | PyList l =>
      HList l ((fix go (l : list pyval) : Forall P l :=
                  match l with
                  | [] => Forall_nil_2 P
                  | v :: l' => Forall_cons_2 P v l' (pyval_ind v) (go l')
                  end) l)
  | PyDict items =>
      HDict items
        ((fix go (items : list (string * pyval)) : Forall (fun kv => P kv.2) items :=
            match items with
            | [] => Forall_nil_2 _
            | kv :: items' => Forall_cons_2 _ kv items' (pyval_ind kv.2) (go items')
            end) items)
  end.

End PyvalInd.

Lemma size_pos (v : pyval) : (1 <= size v)%nat.
Proof. destruct v; simpl; lia. Qed.

Lemma size_list_bound (l : list pyval) :
  (length l <= foldr (fun v n => size v + n)%nat 0%nat l)%nat
  /\ Forall (fun v => size v <= foldr (fun v n => size v + n)%nat 0%nat l)%nat l.
Proof.
  induction l as [|v l [IH1 IH2]]; simpl; [by split|].
  pose proof (size_pos v). split; [lia|]. constructor; [lia|].
  eapply Forall_impl; [exact IH2|]. simpl. intros; lia.
Qed.

Lemma size_items_bound (items : list (string * pyval)) :
  (length items <= foldr (fun kv n => size kv.2 + n)%nat 0%nat items)%nat
  /\ Forall (fun kv => size kv.2 <= foldr (fun kv n => size kv.2 + n)%nat 0%nat items)%nat
       items.
Proof.
  induction items as [|kv l [IH1 IH2]]; simpl; [by split|].
  pose proof (size_pos kv.2). split; [lia|]. constructor; [lia|].
  eapply Forall_impl; [exact IH2|]. simpl. intros; lia.
Qed.

Lemma skip_ws_value_start (c : ascii) (t : string) :
  value_start c = true -> skip_ws (String c t) = String c t.
Proof.
  destruct c as [[|] [|] [|] [|] [|] [|] [|] [|]]; try (by intros [=]); by intros _.
Qed.

Lemma dict_set_fresh (d : list (string * pyval)) (k : string) (v : pyval) :
  k ∉ d.*1 -> dict_set d k v = d ++ [(k, v)].
Proof.
  induction d as [|[k' v'] d IH]; intros Hk; simpl; [done|].
  rewrite fmap_cons in Hk. apply not_elem_of_cons in Hk as [Hne Hk].
  rewrite (proj2 (String.eqb_neq k' k)) by done. by rewrite IH.
Qed.

Lemma dict_of_pairs_nodup (pairs : list (string * pyval)) :
  NoDup pairs.*1 -> dict_of_pairs pairs = pairs.
Proof.
  unfold dict_of_pairs. intros Hnd.
  enough (Hgen : forall d, NoDup (d ++ pairs).*1 ->
            fold_left (fun d kv => dict_set d kv.1 kv.2) pairs d = d ++ pairs)
    by (by apply (Hgen [])).
  clear Hnd. induction pairs as [|[k v] pairs IH]; intros d Hnd; simpl.
  - by rewrite app_nil_r.
  - rewrite dict_set_fresh.
    + rewrite IH; rewrite <- app_assoc; [done|]. exact Hnd.
    + rewrite fmap_app, fmap_cons in Hnd. apply NoDup_app in Hnd as (_ & Hd & _).
      intros Hin. apply (Hd k Hin). simpl. left.
Qed.

Lemma match_number_head (s : string) :
  is_Some (match_number s) -> exists c t, s = String c t /\ value_start c = true.
Proof.
  unfold match_number, match_integer. destruct s as [|c t]; [by intros [? [=]]|].
  intros Hs. exists c, t. split; [done|].
  destruct (Ascii.eqb c "-") eqn:Hm.
  - apply Ascii.eqb_eq in Hm as ->. done.
  - unfold match_unsigned in Hs.
    destruct (N_of_ascii c =? 48)%N eqn:H0.
    + apply N.eqb_eq in H0. rewrite <- (ascii_N_embedding c), H0. done.
    + destruct (is_digit c) eqn:Hd; [|by destruct Hs as [? [=]]].
      unfold value_start. by rewrite Hd.
Qed.

Lemma int_repr_head (z : Z) : exists c t, int_repr z = String c t /\ value_start c = true.
Proof.
  apply match_number_head. rewrite match_number_int. by eexists.
Qed.

(** A value that starts with a digit or a minus sign is read as a number
    when [NUMBER_RE] matches. *)
Lemma number_start (c : ascii) :
  (is_digit c || Ascii.eqb c "-") = true ->
  Ascii.eqb c dquote = false /\ Ascii.eqb c "{" = false /\ Ascii.eqb c "[" = false
  /\ Ascii.eqb "n" c = false /\ Ascii.eqb "t" c = false /\ Ascii.eqb "f" c = false.
Proof.
  destruct c as [[|] [|] [|] [|] [|] [|] [|] [|]]; try (by intros [=]); by intros _.
Qed.

Section JsonRoundTrip.
Variable float_repr : float -> string.
Variable float_of_string : string -> option float.

Abbreviation dumps := (json_dumps float_repr).
Abbreviation scan := (scan_once float_of_string).
Abbreviation wf := (wf_value float_repr float_of_string).
Abbreviation item_text := (pair_text float_repr).

Lemma wf_list (l : list pyval) : wf (PyList l) <-> Forall wf l.
Proof.
  simpl. induction l as [|v l IH]; simpl; [by split|].
  rewrite IH. split; [intros []; by constructor|by inversion 1].
Qed.

Lemma wf_dict (items : list (string * pyval)) :
  wf (PyDict items) <-> NoDup items.*1 /\ Forall (fun kv => wf kv.2) items.
Proof.
  simpl. apply and_iff_compat_l. induction items as [|kv l IH]; simpl; [by split|].
  rewrite IH. split; [intros []; by constructor|by inversion 1].
Qed.

Lemma floatstr_head (f : float) :
  float_ok float_repr float_of_string f ->
  exists c t, floatstr float_repr f = String c t /\ value_start c = true.
Proof.
  intros Hok. unfold floatstr.
  destruct (PrimFloat.eqb f f) eqn:H1; simpl; [|by eexists _, _].
  destruct (PrimFloat.eqb f infinity) eqn:H2; [by eexists _, _|].
  destruct (PrimFloat.eqb f neg_infinity) eqn:H3; [by eexists _, _|].
  destruct (Hok H1 H2 H3) as [Htok _]. apply match_number_head.
  unfold is_float_token in Htok. destruct (match_number (float_repr f)); [by eexists|done].
Qed.

Lemma dumps_head (v : pyval) :
  wf v -> exists c t, dumps v = String c t /\ value_start c = true.
Proof.
  destruct v as [|b|[z|f]|s|l|items]; intros Hwf; simpl.
  - by eexists _, _.
  - destruct b; by eexists _, _.
  - apply int_repr_head.
  - by apply floatstr_head.
  - by eexists _, _.
  - by eexists _, _.
  - by eexists _, _.
Qed.

Lemma skip_ws_dumps (v : pyval) (rest : string) :
  wf v -> skip_ws (dumps v +:+ rest) = dumps v +:+ rest.
Proof.
  intros Hwf. destruct (dumps_head v Hwf) as (c & t & -> & Hc).
  rewrite append_cons. by apply skip_ws_value_start.
Qed.

(** *** Numbers *)

Lemma scan_once_number (fuel : nat) (s : string) (c : ascii) (t : string) (res : pyval * string) :
  s = String c t ->
  (is_digit c || Ascii.eqb c "-") = true ->
  scan_number float_of_string s = Some res ->
  scan (S fuel) s = Some res.
Proof.
  intros -> Hc Hn. destruct (number_start c Hc) as (H1 & H2 & H3 & H4 & H5 & H6).
  cbn [scan_once]. rewrite H1, H2, H3.
  unfold strip_prefix at 1 2 3. rewrite H4, H5, H6. by rewrite Hn.
Qed.

Lemma match_number_start (s : string) :
  is_Some (match_number s) ->
  exists c t, s = String c t /\ (is_digit c || Ascii.eqb c "-") = true.
Proof.
  unfold match_number, match_integer. destruct s as [|c t]; [by intros [? [=]]|].
  intros Hs. exists c, t. split; [done|].
  destruct (Ascii.eqb c "-") eqn:Hm; [by rewrite orb_true_r|].
  unfold match_unsigned in Hs.
  destruct (N_of_ascii c =? 48)%N eqn:H0.
  - apply N.eqb_eq in H0. rewrite <- (ascii_N_embedding c), H0. done.
  - destruct (is_digit c) eqn:Hd; [done|by destruct Hs as [? [=]]].
Qed.

Lemma scan_once_int (fuel : nat) (z : Z) (rest : string) :
  delimited rest = true ->
  scan (S fuel) (int_repr z +:+ rest) = Some (PyNumber (PyInt z), rest).
Proof.
  intros Hd.
  destruct (match_number_start (int_repr z)) as (c & t & Hs & Hc);
    [rewrite match_number_int; by eexists|].
  apply (scan_once_number fuel _ c (t +:+ rest)); [by rewrite Hs|done|].
  by apply scan_number_int.
Qed.

Lemma scan_once_float (fuel : nat) (f : float) (rest : string) :
  float_ok float_repr float_of_string f ->
  delimited rest = true ->
  scan (S fuel) (floatstr float_repr f +:+ rest) = Some (PyNumber (PyFloat f), rest).
Proof.
  intros Hok Hd. unfold floatstr.
  destruct (PrimFloat.eqb f f) eqn:H1; simpl.
  - destruct (PrimFloat.eqb f infinity) eqn:H2.
    { apply float_is_infinity in H2 as ->. reflexivity. }
    destruct (PrimFloat.eqb f neg_infinity) eqn:H3.
    { apply float_is_neg_infinity in H3 as ->. reflexivity. }
    destruct (Hok H1 H2 H3) as [Htok Hf].
    destruct (match_number_start (float_repr f)) as (c & t & Hs & Hc).
    { unfold is_float_token in Htok. destruct (match_number (float_repr f)); [by eexists|done]. }
    apply (scan_once_number fuel _ c (t +:+ rest)); [by rewrite Hs|done|].
    by apply scan_number_float.
  - apply float_is_nan in H1 as ->. reflexivity.
Qed.

(** *** Arrays *)

Lemma join_cons (x : string) (l : list string) :
  join (x :: l) = x +:+ match l with [] => "" | _ :: _ => ", " +:+ join l end.
Proof. reflexivity. Qed.

Lemma join_single (x rest : string) : join [x] +:+ rest = x +:+ rest.
Proof. by rewrite join_cons, append_assoc. Qed.

Lemma join_more (x y : string) (l : list string) (rest : string) :
  join (x :: y :: l) +:+ rest = x +:+ String "," (String " " (join (y :: l) +:+ rest)).
Proof. by rewrite join_cons, append_assoc. Qed.

Lemma skip_ws_space (s : string) : skip_ws (String " " s) = skip_ws s.
Proof. reflexivity. Qed.

Lemma skip_ws_comma (s : string) : skip_ws (String "," s) = String "," s.
Proof. reflexivity. Qed.

Lemma array_loop_join (sc : string -> option (pyval * string)) (l : list pyval) :
  Forall (fun v => wf v /\
                   forall rest, delimited rest = true -> sc (dumps v +:+ rest) = Some (v, rest)) l ->
  l <> [] ->
  forall n values rest,
    (length l <= n)%nat ->
    array_loop sc n values (join (dumps <$> l) +:+ String "]" rest)
    = Some (values ++ l, rest).
Proof.
  induction 1 as [|v l [Hwf Hv] Hl IH]; [done|]. intros _ n values rest Hn.
  destruct n as [|n]; [simpl in Hn; lia|].
  destruct l as [|v2 l].
  - rewrite fmap_cons, fmap_nil, join_single. cbn [array_loop].
    rewrite Hv by done. reflexivity.
  - rewrite !fmap_cons, join_more. cbn [array_loop].
    rewrite Hv by done. rewrite skip_ws_comma. cbv iota.
    rewrite skip_ws_space.
    assert (Hwf2 : wf v2) by (by apply Forall_cons in Hl as [[? _] _]).
    rewrite <- (fmap_cons dumps v2 l) in *.
    assert (Hskip : skip_ws (join (dumps <$> v2 :: l) +:+ String "]" rest)
                    = join (dumps <$> v2 :: l) +:+ String "]" rest).
    { rewrite fmap_cons. destruct l as [|v3 l].
      - rewrite fmap_nil, join_single. by apply skip_ws_dumps.
      - rewrite fmap_cons, join_more. by apply skip_ws_dumps. }
    rewrite Hskip. rewrite IH; [|done|simpl in *; lia].
    by rewrite <- app_assoc.
Qed.

Lemma JSONArray_join (sc : string -> option (pyval * string)) (l : list pyval)
    (n : nat) (rest : string) :
  Forall (fun v => wf v /\
                   forall rest, delimited rest = true -> sc (dumps v +:+ rest) = Some (v, rest)) l ->
  (length l <= n)%nat ->
  JSONArray sc n (join (dumps <$> l) +:+ String "]" rest) = Some (l, rest).
Proof.
  intros Hl Hn. destruct l as [|v l]; [reflexivity|].
  pose proof Hl as Hl'. apply Forall_cons in Hl' as [[Hwf _] _].
  transitivity (array_loop sc n [] (join (dumps <$> v :: l) +:+ String "]" rest));
    [|exact (array_loop_join sc (v :: l) Hl ltac:(done) n [] rest Hn)].
  assert (Hhead : exists c t, join (dumps <$> v :: l) +:+ String "]" rest = String c t
                              /\ value_start c = true).
  { destruct (dumps_head v Hwf) as (c & t & Hv & Hc). rewrite fmap_cons.
    destruct l as [|v2 l].
    - rewrite fmap_nil, join_single, Hv, append_cons. by eexists _, _.
    - rewrite fmap_cons, join_more, Hv, append_cons. by eexists _, _. }
  destruct Hhead as (c & t & -> & Hc).
  unfold JSONArray. rewrite skip_ws_value_start by done.
  destruct c as [[|] [|] [|] [|] [|] [|] [|] [|]]; try discriminate Hc; reflexivity.
Qed.

(** *** Objects *)

Lemma dumps_dict (items : list (string * pyval)) :
  dumps (PyDict items) = String "{" (join (item_text <$> items) +:+ "}").
Proof. reflexivity. Qed.

Lemma dumps_list (l : list pyval) :
  dumps (PyList l) = String "[" (join (dumps <$> l) +:+ "]").
Proof. reflexivity. Qed.

Lemma item_text_append (kv : string * pyval) (rest : string) :
  item_text kv +:+ rest
  = String dquote
      (escape_string kv.1 +:+ String dquote (String ":" (String " " (dumps kv.2 +:+ rest)))).
Proof.
  unfold item_text, encode_basestring_ascii.
  rewrite !append_cons, !append_assoc. reflexivity.
Qed.

Lemma object_loop_last (sc : string -> option (pyval * string)) (n : nat)
    (pairs : list (string * pyval)) (k : string) (v : pyval) (rest : string) :
  wf v ->
  sc (dumps v +:+ String "}" rest) = Some (v, String "}" rest) ->
  object_loop sc (S n) pairs
    (escape_string k +:+ String dquote (String ":" (String " " (dumps v +:+ String "}" rest))))
  = Some (dict_of_pairs (pairs ++ [(k, v)]), rest).
Proof.
  intros Hwf Hsc. cbn [object_loop]. rewrite scanstring_escape_string. cbv iota.
  by rewrite skip_ws_space, skip_ws_dumps, Hsc.
Qed.

Lemma object_loop_more (sc : string -> option (pyval * string)) (n : nat)
    (pairs : list (string * pyval)) (k : string) (v : pyval) (tail : string) :
  wf v ->
  sc (dumps v +:+ String "," (String " " (String dquote tail)))
    = Some (v, String "," (String " " (String dquote tail))) ->
  object_loop sc (S n) pairs
    (escape_string k +:+ String dquote
       (String ":" (String " " (dumps v +:+ String "," (String " " (String dquote tail))))))
  = object_loop sc n (pairs ++ [(k, v)]) tail.
Proof.
  intros Hwf Hsc. cbn [object_loop]. rewrite scanstring_escape_string. cbv iota.
  by rewrite skip_ws_space, skip_ws_dumps, Hsc.
Qed.

Lemma join_pairs_head (kv : string * pyval) (items : list (string * pyval)) (rest : string) :
  exists tail, join (item_text <$> kv :: items) +:+ rest = String dquote tail.
Proof.
  rewrite fmap_cons. destruct items as [|kv3 items].
  - rewrite fmap_nil, join_single, item_text_append. by eexists.
  - rewrite fmap_cons, join_more, item_text_append. by eexists.
Qed.

Lemma object_loop_join (sc : string -> option (pyval * string))
    (items : list (string * pyval)) :
  Forall (fun kv => wf kv.2 /\
            forall rest, delimited rest = true -> sc (dumps kv.2 +:+ rest) = Some (kv.2, rest))
         items ->
  items <> [] ->
  forall n pairs rest tail,
    (length items <= n)%nat ->
    join (item_text <$> items) +:+ String "}" rest = String dquote tail ->
    object_loop sc n pairs tail = Some (dict_of_pairs (pairs ++ items), rest).
Proof.
  induction 1 as [|[k v] items [Hwf Hv] Hl IH]; [done|].
  intros _ n pairs rest tail Hn Htail.
  destruct n as [|n]; [simpl in Hn; lia|]. simpl in Hwf, Hv.
  destruct items as [|kv2 items].
  - rewrite fmap_cons, fmap_nil, join_single, item_text_append in Htail.
    injection Htail as <-. simpl fst; simpl snd.
    rewrite object_loop_last; [done|done|by apply Hv].
  - destruct (join_pairs_head kv2 items (String "}" rest)) as [tail2 Htail2].
    rewrite (fmap_cons item_text (k, v)), (fmap_cons item_text kv2) in Htail.
    rewrite join_more in Htail. rewrite <- (fmap_cons item_text kv2) in Htail.
    rewrite Htail2, item_text_append in Htail.
    injection Htail as <-. simpl fst; simpl snd.
    rewrite object_loop_more; [|done|by apply Hv].
    rewrite (IH ltac:(done) n (pairs ++ [(k, v)]) rest tail2); [|simpl in *; lia|done].
    by rewrite <- app_assoc.
Qed.

Lemma JSONObject_join (sc : string -> option (pyval * string))
    (items : list (string * pyval)) (n : nat) (rest : string) :
  Forall (fun kv => wf kv.2 /\
            forall rest, delimited rest = true -> sc (dumps kv.2 +:+ rest) = Some (kv.2, rest))
         items ->
  NoDup items.*1 ->
  (length items <= n)%nat ->
  JSONObject sc n (join (item_text <$> items) +:+ String "}" rest) = Some (items, rest).
Proof.
  intros Hl Hnd Hn. destruct items as [|kv items]; [reflexivity|].
  destruct (join_pairs_head kv items (String "}" rest)) as [tail Htail]. rewrite Htail.
  transitivity (object_loop sc n [] tail); [reflexivity|].
  rewrite (object_loop_join sc (kv :: items) Hl ltac:(done) n [] rest tail Hn Htail).
  by rewrite app_nil_l, dict_of_pairs_nodup.
Qed.

(** *** Every value *)

Lemma scan_once_dumps (v : pyval) :
  wf v ->
  forall fuel rest,
    (size v <= fuel)%nat -> delimited rest = true ->
    scan fuel (dumps v +:+ rest) = Some (v, rest).
Proof.
  induction v as [|b|x|s|l IH|items IH] using pyval_ind; intros Hwf fuel rest Hsz Hd;
    (destruct fuel as [|fuel]; [simpl in Hsz; lia|]).
  - reflexivity.
  - by destruct b.
  - destruct x as [z|f]; [by apply scan_once_int|by apply scan_once_float].
  - change (dumps (PyStr s) +:+ rest)
      with (String dquote ((escape_string s +:+ String dquote "") +:+ rest)).
    rewrite append_assoc. change (String dquote "" +:+ rest) with (String dquote rest).
    cbn [scan_once]. change (Ascii.eqb dquote dquote) with true. cbv iota.
    by rewrite scanstring_escape_string.
  - rewrite dumps_list, append_cons, append_assoc.
    change ("]" +:+ rest) with (String "]" rest).
    cbn [scan_once]. change (Ascii.eqb "[" dquote) with false.
    change (Ascii.eqb "[" "{") with false. change (Ascii.eqb "[" "[") with true. cbv iota.
    apply wf_list in Hwf. simpl in Hsz.
    destruct (size_list_bound l) as [Hlen Hsizes].
    rewrite JSONArray_join; [done| |lia].
    apply Forall_forall. intros v Hv. split; [by eapply Forall_forall in Hwf|].
    intros rest' Hd'.
    eapply Forall_forall in IH, Hwf, Hsizes; [|done..].
    apply IH; [done|lia|done].
  - rewrite dumps_dict, append_cons, append_assoc.
    change ("}" +:+ rest) with (String "}" rest).
    cbn [scan_once]. change (Ascii.eqb "{" dquote) with false.
    change (Ascii.eqb "{" "{") with true. cbv iota.
    apply wf_dict in Hwf as [Hnd Hwf]. simpl in Hsz.
    destruct (size_items_bound items) as [Hlen Hsizes].
    rewrite JSONObject_join; [done| |done|lia].
    apply Forall_forall. intros kv Hkv. split; [by eapply Forall_forall in Hwf|].
    intros rest' Hd'.
    eapply Forall_forall in IH, Hwf, Hsizes; [|done..].
    apply IH; [done|simpl in *; lia|done].
Qed.

(** The encoder writes at least one character per node. *)
Lemma length_join (l : list string) :
  (foldr (fun x n => String.length x + n) 0 l <= String.length (join l))%nat.
Proof.
  induction l as [|x l IH]; [done|]. rewrite join_cons, length_append.
  destruct l as [|y l]; [simpl; lia|]. rewrite length_append. simpl in *. lia.
Qed.

Lemma length_join_list (l : list pyval) :
  Forall (fun v => size v <= String.length (dumps v))%nat l ->
  (foldr (fun v n => size v + n) 0 l <= String.length (join (dumps <$> l)))%nat.
Proof.
  intros Hl. etrans; [|apply length_join].
  induction Hl as [|v l Hv Hl IH]; [done|]. rewrite fmap_cons. simpl foldr. lia.
Qed.

Lemma length_join_items (items : list (string * pyval)) :
  Forall (fun kv => size kv.2 <= String.length (dumps kv.2))%nat items ->
  (foldr (fun kv n => size kv.2 + n) 0 items <= String.length (join (item_text <$> items)))%nat.
Proof.
  intros Hl. etrans; [|apply length_join].
  induction Hl as [|kv l Hv Hl IH]; [done|]. rewrite fmap_cons. simpl foldr.
  rewrite !length_append. lia.
Qed.

Lemma size_le_length (v : pyval) :
  wf v -> (size v <= String.length (dumps v))%nat.
Proof.
  induction v as [|b|x|s|l IH|items IH] using pyval_ind; intros Hwf.
  - simpl. lia.
  - destruct b; simpl; lia.
  - destruct (dumps_head (PyNumber x) Hwf) as (c & t & -> & _). simpl. lia.
  - simpl. lia.
  - rewrite dumps_list. simpl. rewrite length_append. apply wf_list in Hwf.
    pose proof (length_join_list l) as Hj. simpl in Hj.
    assert (Hall : Forall (fun v => size v <= String.length (dumps v))%nat l).
    { apply Forall_forall. intros v Hv. eapply Forall_forall in IH, Hwf; [|done..]. auto. }
    specialize (Hj Hall). lia.
  - rewrite dumps_dict. simpl. rewrite length_append. apply wf_dict in Hwf as [_ Hwf].
    pose proof (length_join_items items) as Hj. simpl in Hj.
    assert (Hall : Forall (fun kv => size kv.2 <= String.length (dumps kv.2))%nat items).
    { apply Forall_forall. intros v Hv. eapply Forall_forall in IH, Hwf; [|done..]. auto. }
    specialize (Hj Hall). lia.
Qed.

(** [json.loads(json.dumps(v)) == v] *)
Lemma json_loads_dumps (v : pyval) :
  wf v -> json_loads float_of_string (dumps v) = Some v.
Proof.
  intros Hwf. unfold json_loads.
  rewrite <- (append_nil_r (dumps v)) at 2. rewrite skip_ws_dumps by done.
  rewrite scan_once_dumps; [done|done| |done].
  by apply size_le_length.
Qed.

End JsonRoundTrip.

(** ** The extraction survives the hand-over (C9) *)

Section ExtractionRoundTrip.
Variable float_repr : float -> string.
Variable float_of_string : string -> option float.

Lemma wf_span_info_value (f : span_info) :
  Forall (num_ok float_repr float_of_string) (si_bbox f) ->
  num_ok float_repr float_of_string (si_size f) ->
  wf_value float_repr float_of_string (span_info_value f).
Proof.
  intros Hb Hs. unfold span_info_value. apply wf_dict. split.
  - apply (bool_decide_unpack _). vm_compute. exact I.
  - repeat (apply Forall_cons; split); try done; cbn [snd].
    apply wf_list, Forall_fmap. eapply Forall_impl; [exact Hb|done].
Qed.

Lemma wf_extraction_value (ex : extraction) :
  extraction_floats_ok float_repr float_of_string ex -> wf_value float_repr float_of_string (extraction_value ex).
Proof.
  intros Hok. unfold extraction_value. apply wf_dict. split.
  - cbn. apply NoDup_singleton.
  - apply Forall_singleton. cbn [snd]. apply wf_list, Forall_fmap.
    eapply Forall_impl; [exact Hok|]. intros frags Hfrags. cbn.
    apply wf_list, Forall_fmap. eapply Forall_impl; [exact Hfrags|].
    intros f [Hb Hs]. by apply wf_span_info_value.
Qed.

End ExtractionRoundTrip.

Lemma fmap_injective {A B : Type} (f : A -> B) :
  (forall x y, f x = f y -> x = y) ->
  forall l l' : list A, f <$> l = f <$> l' -> l = l'.
Proof.
  intros Hf l. induction l as [|x l IH]; intros [|x' l'] Hl; try done.
  rewrite !fmap_cons in Hl. injection Hl as Hx Hl. f_equal; [by apply Hf|by apply IH].
Qed.

Lemma span_info_value_inj (f f' : span_info) :
  span_info_value f = span_info_value f' -> f = f'.
Proof.
  destruct f as [t b fo s c], f' as [t' b' fo' s' c']. unfold span_info_value. simpl.
  intros [= -> Hb -> -> ->]. f_equal.
  apply (fmap_injective PyNumber); [|done]. by intros x y [= ->].
Qed.

Lemma extraction_value_inj (ex ex' : extraction) :
  extraction_value ex = extraction_value ex' -> ex = ex'.
Proof.
  destruct ex as [ps], ex' as [ps']. unfold extraction_value. simpl.
  intros [= Hps]. f_equal.
  apply (fmap_injective (fun frags => PyList (span_info_value <$> frags))); [|done].
  intros p p' [= Hp]. apply (fmap_injective span_info_value); [|done].
  apply span_info_value_inj.
Qed.

(** C9. For every fragment model [ex] (those [extract_text_from_pdf]
    returns among them), reading back with [json.load] what [json.dump]
    wrote gives the value that was written: a model with the same pages,
    the same fragments on every page and the same text, bbox, font, size and
    colour in every fragment, and no other. [float.__repr__] and [float] are
    parameters, and the floats of the model are to be read back from their
    [repr], which is what CPython's shortest-repr guarantees; integers,
    strings and the structure are read back by the decoder as modelled. *)
Theorem extraction_json_round_trip (float_repr : float -> string)
    (float_of_string : string -> option float) (ex : extraction) :
  extraction_floats_ok float_repr float_of_string ex ->
  json_loads float_of_string (json_dumps float_repr (extraction_value ex))
    = Some (extraction_value ex)
  /\ (forall ex',
        json_loads float_of_string (json_dumps float_repr (extraction_value ex))
          = Some (extraction_value ex') ->
        ex' = ex
        /\ length (pages ex') = length (pages ex)
        /\ forall n, length <$> pages ex' !! n = length <$> pages ex !! n).
Proof.
  intros Hok.
  assert (Hrt : json_loads float_of_string (json_dumps float_repr (extraction_value ex))
                = Some (extraction_value ex))
    by (by apply json_loads_dumps, wf_extraction_value).
  split; [done|]. intros ex' Hex'. rewrite Hrt in Hex'.
  assert (Heq : extraction_value ex' = extraction_value ex) by congruence.
  apply extraction_value_inj in Heq. by subst ex'.
Qed.

Example toy_extraction_extracted :
  extract_text_from_pdf (lib := toy_fitz None) "doc.pdf" = Return toy_extraction.
Proof. by vm_compute. Qed.

Lemma toy_extraction_floats_ok :
  extraction_floats_ok toy_float_repr toy_float_of_string toy_extraction.
Proof.
  unfold extraction_floats_ok, toy_extraction, toy_pages.
  repeat (first [apply Forall_nil_2 | apply Forall_cons_2 | split]);
    try exact I; intros _ _ _; split; by vm_compute.
Qed.

Lemma extraction_json_round_trip_witness :
  json_loads toy_float_of_string (json_dumps toy_float_repr (extraction_value toy_extraction))
    = Some (extraction_value toy_extraction)
  /\ (forall ex',
        json_loads toy_float_of_string
          (json_dumps toy_float_repr (extraction_value toy_extraction))
          = Some (extraction_value ex') ->
        ex' = toy_extraction
        /\ length (pages ex') = length (pages toy_extraction)
        /\ forall n, length <$> pages ex' !! n = length <$> pages toy_extraction !! n).
Proof.
  apply (extraction_json_round_trip toy_float_repr toy_float_of_string toy_extraction).
  exact toy_extraction_floats_ok.
Defined.

(** The encoder and the decoder on small texts. *)
Example json_small_texts :
  json_dumps toy_float_repr
    (PyList [PyNumber (PyInt (-12)); PyNone; PyBool true; PyNumber (PyFloat 20.5);
             PyList []; PyDict []; PyNumber (PyFloat nan)])
  = "[-12, null, true, 20.5, [], {}, NaN]"
  /\ json_loads toy_float_of_string " [1 , 2,3 ] "
     = Some (PyList [PyNumber (PyInt 1); PyNumber (PyInt 2); PyNumber (PyInt 3)])
  /\ json_loads toy_float_of_string "[1,]" = None
  /\ json_loads toy_float_of_string "05" = None
  /\ json_loads toy_float_of_string "[20.5, -Infinity]"
     = Some (PyList [PyNumber (PyFloat 20.5); PyNumber (PyFloat neg_infinity)]).
Proof. by vm_compute. Qed.

(** ** The model at work *)

(** The scenario of the design document: fragment 0 of page 0 becomes
    "Bonjour", drawn at (10, 19) in Helvetica 12, black. *)
Example bonjour_scenario :
  page_log <$> apply_pages (lib := toy_fitz None) bonjour_edits (new_document toy_pages)
  = [ [ Event (AddRedactAnnot [PyInt 10; PyInt 10; PyInt 50; PyInt 20] (1, 1, 1)) true;
        Event ApplyRedactions true;
        Event (InsertText (PyInt 10, PyInt 19) "Bonjour" "Helvetica" (PyInt 12) (0, 0, 0))
              true ];
      [] ].
Proof. by vm_compute. Qed.

(** Edits for page "5" of a two-page document change nothing. *)
Example page_five_scenario :
  apply_pages (lib := toy_fitz None) {[ "5" := [("0", "x")] ]} (new_document toy_pages)
  = new_document toy_pages.
Proof. by vm_compute. Qed.

(** A file that does not open: both operations raise. *)
Example corrupt_scenario :
  extract_text_from_pdf (lib := toy_fitz None) "corrupt.pdf" = Raise OpenError
  /\ apply_text_edits_to_pdf (lib := toy_fitz None) "corrupt.pdf" bonjour_edits
     = Raise OpenError.
Proof. by vm_compute. Qed.

(** A commit that fails on page 0 is absorbed: the call returns, and page 1
    is edited. *)
Example failed_commit_scenario :
  apply_text_edits_to_pdf (lib := toy_fitz (Some 0%nat)) "doc.pdf" toy_edits
  = Return [Byte.x03; Byte.x03].
Proof. by vm_compute. Qed.

(** A float box: fragment 1 of page 0 has the box (60.5, 10, 99.25, 20.5)
    and neither font nor size; its replacement is drawn at (60.5, 19.5) in
    "helv" 12. *)
Example float_anchor_scenario :
  insertions (page_log (default (Page toy_page0 [])
    (apply_pages (lib := toy_fitz None) {[ "0" := [("1", "W")] ]}
       (new_document toy_pages) !! 0%nat)))
  = [InsertText (PyFloat 60.5, PyFloat 19.5) "W" "helv" (PyInt 12) (0, 0, 0)].
Proof. by vm_compute. Qed.

(** C3 as stated fails. The only edit is for fragment 7 of page 0, which has
    three fragments. It is skipped, and nothing is raised, but the page is
    not left untouched: it gets a commit, and the bytes saved are not those
    saved without the edit. *)
Lemma out_of_range_edit_commits_page :
  in_range (derive_spans toy_page0) ("7", "c") = false
  /\ page_log <$> apply_pages (lib := toy_fitz None) stray_edits (new_document toy_pages)
     = [ [Event ApplyRedactions true]; [] ]
  /\ apply_pages (lib := toy_fitz None) stray_edits (new_document toy_pages)
     <> new_document toy_pages
  /\ apply_text_edits_to_pdf (lib := toy_fitz None) "doc.pdf" stray_edits
     = Return [Byte.x01; Byte.x00]
  /\ apply_text_edits_to_pdf (lib := toy_fitz None) "doc.pdf" ∅
     = Return [Byte.x00; Byte.x00].
Proof. repeat split; by vm_compute. Qed.

(** C6 as stated fails. The file opens, and no page of it can be loaded:
    both functions raise, although the document could be opened. *)
Lemma locked_document_raises :
  @fitz_open locked_fitz "doc.pdf" = Some toy_pages
  /\ extract_text_from_pdf (lib := locked_fitz) "doc.pdf" = Raise PageError
  /\ apply_text_edits_to_pdf (lib := locked_fitz) "doc.pdf" ∅ = Raise PageError
  /\ ~ ((exists e, extract_text_from_pdf (lib := locked_fitz) "doc.pdf" = Raise e)
        <-> @fitz_open locked_fitz "doc.pdf" = None)
  /\ ~ ((exists e, apply_text_edits_to_pdf (lib := locked_fitz) "doc.pdf" ∅ = Raise e)
        <-> @fitz_open locked_fitz "doc.pdf" = None
            \/ exists pds, @fitz_open locked_fitz "doc.pdf" = Some pds
                 /\ @save locked_fitz (apply_pages (lib := locked_fitz) ∅ (new_document pds))
                    = None).
Proof.
  assert (He : extract_text_from_pdf (lib := locked_fitz) "doc.pdf" = Raise PageError)
    by (by vm_compute).
  assert (Ha : apply_text_edits_to_pdf (lib := locked_fitz) "doc.pdf" ∅ = Raise PageError)
    by (by vm_compute).
  split; [by vm_compute|]. split; [exact He|]. split; [exact Ha|]. split.
  - intros [Hraise _]. by specialize (Hraise (ex_intro _ PageError He)).
  - intros [Hraise _]. destruct (Hraise (ex_intro _ PageError Ha)) as [Hopen|(pds & _ & Hsave)].
    + by vm_compute in Hopen.
    + by vm_compute in Hsave.
Qed.

(** C2 as stated fails. Fragment 2 of page 0 has the empty string as font
    and a size of zero; the entry planned for it keeps both (no ["helv"], no
    12), and the text is then drawn with them. *)
Lemma empty_font_and_zero_size_kept :
  exists e,
    (fold_left (plan_step (lib := toy_fitz None) 0 (derive_spans toy_page0))
       [("2", "a")] (new_document toy_pages, [])).2 = [e]
    /\ derive_spans toy_page0 !! 2%nat = Some plain_span
    /\ span_font plain_span = Some ""
    /\ span_size plain_span = Some (PyInt 0)
    /\ pe_font e <> "helv"
    /\ pe_size e <> PyInt 12
    /\ insertions (page_log (default (Page toy_page0 [])
         (apply_pages (lib := toy_fitz None) {[ "0" := [("2", "a")] ]}
            (new_document toy_pages) !! 0%nat)))
       = [InsertText (PyInt 1, PyInt 3) "a" "" (PyInt 0) (0, 0, 0)].
Proof.
  eexists. split; [by vm_compute|]. repeat split; try done; by vm_compute.
Qed.

Lemma plan_entry_of_valid_edit_witness :
  exists e : plan_entry (H := toy_fitz None),
    (plan_step (lib := toy_fitz None) 0 (derive_spans toy_page0)
       (new_document toy_pages, []) ("2", "a")).2 = [] ++ [e]
    /\ Some (pe_bbox e) = span_bbox plain_span
    /\ pe_color e = default 0 (span_color plain_span)
    /\ pe_new_text e = "a"
    /\ pe_font e = match span_font plain_span with Some f => f | None => "helv" end
    /\ pe_size e = match span_size plain_span with Some z => z | None => PyInt 12 end
    /\ (span_font plain_span = Some "" -> pe_font e = "")
    /\ (span_size plain_span = Some (PyInt 0) -> pe_size e = PyInt 0).
Proof.
  apply (plan_entry_of_valid_edit (lib := toy_fitz None) 0 (derive_spans toy_page0)
           (new_document toy_pages) [] "2" "a" 2 plain_span 0%nat);
    [reflexivity|lia|reflexivity|reflexivity|reflexivity].
Defined.

Lemma insertion_needs_mark_and_commit_witness :
  exists p,
    apply_pages (lib := toy_fitz (Some 1%nat)) toy_edits (new_document toy_pages) !! 0%nat
      = Some p
    /\ omap call_point (insertions (page_log p))
       = (if bool_decide (commits (page_log p) = [true])
          then omap insertion_point (marked_ok (page_log p)) else [])
    /\ (commits (page_log p) <> [true] -> insertions (page_log p) = [])
    /\ length (commits (page_log p))
       = match toy_edits !! str 0 with Some _ => 1%nat | None => 0%nat end.
Proof.
  eexists. split; [by vm_compute|].
  apply (insertion_needs_mark_and_commit (lib := toy_fitz (Some 1%nat))
           toy_edits toy_pages 0).
  by vm_compute.
Defined.

Lemma pages_without_edits_untouched_witness :
  apply_pages (lib := toy_fitz None) bonjour_edits (new_document toy_pages) !! 1%nat
    = new_document toy_pages !! 1%nat
  /\ (forall p,
        apply_pages (lib := toy_fitz None) bonjour_edits (new_document toy_pages) !! 1%nat
          = Some p ->
        page_log p = []
        /\ marked_ok (page_log p) = [] /\ commits (page_log p) = []
        /\ insertions (page_log p) = [])
  /\ apply_pages (lib := toy_fitz None) ∅ (new_document toy_pages) = new_document toy_pages.
Proof.
  apply (pages_without_edits_untouched (lib := toy_fitz None) bonjour_edits toy_pages 1).
  by vm_compute.
Defined.

Lemma malformed_keys_dropped_witness :
  apply_pages (lib := toy_fitz None) toy_edits (new_document toy_pages)
  = apply_pages (lib := toy_fitz None) (drop_malformed toy_edits) (new_document toy_pages)
  /\ (@fitz_open (toy_fitz None) "doc.pdf" = Some toy_pages ->
      apply_text_edits_to_pdf (lib := toy_fitz None) "doc.pdf" toy_edits
      = apply_text_edits_to_pdf (lib := toy_fitz None) "doc.pdf" (drop_malformed toy_edits)
      /\ forall out,
           apply_text_edits_to_pdf (lib := toy_fitz None) "doc.pdf" (drop_malformed toy_edits)
             = Return out ->
           apply_text_edits_to_pdf (lib := toy_fitz None) "doc.pdf" toy_edits = Return out)
  /\ (forall k items',
        drop_malformed toy_edits !! k = Some items' <->
        well_formed_key k = true
        /\ exists items, toy_edits !! k = Some items
             /\ items' = List.filter (fun item : string * string => well_formed_key item.1)
                           items)
  /\ (forall k, well_formed_key k = true <-> exists v, py_int k = Some v /\ 0 <= v)
  /\ (forall k, (4300 < count_digits k)%nat -> well_formed_key k = false)
  /\ Forall (fun key => well_formed_key key = false)
       ["x"; "-1"; "1.5"; ""; "+ 1"; String (ascii_of_N 28) "1"]
  /\ Forall (fun key => well_formed_key key = true) ["0"; " 7 "; "+05"; "1_0"].
Proof.
  apply (malformed_keys_dropped (lib := toy_fitz None) "doc.pdf" toy_edits toy_pages).
  intros n Hn. apply Nat.leb_le.
  destruct n as [|[|n]]; [reflexivity|reflexivity|simpl in Hn; lia].
Defined.

(** The keys [int] refuses: a separator of [str.isspace] before the digits,
    and more digits than the limit. The keys it reads: blanks around the
    digits, a sign, leading zeros, single underscores. *)
Example int_scenarios :
  py_int (String (ascii_of_N 28) "1") = None
  /\ py_int (String (ascii_of_N 31) "1") = None
  /\ py_int (String (ascii_of_N 160) "1") = Some 1
  /\ py_int " +007 " = Some 7
  /\ py_int "1_000" = Some 1000
  /\ py_int "-3" = Some (-3)
  /\ py_int "+ 3" = None
  /\ py_int "1__0" = None
  /\ py_int "" = None.
Proof. by vm_compute. Qed.

(** * Further properties of [pdf_processing.py] *)

(** ** The fragments of a page *)

Lemma fold_left_bind {A B : Type} (f : A -> list B) (g : list B -> A -> list B)
    (l : list A) (acc : list B) :
  (forall acc x, g acc x = acc ++ f x) ->
  fold_left g l acc = acc ++ (l ≫= f).
Proof.
  intros Hg. revert acc. induction l as [|x l IH]; intros acc; cbn [fold_left].
  - by rewrite app_nil_r.
  - by rewrite IH, Hg, bind_cons, app_assoc.
Qed.

Lemma derive_spans_text_spans (pd : page_dict) : derive_spans pd = text_spans pd.
Proof.
  unfold derive_spans, text_spans.
  rewrite (fold_left_bind
             (fun b : block =>
                if block_skipped b then []
                else l ← default [] (block_lines b); default [] (line_spans l))); [done|].
  intros acc b. unfold spans_of_block. destruct (block_skipped b); [by rewrite app_nil_r|].
  apply fold_left_bind. intros acc' l. apply spans_of_line_app.
Qed.

Lemma extract_page_text_spans (pd : page_dict) :
  extract_page pd = make_span_info <$> text_spans pd.
Proof. by rewrite extract_page_derive, derive_spans_text_spans. Qed.

Lemma extract_text_from_pdf_pages `{lib : Fitz} (path : string) (pds : list page_dict)
    (ex : extraction) :
  fitz_open path = Some pds ->
  extract_text_from_pdf path = Return ex ->
  ex = Extraction (extract_page <$> pds).
Proof.
  intros Hopen. rewrite (extract_text_from_pdf_opened path pds Hopen).
  destruct (extract_reads _); [|done]. destruct (close _); [|done]. by intros [= <-].
Qed.

(** X1. The fragments [extract_text_from_pdf] returns for a page are the
    spans of its blocks of type 0, in block, line and span order, each with
    the defaults for its missing keys; a block of another type, or without
    a type, contributes nothing, so a page of such blocks only (or without
    blocks) has the empty list; and a document without pages, which has no
    page to fail on, gives an empty list of pages instead of an error. The
    pages are returned whenever every page is loaded and read and the
    document is closed, and whatever is returned is these pages. *)
Theorem fragments_are_spans_of_text_blocks `{lib : Fitz} :
  (forall pd, extract_page pd = make_span_info <$> text_spans pd)
  /\ (forall pd, Forall (fun b => block_type b <> Some 0) (default [] (pd_blocks pd)) ->
                 extract_page pd = [])
  /\ (forall path pds,
        fitz_open path = Some pds ->
        (extract_reads (new_document pds) = true -> close (new_document pds) = true ->
         exists ex, extract_text_from_pdf path = Return ex
                    /\ pages ex = extract_page <$> pds
                    /\ (pds = [] -> pages ex = []))
        /\ (forall ex, extract_text_from_pdf path = Return ex ->
                       pages ex = extract_page <$> pds)
        /\ (pds = [] -> extract_reads (new_document pds) = true)).
Proof.
  split; [|split].
  - apply extract_page_text_spans.
  - intros pd Hall. rewrite extract_page_text_spans.
    unfold text_spans. induction Hall as [|b bs Hb _ IH]; [done|].
    rewrite bind_cons, fmap_app, IH, app_nil_r.
    unfold block_skipped. destruct (block_type b) as [t|]; [|done].
    destruct (decide (t = 0)) as [->|Hne]; [done|].
    by destruct t.
  - intros path pds Hopen. split; [|split].
    + intros Hreads Hclose.
      rewrite (extract_text_from_pdf_opened path pds Hopen), Hreads, Hclose.
      eexists. split; [done|]. split; [done|]. by intros ->.
    + intros ex Hex. by rewrite (extract_text_from_pdf_pages path pds ex Hopen Hex).
    + by intros ->.
Qed.

(** ** The log of an edited page *)

Section PageLog.
Context `{lib : Fitz}.

Lemma plan_step_invalid (n : nat) (spans : list span) (st : document * list plan_entry)
    (item : string * string) :
  valid_edit spans item = None -> plan_step n spans st item = st.
Proof.
  destruct st as [d anns], item as [key text]. unfold valid_edit, plan_step. simpl.
  destruct (py_int key) as [i|]; [|done].
  rewrite Z.geb_leb.
  destruct (Z.ltb_spec i 0), (Z.leb_spec 0 i), (Z.leb_spec (Z.of_nat (length spans)) i),
    (Z.ltb_spec i (Z.of_nat (length spans))); simpl; try done; try lia.
  destruct (spans !! Z.to_nat i) as [s|]; [|done].
  by destruct (bbox_falsy (span_bbox s)).
Qed.

Lemma plan_step_valid (n : nat) (spans : list span) (d : document) (anns : list plan_entry)
    (item : string * string) (v : span * string) :
  valid_edit spans item = Some v ->
  exists (o : bool) (new : list plan_entry),
    plan_step n spans (d, anns) item
    = (append_events d n [Event (mark_call v) o], anns ++ new)
    /\ attempted <$> new = (if o then [text_call v] else []).
Proof.
  destruct item as [key text]. unfold valid_edit, plan_step. simpl.
  destruct (py_int key) as [i|]; [|done].
  rewrite Z.geb_leb.
  destruct (Z.ltb_spec i 0), (Z.leb_spec 0 i), (Z.leb_spec (Z.of_nat (length spans)) i),
    (Z.ltb_spec i (Z.of_nat (length spans))); simpl; try done; try lia.
  destruct (spans !! Z.to_nat i) as [s|]; [|done].
  destruct (bbox_falsy (span_bbox s)); [done|]. intros [= <-].
  unfold mark_call, span_box. simpl.
  destruct (add_redact_annot d n _ _) as [a|].
  - eexists true, [_]. rewrite record_call_append. split; [done|].
    unfold attempted, text_call, insert_call, span_box. simpl.
    by destruct (insertion_point _).
  - exists false, []. by rewrite record_call_append, app_nil_r.
Qed.

Lemma planned_cons (v : span * string) (o : bool) (vs : list (span * string))
    (oks : list bool) :
  planned (v :: vs) (o :: oks) = (if o then [v] else []) ++ planned vs oks.
Proof. unfold planned. simpl. by destruct o. Qed.

(** The planning loop, edit by edit. *)
Lemma plan_loop_valid (n : nat) (spans : list span) (items : page_edits_t)
    (d : document) (anns : list plan_entry) :
  exists (oks : list bool) (new : list plan_entry),
    let vs := omap (valid_edit spans) items in
    fold_left (plan_step n spans) items (d, anns)
    = (append_events d n (zip_with (fun v o => Event (mark_call v) o) vs oks), anns ++ new)
    /\ length oks = length vs
    /\ attempted <$> new = text_call <$> planned vs oks.
Proof.
  revert d anns. induction items as [|item items IH]; intros d anns.
  - exists [], []. simpl. by rewrite append_events_nil, app_nil_r.
  - cbn [fold_left omap list_omap]. destruct (valid_edit spans item) as [v|] eqn:Hv.
    + destruct (plan_step_valid n spans d anns item v Hv) as (o & new1 & -> & Hn1).
      destruct (IH (append_events d n [Event (mark_call v) o]) (anns ++ new1))
        as (oks & new2 & Hf & Hl & Hn2).
      exists (o :: oks), (new1 ++ new2). cbn zeta in *. rewrite Hf.
      rewrite append_events_app, app_assoc. split; [done|]. split; [simpl; lia|].
      rewrite planned_cons, !fmap_app, Hn1, Hn2. by destruct o.
    + rewrite plan_step_invalid by done. apply IH.
Qed.

Lemma events_zip (ins : list event) : ins = zip_with Event (ev_call <$> ins) (ev_ok <$> ins).
Proof. induction ins as [|[c o] ins IH]; simpl; [done|]. by f_equal. Qed.

Lemma omap_fmap_id {A B : Type} (f : A -> option B) (l : list A) :
  omap id (f <$> l) = omap f l.
Proof.
  induction l as [|x l IH]; [done|].
  cbn [fmap list_fmap omap list_omap]. change (list_omap ?g ?k) with (omap g k).
  change (list_fmap ?g ?k) with (g <$> k). rewrite IH. by destruct (f x).
Qed.

(** The body of the loop over pages, on a page that has edits. *)
Lemma apply_page_log (edits : gmap string page_edits_t) (d : document) (n : nat)
    (items : page_edits_t) :
  edits !! str n = Some items ->
  exists log,
    apply_page edits d n = append_events d n log
    /\ page_log_of (omap (valid_edit (derive_spans (get_text d n))) items) log.
Proof.
  intros He. unfold apply_page. rewrite He. cbn zeta.
  destruct (plan_loop_valid n (derive_spans (get_text d n)) items d [])
    as (oks & plan & Hf & Hl & Hp).
  cbn zeta in Hf. cbn [app] in Hf. set (vs := omap _ items) in *.
  set (marks := zip_with _ vs oks) in *. rewrite Hf. cbv beta iota.
  assert (Hplan : omap attempted plan = omap text_call (planned vs oks)).
  { by rewrite <- (omap_fmap_id attempted), Hp, omap_fmap_id. }
  destruct (apply_redactions (append_events d n marks) n).
  - destruct (insert_loop_events n plan
                (record_call (append_events d n marks) n ApplyRedactions true))
      as (ins & Hi & Hc).
    exists (marks ++ Event ApplyRedactions true :: ins).
    rewrite Hi, record_call_append, !append_events_app. split; [done|].
    exists oks, true, (ev_ok <$> ins). split; [done|].
    rewrite <- Hplan, <- Hc, !length_fmap. split; [done|].
    by rewrite <- events_zip.
  - exists (marks ++ [Event ApplyRedactions false]).
    rewrite record_call_append, append_events_app. split; [done|].
    exists oks, false, (replicate (length (omap text_call (planned vs oks))) true).
    split; [done|]. by rewrite length_replicate.
Qed.

(** Turns of other pages leave a page as it is. *)
Lemma fold_apply_page_other (edits : gmap string page_edits_t) (l : list nat)
    (d : document) (n : nat) :
  n ∉ l -> fold_left (apply_page edits) l d !! n = d !! n.
Proof.
  revert d. induction l as [|m l IH]; intros d Hn; simpl; [done|].
  apply not_elem_of_cons in Hn as [Hne Hn]. rewrite IH by done.
  destruct (apply_page_run edits d m) as (evs & -> & _).
  by apply append_events_lookup_ne.
Qed.

(** A page of the saved document is the page as its own turn left it, and
    its turn started from the page as opened. *)
Lemma final_page_own_turn (edits : gmap string page_edits_t) (pds : list page_dict)
    (n : nat) (pd : page_dict) :
  pds !! n = Some pd ->
  let d := doc_before edits (new_document pds) n in
  apply_pages edits (new_document pds) !! n = apply_page edits d n !! n
  /\ d !! n = Some (Page pd []).
Proof.
  intros Hn d.
  assert (Hlen : (n < length (new_document pds))%nat).
  { unfold new_document. rewrite length_fmap. by apply lookup_lt_Some in Hn. }
  split.
  - rewrite (apply_pages_reaches edits _ n Hlen). apply fold_apply_page_other.
    rewrite elem_of_seq. lia.
  - unfold d, doc_before. rewrite fold_apply_page_other.
    + unfold new_document. by rewrite list_lookup_fmap, Hn.
    + rewrite elem_of_seq. lia.
Qed.

Lemma final_page_log (edits : gmap string page_edits_t) (pds : list page_dict)
    (n : nat) (pd : page_dict) (items : page_edits_t) :
  pds !! n = Some pd ->
  edits !! str n = Some items ->
  exists log,
    apply_pages edits (new_document pds) !! n = Some (Page pd log)
    /\ page_log_of (omap (valid_edit (text_spans pd)) items) log.
Proof.
  intros Hn He. destruct (final_page_own_turn edits pds n pd Hn) as [-> Hd].
  destruct (apply_page_log edits (doc_before edits (new_document pds) n) n items He)
    as (log & -> & Hlog).
  unfold get_text in Hlog. rewrite Hd in Hlog. simpl in Hlog.
  rewrite derive_spans_text_spans in Hlog.
  exists log. split; [|done].
  by rewrite append_events_lookup, Hd.
Qed.

End PageLog.

(** X2. What is done to an edited page is fixed by its valid edits and by
    which library calls fail, and by nothing else. For a page with an entry
    in the edits, the calls made on it are, in this order: one
    [add_redact_annot] per valid edit (key parses to an index within the
    page's spans, span has a non-empty box), in the order of the entry, on
    the span's box with a white fill; one [apply_redactions]; and, if that
    went through, one [insert_text] per edit whose mark was added and whose
    box has an anchor, in the same order. *)
Theorem edited_page_calls `{lib : Fitz} (edits : gmap string page_edits_t)
    (pds : list page_dict) (n : nat) (pd : page_dict) (items : page_edits_t) :
  pds !! n = Some pd ->
  edits !! str n = Some items ->
  exists log,
    apply_pages edits (new_document pds) !! n = Some (Page pd log)
    /\ page_log_of (omap (valid_edit (text_spans pd)) items) log.
Proof.
  intros Hn He. destruct (final_page_own_turn edits pds n pd Hn) as [-> Hd].
  destruct (apply_page_log edits (doc_before edits (new_document pds) n) n items He)
    as (log & -> & Hlog).
  exists log. split; [by rewrite append_events_lookup, Hd|].
  unfold get_text in Hlog. rewrite Hd in Hlog. simpl in Hlog.
  by rewrite derive_spans_text_spans in Hlog.
Qed.

(** ** Nothing is done that the edits do not ask for *)

Lemma valid_edit_Some (spans : list span) (item : string * string) (s : span) (t : string) :
  valid_edit spans item = Some (s, t) ->
  t = item.2
  /\ exists i, py_int item.1 = Some (Z.of_nat i) /\ spans !! i = Some s
               /\ bbox_falsy (span_bbox s) = false.
Proof.
  unfold valid_edit. destruct (py_int item.1) as [i|]; [|done].
  destruct (Z.leb_spec 0 i); [|done]. simpl.
  destruct (i <? Z.of_nat (length spans)); [|done].
  destruct (spans !! Z.to_nat i) as [s'|] eqn:Hs; [|done].
  destruct (bbox_falsy (span_bbox s')) eqn:Hb; [done|]. intros [= <- <-].
  split; [done|]. exists (Z.to_nat i). by rewrite Z2Nat.id.
Qed.

Lemma valid_edit_str (spans : list span) (i : nat) (s : span) (t : string) :
  (count_digits (str i) <= max_str_digits)%nat ->
  spans !! i = Some s -> bbox_falsy (span_bbox s) = false ->
  valid_edit spans (str i, t) = Some (s, t).
Proof.
  intros Hi Hs Hb. unfold valid_edit. simpl. rewrite py_int_str by done.
  apply lookup_lt_Some in Hs as Hlt.
  destruct (Z.leb_spec 0 (Z.of_nat i)); [|lia].
  destruct (Z.ltb_spec (Z.of_nat i) (Z.of_nat (length spans))); [|lia]. simpl.
  by rewrite Nat2Z.id, Hs, Hb.
Qed.

Lemma bbox_falsy_false (b : option (list pynum)) :
  bbox_falsy b = false -> b = Some (default [] b) /\ default [] b <> [].
Proof. by destruct b as [[|x l]|]. Qed.

Lemma planned_subset (vs : list (span * string)) (oks : list bool) (v : span * string) :
  v ∈ planned vs oks -> v ∈ vs.
Proof.
  unfold planned. intros (p & -> & Hp)%list_elem_of_fmap.
  apply list_elem_of_In, filter_In in Hp as [Hp _]. apply list_elem_of_In in Hp.
  destruct p as [x o]. by apply elem_of_zip_l in Hp.
Qed.

(** X3. Nothing is done to a page that its edits do not ask for. On every
    page of the document that is saved, a redaction mark is white and lies
    on the non-empty box of the text span that one of that page's edits
    designates: the key of the edit is read by [int] as the index of the
    span among the page's own spans; text is inserted in black only, and
    only the replacement text of one of that page's edits whose key is the
    index of a span, at the anchor of that span's box and in that span's
    font and size (["helv"] and 12 when the span has none); a commit is
    made on a page with an entry only; a page without an entry in the
    edits has no call at all. *)
Theorem every_call_is_asked_for `{lib : Fitz} (edits : gmap string page_edits_t)
    (pds : list page_dict) (n : nat) (p : page) :
  apply_pages edits (new_document pds) !! n = Some p ->
  pds !! n = Some (page_text p)
  /\ (edits !! str n = None -> page_log p = [])
  /\ Forall (fun e => call_asked_for (text_spans (page_text p)) (edits !! str n) (ev_call e))
       (page_log p).
Proof.
  intros Hp. destruct (final_page edits pds n p Hp) as [Hpd Hrun].
  split; [done|]. unfold page_run in Hrun.
  destruct (edits !! str n) as [items|] eqn:He.
  - split; [done|].
    destruct (final_page_log edits pds n (page_text p) items Hpd He) as (log & Hl & Hlog).
    rewrite Hp in Hl. injection Hl as ->. simpl.
    destruct Hlog as (oks & ok & ioks & _ & _ & ->).
    set (spans := text_spans (page_text p)).
    assert (Hv : forall v, v ∈ omap (valid_edit spans) items ->
                exists key i, (key, v.2) ∈ items /\ py_int key = Some (Z.of_nat i)
                  /\ spans !! i = Some v.1 /\ span_bbox v.1 = Some (span_box v.1)
                  /\ span_box v.1 <> []).
    { intros [s t] ([key t'] & Hin & Hval)%list_elem_of_omap.
      apply valid_edit_Some in Hval as (-> & i & Hk & Hs & Hb).
      apply bbox_falsy_false in Hb as [Hb1 Hb2]. by exists key, i. }
    apply Forall_app. split; [|apply Forall_cons; split; [by simpl; eexists|]].
    + apply Forall_forall. intros e (v & o & -> & Hin & _)%elem_of_zip_with.
      destruct (Hv v Hin) as (key & i & Hk & Hi & Hs & Hb1 & Hb2). simpl.
      split; [done|]. split; [done|]. by exists items, key, v.2, i, v.1.
    + destruct ok; [|by apply Forall_nil].
      apply Forall_forall. intros e (c & o & -> & Hin & _)%elem_of_zip_with.
      apply list_elem_of_omap in Hin as (v & Hin & Hc).
      apply planned_subset in Hin. destruct (Hv v Hin) as (key & i & Hk & Hi & Hs & _).
      unfold text_call in Hc. destruct (insertion_point (span_box v.1)) as [pt|] eqn:Hpt;
        [|done].
      injection Hc as <-. simpl. split; [done|]. by exists items, key, i, v.1.
  - split; [done|]. rewrite Hrun. by apply Forall_nil.
Qed.

(** ** Editing the fragment that was shown *)

Lemma single_edit_insertions (v : span * string) (o ok : bool) (ioks : list bool) :
  let ins := if ok then zip_with Event (omap text_call (planned [v] [o])) ioks else [] in
  (length ins <= 1)%nat
  /\ (o && ok = false -> ins = [])
  /\ Forall (fun e => text_call v = Some (ev_call e)) ins.
Proof.
  unfold planned. destruct o, ok; simpl; try (by repeat split; [lia|apply Forall_nil]).
  destruct (text_call v) as [c|]; simpl; [|by repeat split; [lia|apply Forall_nil]].
  destruct ioks as [|io ioks]; simpl; [by repeat split; [lia|apply Forall_nil]|].
  repeat split; [lia|done|]. apply Forall_cons. split; [done|by apply Forall_nil].
Qed.

(** X4. An edit keyed by the position of a fragment in the extraction
    reaches that very fragment. If the extraction of a file shows fragment
    [f], with a non-empty box, at index [i] of page [n], then applying the
    single edit [{str(n): {str(i): text}}] to the same file marks the box
    of [f] and nothing else, commits, and inserts at most once: [text], at
    [(bbox[0], bbox[3] - 1)] of the box of [f]; every other page is left
    as opened. The index is one [str] can write and [int] reads back: it
    has no more digits than the limit of the two conversions. *)
Theorem edit_reaches_the_fragment_shown `{lib : Fitz} (path : string) (pds : list page_dict)
    (ex : extraction) (n i : nat) (frags : list span_info) (f : span_info) (text : string) :
  fitz_open path = Some pds ->
  extract_text_from_pdf path = Return ex ->
  pages ex !! n = Some frags ->
  frags !! i = Some f ->
  si_bbox f <> [] ->
  (count_digits (str i) <= max_str_digits)%nat ->
  let final := apply_pages {[ str n := [(str i, text)] ]} (new_document pds) in
  (exists (pd : page_dict) (o ok : bool) (ins : list event),
     final !! n
     = Some (Page pd (Event (AddRedactAnnot (si_bbox f) (1, 1, 1)) o
                        :: Event ApplyRedactions ok :: ins))
     /\ (length ins <= 1)%nat
     /\ (o && ok = false -> ins = [])
     /\ Forall (fun e => exists pt font size,
                  ev_call e = InsertText pt text font size (0, 0, 0)
                  /\ insertion_point (si_bbox f) = Some pt) ins)
  /\ (forall m, m <> n -> final !! m = new_document pds !! m).
Proof.
  intros Hopen Hex Hn Hi Hbox Hdigits final.
  rewrite (extract_text_from_pdf_pages path pds ex Hopen Hex) in Hn.
  cbn [pages] in Hn. rewrite list_lookup_fmap in Hn.
  destruct (pds !! n) as [pd|] eqn:Hpd; [|done]. injection Hn as <-.
  rewrite extract_page_text_spans, list_lookup_fmap in Hi.
  destruct (text_spans pd !! i) as [s|] eqn:Hs; [|done]. injection Hi as <-.
  assert (Hb : bbox_falsy (span_bbox s) = false).
  { unfold make_span_info in Hbox. simpl in Hbox. by destruct (span_bbox s) as [[|x l]|]. }
  split.
  - destruct (final_page_log {[ str n := [(str i, text)] ]} pds n pd [(str i, text)] Hpd)
      as (log & Hl & oks & ok & ioks & Hlen & Hilen & ->).
    { apply lookup_singleton_eq. }
    cbn [omap list_omap] in *. rewrite (valid_edit_str _ i s text Hdigits Hs Hb) in *.
    destruct oks as [|o [|o' oks]]; try done. clear Hlen Hilen.
    exists pd, o, ok. eexists. split; [exact Hl|].
    destruct (single_edit_insertions (s, text) o ok ioks) as (H1 & H2 & H3).
    split; [done|]. split; [done|].
    eapply Forall_impl; [exact H3|]. intros [c io]. unfold text_call. simpl.
    fold (span_box s). destruct (insertion_point (span_box s)) as [pt|]; [|done]. simpl.
    intros [= <-]. by eexists _, _, _.
  - intros m Hm. unfold final.
    destruct (apply_pages_from {[ str n := [(str i, text)] ]} (length (new_document pds)) 0
                (new_document pds) m) as (evs & Hl & Hrun).
    unfold apply_pages. rewrite Hl.
    assert (Hevs : evs = []).
    { case_decide; [|done]. unfold page_run in Hrun.
      rewrite lookup_singleton_ne in Hrun; [done|]. intros Heq. by apply str_inj in Heq. }
    subst evs. destruct (new_document pds !! m) as [[t l]|]; [|done].
    simpl. unfold extend_log. simpl. by rewrite app_nil_r.
Qed.

(** * Fragment keys are read by value *)

Lemma lstrip_blank (lead s : string) : blank lead = true -> lstrip (lead +:+ s) = lstrip s.
Proof.
  induction lead as [|c lead IH]; [done|]. simpl. intros [Hc Hl]%andb_true_iff.
  rewrite Hc. by apply IH.
Qed.

Lemma lstrip_blank_all (trail : string) : blank trail = true -> lstrip trail = "".
Proof.
  intros H. rewrite <- (append_nil_r trail). by rewrite lstrip_blank.
Qed.

Lemma long_from_string_blank (lead s : string) :
  blank lead = true -> long_from_string (lead +:+ s) = long_from_string s.
Proof. intros H. unfold long_from_string. by rewrite lstrip_blank. Qed.

Lemma count_digits_app (a b : string) :
  count_digits (a +:+ b) = (count_digits a + count_digits b)%nat.
Proof.
  induction a as [|c a IH]; [done|]. rewrite append_cons. cbn [count_digits].
  rewrite IH. lia.
Qed.

Lemma space_no_digit (c : ascii) : is_space c = true -> digit_value c = None.
Proof. by destruct c as [[|] [|] [|] [|] [|] [|] [|] [|]]. Qed.

Lemma count_digits_blank (s : string) : blank s = true -> count_digits s = 0%nat.
Proof.
  induction s as [|c s IH]; [done|]. simpl. intros [Hc Hs]%andb_true_iff.
  by rewrite (space_no_digit c Hc), IH.
Qed.

Lemma count_digits_zeros (k : nat) : count_digits (zeros k) = k.
Proof. induction k as [|k IH]; [done|]. simpl. by rewrite IH. Qed.

Lemma count_digits_spelling (lead : string) (plus : bool) (k i : nat) (trail : string) :
  blank lead = true -> blank trail = true ->
  count_digits (spelling lead plus k i trail) = (k + count_digits (str i))%nat.
Proof.
  intros Hl Ht. unfold spelling.
  rewrite !count_digits_app, count_digits_zeros,
    (count_digits_blank lead Hl), (count_digits_blank trail Ht).
  destruct plus; simpl; lia.
Qed.

(** The blanks of [int], one by one. *)
Lemma is_space_spec (c : ascii) :
  is_space c = bool_decide (N_of_ascii c ∈ [9; 10; 11; 12; 13; 32; 133; 160]%N).
Proof. by destruct c as [[|] [|] [|] [|] [|] [|] [|] [|]]. Qed.

(** A text that starts with a character that is neither a blank, a sign
    nor a digit is no numeral. *)
Lemma long_from_string_bad_head (c : ascii) (s : string) :
  is_space c = false -> digit_value c = None ->
  Ascii.eqb c "+" = false -> Ascii.eqb c "-" = false ->
  long_from_string (String c s) = None.
Proof.
  intros Hs Hd Hp Hm. unfold long_from_string. cbn [lstrip]. rewrite Hs.
  assert (Hu : scan_unsigned (String c s) = None).
  { unfold scan_unsigned, starts_with_digit. rewrite Hd.
    by rewrite bool_decide_eq_false_2 by (by intros [? ?]). }
  revert Hp Hm Hu. by destruct c as [[|] [|] [|] [|] [|] [|] [|] [|]].
Qed.

Lemma blank_ends_digits (trail : string) : blank trail = true -> ends_digits trail.
Proof.
  destruct trail as [|c trail]; [done|]. simpl. intros [Hc _]%andb_true_iff. revert Hc.
  by destruct c as [[|] [|] [|] [|] [|] [|] [|] [|]].
Qed.

Lemma scan_digits_end (acc : Z) (rest : string) :
  ends_digits rest -> scan_digits acc false rest = Some (acc, rest).
Proof. destruct rest as [|c rest]; [done|]. simpl. by intros [-> ->]. Qed.

Lemma scan_digits_uint_rest (u : uint) (acc : nat) (rest : string) :
  ends_digits rest ->
  scan_digits (Z.of_nat acc) false (NilEmpty.string_of_uint u +:+ rest)
  = Some (Z.of_nat (Nat.of_uint_acc u acc), rest).
Proof.
  intros Hrest. revert acc. induction u; intros acc;
    [by apply scan_digits_end|..];
    cbn [NilEmpty.string_of_uint Nat.of_uint_acc]; rewrite append_cons;
    cbn [scan_digits]; rewrite <- IHu;
    match goal with
    | |- context [digit_value ?c] =>
        let v := eval vm_compute in (digit_value c) in change (digit_value c) with v
    end;
    cbv iota beta; f_equal; rewrite Nat.tail_mul_spec; lia.
Qed.

Lemma scan_digits_str_rest (i : nat) (rest : string) :
  ends_digits rest ->
  scan_digits 0 false (str i +:+ rest) = Some (Z.of_nat i, rest).
Proof.
  intros Hrest. unfold str. pose proof (to_uint_nonnil i) as Hnn.
  pose proof (Unsigned.of_to i) as Hof. unfold Nat.of_uint in Hof.
  destruct (Nat.to_uint i) as [|u|u|u|u|u|u|u|u|u|u] eqn:Hu; [done|..];
    unfold NilZero.string_of_uint;
    rewrite (scan_digits_uint_rest _ 0 rest Hrest); by rewrite Hof.
Qed.

Lemma scan_digits_zeros (k : nat) (s : string) :
  scan_digits 0 false (zeros k +:+ s) = scan_digits 0 false s.
Proof. induction k as [|k IH]; [done|]. simpl zeros. rewrite append_cons. exact IH. Qed.

Lemma starts_with_digit_zeros_str (k i : nat) (rest : string) :
  starts_with_digit (zeros k +:+ str i +:+ rest) = true.
Proof.
  destruct k as [|k]; [|done]. change (zeros 0 +:+ ?s) with s.
  destruct (str_head i) as (c & t & -> & Hc). rewrite append_cons. simpl.
  apply bool_decide_eq_true_2. unfold digit_value.
  revert Hc. by destruct c as [[|] [|] [|] [|] [|] [|] [|] [|]].
Qed.

Lemma scan_unsigned_spelling (k i : nat) (trail : string) :
  blank trail = true ->
  scan_unsigned (zeros k +:+ str i +:+ trail) = Some (Z.of_nat i).
Proof.
  intros Ht. unfold scan_unsigned. rewrite starts_with_digit_zeros_str, scan_digits_zeros.
  rewrite scan_digits_str_rest by by apply blank_ends_digits.
  by rewrite lstrip_blank_all.
Qed.

Lemma long_from_string_spelling (lead : string) (plus : bool) (k i : nat)
    (trail : string) :
  blank lead = true -> blank trail = true ->
  long_from_string (spelling lead plus k i trail) = Some (Z.of_nat i).
Proof.
  intros Hl Ht. unfold spelling. rewrite long_from_string_blank by done. destruct plus.
  - change ("+" +:+ ?s) with (String "+" s).
    change (long_from_string (String "+" ?s)) with (scan_unsigned s).
    by apply scan_unsigned_spelling.
  - change ("" +:+ ?s) with s. rewrite digit_head by apply starts_with_digit_zeros_str.
    by apply scan_unsigned_spelling.
Qed.

(** X15. A fragment key is read by its value, not by its spelling, within
    the limits of [int]. Its blanks are the characters 9 to 13, 32, 133 and
    160. Blanks around the digits, a plus sign and leading zeros change
    nothing as long as the zeros and the digits of [i] are no more than
    [max_str_digits] in all: such a spelling of [i] is read as [i], and an
    edit under it does to the document exactly what the edit under
    [str(i)] does. With more digits than that the key is refused and its
    edit dropped; so is a key that starts with one of the separators 28 to
    31, which are blanks for [str.isspace] and not for [int]. (Page keys
    are compared as strings; fragment keys go through [int].) *)
Theorem fragment_keys_read_by_value `{lib : Fitz} (lead trail : string) (plus : bool)
    (k i : nat) :
  blank lead = true ->
  blank trail = true ->
  ((k + count_digits (str i) <= max_str_digits)%nat ->
   py_int (spelling lead plus k i trail) = Some (Z.of_nat i)
   /\ (forall spans text,
         valid_edit spans (spelling lead plus k i trail, text)
         = valid_edit spans (str i, text))
   /\ (forall n spans st text,
         plan_step n spans st (spelling lead plus k i trail, text)
         = plan_step n spans st (str i, text)))
  /\ ((max_str_digits < k + count_digits (str i))%nat ->
      py_int (spelling lead plus k i trail) = None
      /\ (forall n spans st text,
            plan_step n spans st (spelling lead plus k i trail, text) = st))
  /\ (forall c, is_space c = true <->
                N_of_ascii c ∈ [9; 10; 11; 12; 13; 32; 133; 160]%N)
  /\ (forall c s n spans st text,
        (28 <= N_of_ascii c <= 31)%N ->
        py_int (String c s) = None
        /\ plan_step n spans st (String c s, text) = st)
  /\ max_str_digits = 4300%nat.
Proof.
  intros Hl Ht. pose proof (count_digits_spelling lead plus k i trail Hl Ht) as Hcount.
  split; [|split; [|split; [|split; [|done]]]].
  - intros Hk.
    assert (Hkey : py_int (spelling lead plus k i trail) = Some (Z.of_nat i)).
    { rewrite py_int_within by (rewrite Hcount; lia).
      by apply long_from_string_spelling. }
    assert (Hstr : py_int (str i) = Some (Z.of_nat i)) by (apply py_int_str; lia).
    split; [done|]. split.
    + intros spans text. unfold valid_edit. cbn [fst snd]. by rewrite Hkey, Hstr.
    + intros n spans [d anns] text. unfold plan_step. by rewrite Hkey, Hstr.
  - intros Hk.
    assert (Hkey : py_int (spelling lead plus k i trail) = None)
      by (apply py_int_beyond; rewrite Hcount; lia).
    split; [done|]. intros n spans [d anns] text. unfold plan_step. by rewrite Hkey.
  - intros c. rewrite is_space_spec. apply bool_decide_eq_true.
  - intros c s n spans st text Hc.
    assert (Hkey : py_int (String c s) = None).
    { unfold py_int. destruct (_ <=? _)%nat; [|done].
      apply long_from_string_bad_head;
        revert Hc; destruct c as [[|] [|] [|] [|] [|] [|] [|] [|]]; simpl; try done; lia. }
    split; [done|]. destruct st as [d anns]. unfold plan_step. by rewrite Hkey.
Qed.

(** * The file [upload] writes is plain ASCII *)

Lemma all_chars_append (p : ascii -> bool) (a b : string) :
  all_chars p (a +:+ b) = all_chars p a && all_chars p b.
Proof.
  induction a as [|c a IH]; [done|]. rewrite append_cons. simpl.
  by rewrite IH, andb_assoc.
Qed.

Lemma escape_char_printable (c : ascii) : all_chars printable (escape_char c) = true.
Proof. destruct c as [[|] [|] [|] [|] [|] [|] [|] [|]]; reflexivity. Qed.

Lemma encode_basestring_ascii_printable (s : string) :
  all_chars printable (encode_basestring_ascii s) = true.
Proof.
  unfold encode_basestring_ascii. cbn [all_chars]. rewrite all_chars_append.
  replace (printable dquote) with true by done. simpl. rewrite andb_true_r.
  induction s as [|c s IH]; [done|]. cbn [escape_string].
  by rewrite all_chars_append, escape_char_printable, IH.
Qed.

Lemma string_of_uint_printable (u : uint) :
  all_chars printable (NilZero.string_of_uint u) = true.
Proof.
  unfold NilZero.string_of_uint. destruct u; try done; simpl;
    induction u; try done; simpl; done.
Qed.

Lemma int_repr_printable (z : Z) : all_chars printable (int_repr z) = true.
Proof.
  unfold int_repr, str. destruct (z <? 0); cbn [all_chars];
    by rewrite string_of_uint_printable.
Qed.

Lemma join_printable (l : list string) :
  Forall (fun s => all_chars printable s = true) l -> all_chars printable (join l) = true.
Proof.
  induction 1 as [|s l Hs Hl IH]; [done|]. cbn [join]. rewrite all_chars_append, Hs. simpl.
  destruct l as [|s' l']; [done|]. by rewrite all_chars_append, IH.
Qed.

(** X5. The text [json.dump] writes is printable ASCII, whatever the
    value holds, and so is the file [upload] writes for an extraction,
    whatever the texts and font names of the PDF: quotes, backslashes,
    control characters and everything above 126 are escaped, so no line
    break and no byte outside ASCII reaches the file, and writing it as
    UTF-8 writes one byte per character. The floats are written by
    [float.__repr__], assumed to give printable ASCII as Python's does. *)
Theorem stored_json_is_printable_ascii (float_repr : float -> string) :
  (forall f, all_chars printable (float_repr f) = true) ->
  (forall v, all_chars printable (json_dumps float_repr v) = true)
  /\ (forall ex, all_chars printable (json_dumps float_repr (extraction_value ex)) = true).
Proof.
  intros float_repr_printable.
  assert (Hall : forall v, all_chars printable (json_dumps float_repr v) = true); [|done].
  induction v as [|b|[z|f]|s|l IH|items IH] using pyval_ind.
  - done.
  - by destruct b.
  - apply int_repr_printable.
  - simpl. unfold floatstr.
    destruct (negb (PrimFloat.eqb f f)); [done|].
    destruct (PrimFloat.eqb f infinity); [done|].
    destruct (PrimFloat.eqb f neg_infinity); [done|]. apply float_repr_printable.
  - apply encode_basestring_ascii_printable.
  - cbn [json_dumps all_chars]. rewrite all_chars_append, join_printable; [done|].
    apply Forall_fmap. eapply Forall_impl; [exact IH|]. by intros v Hv.
  - cbn [json_dumps all_chars]. rewrite all_chars_append, join_printable; [done|].
    apply Forall_fmap. eapply Forall_impl; [exact IH|]. intros [k v] Hv.
    unfold compose. cbn [fst snd] in *.
    by rewrite !all_chars_append, encode_basestring_ascii_printable, Hv.
Qed.

(** * The file name check of [routes.py] *)

Lemma rsplit1_no_sep (sep : ascii) (s : string) :
  contains_char sep s = false -> rsplit1 sep s = [s].
Proof.
  induction s as [|x s IH]; [done|]. simpl. intros [Hx Hs]%orb_false_elim.
  by rewrite IH, Hx.
Qed.

Lemma rsplit1_last (sep : ascii) (head tail : string) :
  contains_char sep tail = false ->
  rsplit1 sep (head +:+ String sep tail) = [head; tail].
Proof.
  intros Ht. induction head as [|x head IH].
  - change ("" +:+ String sep tail) with (String sep tail). simpl.
    by rewrite (rsplit1_no_sep sep tail Ht), Ascii.eqb_refl.
  - rewrite append_cons. simpl. by rewrite IH.
Qed.

Lemma rsplit1_sep (sep : ascii) (s : string) :
  contains_char sep s = true ->
  exists head tail,
    s = head +:+ String sep tail /\ contains_char sep tail = false.
Proof.
  induction s as [|x s IH]; [done|]. simpl.
  destruct (contains_char sep s) eqn:Hs.
  - intros _. destruct (IH eq_refl) as (head & tail & -> & Ht).
    by exists (String x head), tail.
  - rewrite orb_false_r. intros ->%Ascii.eqb_eq. by exists "", s.
Qed.

Lemma contains_char_append (c : ascii) (a b : string) :
  contains_char c (a +:+ b) = contains_char c a || contains_char c b.
Proof.
  induction a as [|x a IH]; [done|]. rewrite append_cons. simpl.
  by rewrite IH, orb_assoc.
Qed.

Lemma lower_char_pdf (c : ascii) :
  (lower_char c = "p"%char -> c = "p"%char \/ c = "P"%char)
  /\ (lower_char c = "d"%char -> c = "d"%char \/ c = "D"%char)
  /\ (lower_char c = "f"%char -> c = "f"%char \/ c = "F"%char).
Proof.
  destruct c as [[|] [|] [|] [|] [|] [|] [|] [|]]; vm_compute;
    (split; [|split]); intros H; try discriminate H; auto.
Qed.

Lemma lower_pdf (ext : string) :
  lower ext = "pdf"
  <-> ext ∈ ["pdf"; "pdF"; "pDf"; "pDF"; "Pdf"; "PdF"; "PDf"; "PDF"].
Proof.
  split.
  - destruct ext as [|c1 [|c2 [|c3 [|c4 ext]]]]; try done. simpl.
    intros [= H1 H2 H3].
    apply lower_char_pdf in H1 as [-> | ->]; apply lower_char_pdf in H2 as [-> | ->];
      apply lower_char_pdf in H3 as [-> | ->]; set_solver.
  - intros H. repeat (apply elem_of_cons in H as [-> | H]; [reflexivity|]).
    by apply elem_of_nil in H.
Qed.

Lemma allowed_file_split (filename : string) :
  allowed_file filename = true
  <-> exists stem ext, filename = stem +:+ "." +:+ ext /\ lower ext = "pdf".
Proof.
  unfold allowed_file. split.
  - intros [Hdot Hext]%andb_true_iff.
    destruct (rsplit1_sep "." filename Hdot) as (head & tail & -> & Ht).
    rewrite (rsplit1_last "." head tail Ht) in Hext. simpl in Hext.
    apply String.eqb_eq in Hext. by exists head, tail.
  - intros (stem & ext & -> & Hext).
    assert (Ht : contains_char "." ext = false).
    { apply lower_pdf in Hext.
      repeat (apply elem_of_cons in Hext as [-> | Hext]; [reflexivity|]).
      by apply elem_of_nil in Hext. }
    change ("." +:+ ext) with (String "." ext).
    rewrite contains_char_append, (rsplit1_last "." stem ext Ht). simpl.
    rewrite orb_true_r, Hext. done.
Qed.

(** X6. [allowed_file] accepts a name exactly when it ends in a dot
    followed by [pdf] in any mix of upper and lower case, that is, when the
    text after its last dot lowers to [pdf]: only the eight spellings
    [pdf] ... [PDF] pass. A name without a dot is refused without an
    error, a name where something follows the extension (as in
    [a.pdf.exe]) is refused, and the name [<id>.pdf] that [upload] itself
    builds is always accepted. *)
Theorem allowed_file_accepts_pdf_extension_only :
  (forall filename,
     allowed_file filename = true
     <-> exists stem ext,
           filename = stem +:+ "." +:+ ext
           /\ ext ∈ ["pdf"; "pdF"; "pDf"; "pDF"; "Pdf"; "PdF"; "PDf"; "PDF"])
  /\ (forall filename, contains_char "." filename = false -> allowed_file filename = false)
  /\ (forall stem ext more,
        allowed_file (stem +:+ "." +:+ ext +:+ "." +:+ more) = allowed_file ("." +:+ more))
  /\ (forall stem, allowed_file (stem +:+ ".pdf") = true).
Proof.
  split; [|split; [|split]].
  - intros filename. rewrite allowed_file_split.
    split; intros (stem & ext & -> & H); exists stem, ext; by rewrite lower_pdf in *.
  - intros filename Hdot. unfold allowed_file. by rewrite Hdot.
  - intros stem ext more.
    replace (stem +:+ "." +:+ ext +:+ "." +:+ more)
      with ((stem +:+ "." +:+ ext) +:+ "." +:+ more) by by rewrite !append_assoc.
    generalize (stem +:+ "." +:+ ext). intros s.
    destruct (allowed_file ("." +:+ more)) eqn:Hm.
    + apply allowed_file_split in Hm as (st & e & Heq & He).
      apply allowed_file_split. exists (s +:+ st), e. split; [|done].
      rewrite append_assoc. f_equal. exact Heq.
    + destruct (allowed_file (s +:+ "." +:+ more)) eqn:Hs; [|done].
      rewrite <- Hm. symmetry.
      unfold allowed_file in *. apply andb_true_iff in Hs as [_ Hs].
      change ("." +:+ more) with (String "." more) in *. cbn [contains_char]. simpl orb.
      destruct (contains_char "." more) eqn:Hc.
      * destruct (rsplit1_sep "." more Hc) as (head & tail & -> & Ht).
        replace (s +:+ String "." (head +:+ String "." tail))
          with ((s +:+ String "." head) +:+ String "." tail) in Hs
          by by rewrite append_assoc, append_cons.
        rewrite (rsplit1_last "." _ tail Ht) in Hs.
        replace (String "." (head +:+ String "." tail))
          with (String "." head +:+ String "." tail) by done.
        by rewrite (rsplit1_last "." _ tail Ht).
      * rewrite (rsplit1_last "." s more Hc) in Hs.
        change (String "." more) with ("" +:+ String "." more).
        by rewrite (rsplit1_last "." "" more Hc).
  - intros stem. apply allowed_file_split. by exists stem, "pdf".
Qed.

(** * The typed rewriter inside the general one *)

Lemma dict_get_edits (its : list (string * pyval))
    (l : list (string * list (string * string))) (k : string) :
  mapM (fun kv : string * pyval => pair kv.1 <$> page_edits_of kv.2) its = Some l ->
  match (list_to_map l : gmap string page_edits_t) !! k with
  | Some pe => exists pv, dict_get its k = Some pv /\ page_edits_of pv = Some pe
  | None => dict_get its k = None
  end.
Proof.
  intros H%mapM_Some_1. induction H as [|[k' pv] [k'' pe] its l Hx _ IH]; [done|].
  simpl in Hx. destruct (page_edits_of pv) as [pe'|] eqn:Hpv; [|done].
  injection Hx as <- <-. rewrite list_to_map_cons. cbn [dict_get].
  destruct (String.eqb_spec k' k) as [->|Hne].
  - rewrite lookup_insert_eq. by exists pv.
  - by rewrite lookup_insert_ne.
Qed.

Lemma page_edits_of_items (pv : pyval) (pe : page_edits_t) :
  page_edits_of pv = Some pe ->
  pv = PyDict ((fun it : string * string => (it.1, PyStr it.2)) <$> pe).
Proof.
  destruct pv as [| | | | |its]; try done. simpl. intros H. f_equal. symmetry.
  apply (mapM_fmap_Some_inv _ _ _ _ H).
  intros [k v] [k' t]. simpl. destruct v; try done. by intros [= <- <-].
Qed.

Section Refinement.
Context (L : Dynamic.Fitz).

Lemma embed_record_call (d : document) (n : nat) (c : call) (ok : bool) :
  embed (record_call d n c ok) = Dynamic.record_call (embed d) n (embed_call c) ok.
Proof.
  unfold embed, record_call, Dynamic.record_call. apply list_fmap_alter.
  apply Forall_forall. intros [t l] _. unfold embed_page, log_event, Dynamic.log_event.
  simpl. by rewrite fmap_app.
Qed.

Lemma embed_get_text (d : document) (n : nat) :
  Dynamic.get_text (embed d) n = get_text d n.
Proof.
  unfold Dynamic.get_text, get_text, embed. rewrite list_lookup_fmap.
  by destruct (d !! n).
Qed.

Lemma embed_new_document (pds : list page_dict) :
  embed (new_document pds) = Dynamic.new_document pds.
Proof.
  unfold embed, new_document, Dynamic.new_document. rewrite <- list_fmap_compose.
  by apply list_fmap_ext.
Qed.

Lemma embed_plan_step (n : nat) (spans : list span)
    (st : document * list (@plan_entry (typed_lib L))) (item : string * string) :
  Dynamic.plan_step n spans (embed_state st) (item.1, PyStr item.2)
  = embed_state (plan_step (lib := typed_lib L) n spans st item).
Proof.
  destruct st as [d anns], item as [key text]. unfold Dynamic.plan_step, plan_step.
  cbn [embed_state fst snd].
  destruct (py_int key) as [i|]; [|done].
  destruct ((i <? 0) || (i >=? Z.of_nat (length spans))); [done|].
  destruct (spans !! Z.to_nat i) as [s|]; [|done].
  destruct (bbox_falsy (span_bbox s)); [done|].
  cbn [add_redact_annot typed_lib].
  destruct (Dynamic.add_redact_annot (embed d) n _ _) as [a|];
    unfold embed_state; cbn [fst snd]; rewrite embed_record_call; [|done].
  by rewrite fmap_app.
Qed.

Lemma embed_plan_loop (n : nat) (spans : list span) (pe : page_edits_t)
    (st : document * list (@plan_entry (typed_lib L))) :
  fold_left (Dynamic.plan_step n spans)
    ((fun it : string * string => (it.1, PyStr it.2)) <$> pe) (embed_state st)
  = embed_state (fold_left (plan_step (lib := typed_lib L) n spans) pe st).
Proof.
  revert st. induction pe as [|it pe IH]; intros st; [done|].
  cbn [fmap list_fmap fold_left]. change (list_fmap ?f ?l) with (f <$> l).
  by rewrite embed_plan_step, IH.
Qed.

Lemma embed_insert_loop (n : nat) (anns : list (@plan_entry (typed_lib L))) (d : document) :
  fold_left (Dynamic.insert_step n) (embed_entry <$> anns) (embed d)
  = embed (fold_left (insert_step (lib := typed_lib L) n) anns d).
Proof.
  revert d. induction anns as [|a anns IH]; intros d; [done|].
  cbn [fmap list_fmap fold_left]. change (list_fmap ?f ?l) with (f <$> l).
  rewrite <- IH. f_equal. unfold Dynamic.insert_step, insert_step, embed_entry. simpl.
  destruct (insertion_point (pe_bbox a)) as [pt|]; [|done].
  by rewrite embed_record_call.
Qed.

Lemma embed_apply_page (v : pyval) (edits : gmap string page_edits_t) (d : document)
    (n : nat) :
  edits_of v = Some edits ->
  Dynamic.apply_page v (embed d) n
  = if load_page (Fitz := typed_lib L) d n then
      match edits !! str n with
      | None => inr (embed d)
      | Some _ =>
          if read_text (Fitz := typed_lib L) d n
          then inr (embed (apply_page (lib := typed_lib L) edits d n))
          else inl (Library PageError)
      end
    else inl (Library PageError).
Proof.
  destruct v as [| | | | |its]; try done. unfold edits_of.
  destruct (mapM _ its) as [l|] eqn:Hl; [|done]. intros [= <-].
  pose proof (dict_get_edits its l (str n) Hl) as Hk.
  unfold Dynamic.apply_page, apply_page. cbn [Dynamic.contains Dynamic.getitem].
  cbn [load_page read_text typed_lib].
  destruct (Dynamic.load_page (embed d) n); [|done].
  destruct (list_to_map l !! str n) as [pe|].
  - destruct Hk as (pv & -> & Hpv). apply page_edits_of_items in Hpv as ->.
    rewrite bool_decide_eq_true_2 by done.
    destruct (Dynamic.read_text (embed d) n); [|done]. cbn [Dynamic.items].
    rewrite embed_get_text.
    pose proof (embed_plan_loop n (derive_spans (get_text d n)) pe (d, [])) as Hloop.
    unfold embed_state in Hloop at 1. cbn [fst snd fmap list_fmap] in Hloop. rewrite Hloop.
    destruct (fold_left _ pe (d, [])) as [d1 anns]. unfold embed_state. cbn [fst snd].
    cbn [apply_redactions typed_lib].
    destruct (Dynamic.apply_redactions (embed d1) n).
    + by rewrite <- embed_insert_loop, embed_record_call.
    + by rewrite embed_record_call.
  - rewrite Hk. rewrite bool_decide_eq_false_2; [done|]. by intros [? ?].
Qed.

Lemma embed_apply_pages (v : pyval) (edits : gmap string page_edits_t) (l : list nat)
    (d : document) :
  edits_of v = Some edits ->
  Dynamic.apply_pages v l (embed d)
  = match apply_loop (lib := typed_lib L) edits l d with
    | Some d' => inr (embed d')
    | None => inl (Library PageError)
    end.
Proof.
  intros Hv. revert d. induction l as [|n l IH]; intros d; [done|].
  cbn [Dynamic.apply_pages apply_loop]. rewrite (embed_apply_page v edits d n Hv).
  destruct (load_page d n); [|done].
  destruct (edits !! str n) as [items|]; [|by rewrite IH].
  destruct (read_text d n); [|done]. by rewrite IH.
Qed.

Lemma apply_refines (path : string) (v : pyval) (edits : gmap string page_edits_t) :
  edits_of v = Some edits ->
  Dynamic.apply_text_edits_to_pdf path v
  = lift_outcome (apply_text_edits_to_pdf (lib := typed_lib L) path edits).
Proof.
  intros Hv. unfold Dynamic.apply_text_edits_to_pdf, apply_text_edits_to_pdf.
  cbn [fitz_open typed_lib]. destruct (Dynamic.fitz_open path) as [pds|]; [|done].
  cbn zeta. rewrite <- embed_new_document.
  replace (length (embed (new_document pds))) with (length (new_document pds))
    by (unfold embed; by rewrite length_fmap).
  rewrite (embed_apply_pages v edits _ _ Hv).
  destruct (apply_loop edits _ _) as [d'|]; [|done]. cbn [save close typed_lib].
  destruct (Dynamic.save _); [|done]. by destruct (Dynamic.close _).
Qed.

End Refinement.

(** X7. On edits of the documented shape, a dictionary of dictionaries of
    strings, the function run on the decoded value does what the typed
    rewriter does, call for call: it makes the same calls with the same
    arguments on the same pages and ends with the same bytes or the same
    error, which can only be one of the library's: that of [fitz.open], of
    loading a page or reading its text, of [doc.save] or of [doc.close].
    Python's own errors ([TypeError], [KeyError], [AttributeError]) do not
    occur. What is proved of the typed rewriter holds of the function as
    [save] calls it. *)
Theorem well_shaped_edits_run_typed (L : Dynamic.Fitz) (path : string) (v : pyval)
    (edits : gmap string page_edits_t) :
  edits_of v = Some edits ->
  Dynamic.apply_text_edits_to_pdf path v
  = lift_outcome (apply_text_edits_to_pdf (lib := typed_lib L) path edits)
  /\ Dynamic.apply_text_edits_to_pdf path v <> inl TypeError
  /\ Dynamic.apply_text_edits_to_pdf path v <> inl KeyError
  /\ Dynamic.apply_text_edits_to_pdf path v <> inl AttributeError
  /\ (forall pds, Dynamic.fitz_open path = Some pds ->
        Dynamic.apply_pages v (seq 0 (length pds)) (Dynamic.new_document pds)
        = if apply_reads (lib := typed_lib L) edits (new_document pds)
          then inr (embed (apply_pages (lib := typed_lib L) edits (new_document pds)))
          else inl (Library PageError)).
Proof.
  intros Hv. rewrite (apply_refines L path v edits Hv).
  split; [done|].
  repeat split; try by destruct (apply_text_edits_to_pdf _ _).
  intros pds _. rewrite <- embed_new_document.
  replace (length pds) with (length (new_document pds))
    by (unfold new_document; by rewrite length_fmap).
  rewrite (embed_apply_pages L v edits _ _ Hv), apply_loop_spec.
  by destruct (apply_reads _ _).
Qed.

(** * Edits of another shape *)

(** A page that cannot be loaded ends the call before the edits are looked
    at. *)
Lemma apply_pages_unloaded `{L : Dynamic.Fitz} (v : pyval) (n : nat) (l : list nat)
    (d : list Dynamic.page) :
  Dynamic.load_page d n = false ->
  Dynamic.apply_pages v (n :: l) d = inl (Library PageError).
Proof. intros Hl. cbn [Dynamic.apply_pages]. unfold Dynamic.apply_page. by rewrite Hl. Qed.

Section Misshapen.
Context `{L : Dynamic.Fitz}.
Hypothesis loads : forall d n, Dynamic.load_page d n = true.
Hypothesis reads : forall d n, Dynamic.read_text d n = true.

Lemma apply_pages_not_iterable (v : pyval) (l : list nat) (d : list Dynamic.page) :
  Dynamic.contains v "" = inl TypeError -> l <> [] ->
  Dynamic.apply_pages v l d = inl TypeError.
Proof.
  intros Hv Hl. destruct l as [|n l]; [done|]. cbn [Dynamic.apply_pages].
  unfold Dynamic.apply_page. rewrite loads. by destruct v.
Qed.

Lemma apply_pages_no_key (v : pyval) (l : list nat) (d : list Dynamic.page) :
  (forall n, n ∈ l -> Dynamic.contains v (str n) = inr false) ->
  Dynamic.apply_pages v l d = inr d.
Proof.
  revert d. induction l as [|n l IH]; intros d Hl; [done|].
  cbn [Dynamic.apply_pages]. unfold Dynamic.apply_page at 1.
  rewrite loads, (Hl n) by apply list_elem_of_here. apply IH.
  intros m Hm. apply Hl. by apply list_elem_of_further.
Qed.

Lemma apply_pages_subscript (v : pyval) (l : list nat) (d : list Dynamic.page) (n : nat) :
  (forall its, v <> PyDict its) ->
  n ∈ l -> Dynamic.contains v (str n) = inr true ->
  Dynamic.apply_pages v l d = inl TypeError.
Proof.
  intros Hv Hn Hc. revert d. induction l as [|m l IH]; intros d.
  - by apply elem_of_nil in Hn.
  - cbn [Dynamic.apply_pages]. unfold Dynamic.apply_page at 1. rewrite loads.
    destruct (Dynamic.contains v (str m)) as [e|[|]] eqn:Hm.
    + by destruct v.
    + rewrite reads. destruct v as [| | | | |its]; try done. by destruct (Hv its).
    + apply elem_of_cons in Hn as [->|Hn]; [congruence|]. by apply IH.
Qed.

Lemma apply_pages_entry (its : list (string * pyval)) (l : list nat)
    (d : list Dynamic.page) (n : nat) (pv : pyval) :
  n ∈ l -> dict_get its (str n) = Some pv -> (forall its', pv <> PyDict its') ->
  Dynamic.apply_pages (PyDict its) l d = inl AttributeError.
Proof.
  intros Hn Hpv Hshape. revert d. induction l as [|m l IH]; intros d.
  - by apply elem_of_nil in Hn.
  - cbn [Dynamic.apply_pages]. unfold Dynamic.apply_page at 1. rewrite loads.
    cbn [Dynamic.contains Dynamic.getitem].
    destruct (decide (m = n)) as [->|Hne].
    + rewrite Hpv, bool_decide_eq_true_2, reads by done.
      destruct pv; try done. by destruct (Hshape items).
    + apply elem_of_cons in Hn as [->|Hn]; [done|].
      destruct (dict_get its (str m)) as [pv'|].
      * rewrite bool_decide_eq_true_2, reads by done.
        destruct pv' as [| | | | |its']; try done. cbn [Dynamic.items].
        destruct (fold_left _ its' (d, [])) as [d1 anns].
        destruct (Dynamic.apply_redactions d1 m); by apply IH.
      * rewrite bool_decide_eq_false_2; [by apply IH|]. by intros [? ?].
Qed.

End Misshapen.

(** X8. What [apply_text_edits_to_pdf] does with edits of another shape,
    on a file that opens. If the first page cannot be loaded, the error of
    the library is raised whatever the value is, [null] included: the page
    is loaded before the edits are looked at. On a document whose pages
    can be loaded and read: a value that is [null], a boolean or a number
    raises [TypeError] at the first page (and nothing when the document has
    no page); a list or a string holding the key of one of the pages raises
    [TypeError]; a dictionary whose entry for one of the pages is not a
    dictionary raises [AttributeError]; and whatever the value, if it holds
    the key of none of the pages, no page is touched: the document is saved
    as it was opened. *)
Theorem misshapen_edits `{L : Dynamic.Fitz} (path : string) (pds : list page_dict) :
  Dynamic.fitz_open path = Some pds ->
  (forall v, pds <> [] -> Dynamic.load_page (Dynamic.new_document pds) 0 = false ->
     Dynamic.apply_text_edits_to_pdf path v = inl (Library PageError))
  /\ ((forall d n, Dynamic.load_page d n = true) ->
      (forall d n, Dynamic.read_text d n = true) ->
      (forall v, pds <> [] ->
         (v = PyNone \/ (exists b, v = PyBool b) \/ (exists x, v = PyNumber x)) ->
         Dynamic.apply_text_edits_to_pdf path v = inl TypeError)
      /\ (forall v n, (n < length pds)%nat -> Dynamic.contains v (str n) = inr true ->
            ((exists l, v = PyList l) \/ (exists s, v = PyStr s)) ->
            Dynamic.apply_text_edits_to_pdf path v = inl TypeError)
      /\ (forall its n pv, (n < length pds)%nat ->
            dict_get its (str n) = Some pv -> (forall its', pv <> PyDict its') ->
            Dynamic.apply_text_edits_to_pdf path (PyDict its) = inl AttributeError)
      /\ (forall v,
            (forall n, (n < length pds)%nat -> Dynamic.contains v (str n) = inr false) ->
            Dynamic.apply_text_edits_to_pdf path v
            = match Dynamic.save (Dynamic.new_document pds) with
              | Some output =>
                  if Dynamic.close (Dynamic.new_document pds)
                  then inr output else inl (Library CloseError)
              | None => inl (Library SaveError)
              end)).
Proof.
  intros Hopen.
  assert (Hlen : length (Dynamic.new_document pds) = length pds)
    by (unfold Dynamic.new_document; by rewrite length_fmap).
  split.
  { intros v Hne Hl. unfold Dynamic.apply_text_edits_to_pdf. rewrite Hopen. cbn zeta.
    rewrite Hlen. destruct pds as [|pd pds]; [done|]. cbn [length seq].
    by rewrite apply_pages_unloaded. }
  intros loads reads. split; [|split; [|split]].
  - intros v Hne Hv. unfold Dynamic.apply_text_edits_to_pdf. rewrite Hopen. cbn zeta.
    rewrite Hlen, apply_pages_not_iterable; [done|done| |].
    + by destruct Hv as [->|[[b ->]|[x ->]]].
    + by destruct pds.
  - intros v n Hn Hc Hv. unfold Dynamic.apply_text_edits_to_pdf. rewrite Hopen. cbn zeta.
    rewrite Hlen, (apply_pages_subscript loads reads v _ _ n); [done| | |done].
    + intros its ->. by destruct Hv as [[? ?]|[? ?]].
    + apply elem_of_seq. lia.
  - intros its n pv Hn Hpv Hshape.
    unfold Dynamic.apply_text_edits_to_pdf. rewrite Hopen. cbn zeta.
    rewrite Hlen, (apply_pages_entry loads reads its _ _ n pv); [done| |done|done].
    apply elem_of_seq. lia.
  - intros v Hno. unfold Dynamic.apply_text_edits_to_pdf. rewrite Hopen. cbn zeta.
    rewrite Hlen, apply_pages_no_key; [done|done|].
    intros n Hn%elem_of_seq. apply Hno. lia.
Qed.

(** * The requests *)

Lemma append_inj_l (a b c : string) : a +:+ b = a +:+ c -> b = c.
Proof.
  induction a as [|x a IH]; [done|]. rewrite !append_cons. intros [= H]. by apply IH.
Qed.

Lemma path_join_prefix (a file_id : string) (c : ascii) (ext : string) :
  c <> "/"%char ->
  path_join a (file_id +:+ String c ext) = path_prefix a file_id +:+ file_id +:+ String c ext.
Proof.
  intros Hc. unfold path_join, path_prefix.
  assert (Hs : starts_with "/" (file_id +:+ String c ext) = starts_with "/" file_id).
  { destruct file_id as [|x file_id]; [|done]. simpl. by apply Ascii.eqb_neq. }
  rewrite Hs. destruct (starts_with "/" file_id); [done|].
  destruct (String.eqb a "" || ends_with "/" a); [done|]. by rewrite append_assoc.
Qed.

Lemma pdf_path_ne_json_path (cfg : config_t) (file_id : string) :
  pdf_path cfg file_id <> json_path cfg file_id.
Proof.
  unfold pdf_path, json_path. rewrite !path_join_prefix by done.
  by intros H%append_inj_l%append_inj_l.
Qed.

Section RequestFacts.
Context `{host : Host}.

Lemma fitz_on_open (fs : gmap string (list Byte.byte)) (path : string)
    (content : list Byte.byte) :
  fs !! path = Some content ->
  fitz_open (Fitz := typed_lib (fitz_on fs)) path = parse_pdf content.
Proof. intros Hp. cbn [fitz_open typed_lib Dynamic.fitz_open fitz_on]. by rewrite Hp. Qed.

(** What is extracted from a stored file is the fragments of the pages its
    content parses to. *)
Lemma fitz_on_extract (fs : gmap string (list Byte.byte)) (path : string)
    (content : list Byte.byte) (ex : extraction) :
  fs !! path = Some content ->
  extract_text_from_pdf (lib := typed_lib (fitz_on fs)) path = Return ex ->
  exists pds, parse_pdf content = Some pds /\ ex = Extraction (extract_page <$> pds).
Proof.
  intros Hp Hex. pose proof (fitz_on_open fs path content Hp) as Hopen.
  destruct (parse_pdf content) as [pds|] eqn:Hc.
  - exists pds. split; [done|].
    by apply (extract_text_from_pdf_pages (lib := typed_lib (fitz_on fs)) path).
  - unfold extract_text_from_pdf in Hex. by rewrite Hopen in Hex.
Qed.

Lemma upload_ends (cfg : config_t) (unique_id : string) (req : upload_request)
    (w w' : server) (r : response) :
  upload cfg unique_id req w = (w', r) -> upload_end cfg unique_id req w w' r.
Proof.
  unfold upload. destruct (req_method req); [intros [= <- <-]; by constructor 1|].
  destruct (req_pdf_file req) as [[name content]|] eqn:Hreq;
    [|intros [= <- <-]; by constructor 1].
  destruct (String.eqb name ""); [intros [= <- <-]; by constructor 1|].
  destruct (allowed_file name) eqn:Hname; [|intros [= <- <-]; by constructor 1].
  unfold write_file at 1.
  destruct (write_outcome (files w) _ content) as [|[partial|]] eqn:Hw1.
  - cbn zeta. cbn [files schedule_file_deletion set_file].
    destruct (extract_text_from_pdf _) as [e|ex] eqn:Hex.
    + intros [= <- <-]. by econstructor 3.
    + apply (fitz_on_extract _ _ content) in Hex as (pds & Hparse & ->);
        [|apply lookup_insert_eq].
      unfold write_file. cbn [files timers flashed].
      destruct (write_outcome _ (json_path cfg unique_id) _) as [|[partial|]] eqn:Hw2;
        intros [= <- <-].
      * econstructor 5; try done. cbn [timers schedule_file_deletion set_file].
        by rewrite <- app_assoc.
      * by econstructor 4.
      * by econstructor 3.
  - intros [= <- <-]. by econstructor 2.
  - intros [= <- <-]. by constructor 1.
Qed.

Lemma expire_files (ts : list (string * Z)) (w : server) :
  (forall fs p, removable fs p = true) ->
  files (expire ts w) = foldr (fun t fs => delete t.1 fs) (files w) (reverse ts).
Proof.
  intros Hrm. revert w. induction ts as [|t ts IH]; intros w; [done|].
  unfold expire in *. cbn [fold_left]. rewrite IH, reverse_cons, foldr_app. cbn [foldr].
  f_equal. unfold deletion_task, delete_file.
  destruct (files w !! t.1) eqn:Ht.
  - by rewrite Hrm.
  - by rewrite delete_id.
Qed.

Lemma expire_other (ts : list (string * Z)) (w : server) :
  timers (expire ts w) = timers w /\ flashed (expire ts w) = flashed w.
Proof.
  revert w. induction ts as [|t ts IH]; intros w; [done|].
  unfold expire in *. cbn [fold_left]. destruct (IH (deletion_task t w)) as [-> ->].
  unfold deletion_task, delete_file. destruct (files w !! t.1); [|done].
  by destruct (removable _ _).
Qed.

End RequestFacts.

(** X9. What [upload] stores is what [edit] shows. If [upload] answers
    with the redirect to the editing page, the identifier in it is the one
    drawn for this upload, the name sent was accepted by [allowed_file],
    the content sent is stored under [<id>.pdf] and opens as a PDF; and
    [edit], called with that identifier while both files are still there,
    renders the fragments of exactly that PDF: the JSON file written by one
    is read back by the other without loss. The text codec is assumed to
    read back what it wrote, and the floats to be read back from their
    [repr]. *)
Theorem upload_then_edit `{host : Host} (cfg : config_t) (unique_id : string)
    (req : upload_request) (w w' : server) (file_id : string) :
  (forall s, decode_utf8 (encode_utf8 s) = Some s) ->
  upload cfg unique_id req w = (w', RedirectTo (EditUrl file_id)) ->
  file_id = unique_id
  /\ exists name content pds,
       req_pdf_file req = Some (name, content)
       /\ allowed_file name = true
       /\ parse_pdf content = Some pds
       /\ files w' !! pdf_path cfg unique_id = Some content
       /\ (let ex := Extraction (extract_page <$> pds) in
           extraction_floats_ok host_float_repr host_float_of_string ex ->
           edit cfg unique_id w' = (w', RenderEdit unique_id (extraction_value ex))).
Proof.
  intros Hcodec Hup. pose proof (upload_ends cfg unique_id req w _ _ Hup) as Hend.
  remember (RedirectTo (EditUrl file_id)) as r eqn:Hrd.
  destruct Hend as [w1 r Hf Ht Hr|name content partial w1 Hreq Hname Hw Hf Ht|
                    name content w1 Hreq Hname Hf Ht|
                    name content text partial w1 Hreq Hname Hw Hf Ht|
                    name content pds w1 Hreq Hname Hparse Hf Ht].
  - by destruct (Hr file_id).
  - done.
  - done.
  - done.
  - injection Hrd as <-. split; [done|]. exists name, content, pds. repeat split; try done.
    + rewrite Hf, lookup_insert_ne, lookup_insert_eq; [done|].
      intros Heq. by apply (pdf_path_ne_json_path cfg unique_id).
    + intros ex Hok. unfold edit. rewrite Hf, lookup_insert_eq, Hcodec.
      change (Some ?t ≫= json_loads host_float_of_string)
        with (json_loads host_float_of_string t).
      fold ex. by rewrite (json_loads_dumps _ _ _ (wf_extraction_value _ _ ex Hok)).
Qed.

(** X10. A file that [upload] writes in full gets its deletion thread; a
    file left by a write that failed gets none. Whatever the request and
    however it ends, [upload] creates or changes no file other than
    [<id>.pdf] and [<id>.json] of the upload folder, and starts deletion
    threads for these two paths only, each after [FILE_RETENTION_TIME].
    After a successful upload both files are scheduled, and on a host where
    a failed write leaves nothing behind every file created or changed is
    scheduled. But when [file.save] raises after writing a part of the
    PDF, or [json.dump] after writing a part of the JSON file with the
    fragments extracted, that part stays in the folder and no thread is
    started for it.
    When no file with an accepted name was sent, nothing is written or
    scheduled at all. *)
Theorem upload_deletion_threads `{host : Host} (cfg : config_t) (unique_id : string)
    (req : upload_request) (w : server) :
  let w' := (upload cfg unique_id req w).1 in
  let period := FILE_RETENTION_TIME cfg in
  (forall p, files w' !! p <> files w !! p ->
     p = pdf_path cfg unique_id \/ p = json_path cfg unique_id)
  /\ (exists new, timers w' = timers w ++ new
        /\ forall t, t ∈ new ->
             t.2 = period /\ (t.1 = pdf_path cfg unique_id \/ t.1 = json_path cfg unique_id))
  /\ ((upload cfg unique_id req w).2 = RedirectTo (EditUrl unique_id) ->
      (pdf_path cfg unique_id, period) ∈ timers w'
      /\ (json_path cfg unique_id, period) ∈ timers w')
  /\ (clean_failures ->
      forall p, files w' !! p <> files w !! p -> (p, period) ∈ timers w')
  /\ (forall name content partial,
        req_method req = POST -> req_pdf_file req = Some (name, content) ->
        name <> "" -> allowed_file name = true ->
        write_outcome (files w) (pdf_path cfg unique_id) content
        = WriteFailed (Some partial) ->
        files w' !! pdf_path cfg unique_id = Some partial /\ timers w' = timers w)
  /\ (forall name content ex partial,
        req_method req = POST -> req_pdf_file req = Some (name, content) ->
        name <> "" -> allowed_file name = true ->
        write_outcome (files w) (pdf_path cfg unique_id) content = Written ->
        extract_text_from_pdf
          (lib := typed_lib (fitz_on (<[pdf_path cfg unique_id := content]> (files w))))
          (pdf_path cfg unique_id) = Return ex ->
        write_outcome (<[pdf_path cfg unique_id := content]> (files w))
          (json_path cfg unique_id)
          (encode_utf8 (json_dumps host_float_repr (extraction_value ex)))
        = WriteFailed (Some partial) ->
        files w' !! json_path cfg unique_id = Some partial
        /\ timers w' = timers w ++ [(pdf_path cfg unique_id, period)])
  /\ ((forall name content, req_pdf_file req = Some (name, content) ->
         allowed_file name = false) ->
      files w' = files w /\ timers w' = timers w).
Proof.
  intros w' period.
  assert (Hjleft : forall name content ex partial,
            req_method req = POST -> req_pdf_file req = Some (name, content) ->
            name <> "" -> allowed_file name = true ->
            write_outcome (files w) (pdf_path cfg unique_id) content = Written ->
            extract_text_from_pdf
              (lib := typed_lib (fitz_on (<[pdf_path cfg unique_id := content]> (files w))))
              (pdf_path cfg unique_id) = Return ex ->
            write_outcome (<[pdf_path cfg unique_id := content]> (files w))
              (json_path cfg unique_id)
              (encode_utf8 (json_dumps host_float_repr (extraction_value ex)))
            = WriteFailed (Some partial) ->
            files w' !! json_path cfg unique_id = Some partial
            /\ timers w' = timers w ++ [(pdf_path cfg unique_id, period)]).
  { intros name content ex partial Hm Hreq Hne Hname Hw Hex Hwj.
    assert (Hup : upload cfg unique_id req w
                  = (flash "Failed to process the uploaded PDF file."
                       (set_file (json_path cfg unique_id) partial
                          (schedule_file_deletion (pdf_path cfg unique_id) period
                             (set_file (pdf_path cfg unique_id) content w))),
                     RedirectTo RequestUrl)).
    { unfold upload. rewrite Hm, Hreq, Hname. apply String.eqb_neq in Hne. rewrite Hne.
      unfold write_file at 1. rewrite Hw. cbn zeta.
      unfold schedule_file_deletion, set_file. cbn [files timers flashed].
      rewrite Hex. unfold write_file. cbn [files timers flashed]. by rewrite Hwj. }
    unfold w'. rewrite Hup. cbn. split; [apply lookup_insert_eq|done]. }
  assert (Hleft : forall name content partial,
            req_method req = POST -> req_pdf_file req = Some (name, content) ->
            name <> "" -> allowed_file name = true ->
            write_outcome (files w) (pdf_path cfg unique_id) content
            = WriteFailed (Some partial) ->
            files w' !! pdf_path cfg unique_id = Some partial /\ timers w' = timers w).
  { intros name content partial Hm Hreq Hne Hname Hw.
    assert (Hup : upload cfg unique_id req w
                  = (flash "Failed to save the uploaded file."
                       (set_file (pdf_path cfg unique_id) partial w),
                     RedirectTo RequestUrl)).
    { unfold upload. rewrite Hm, Hreq, Hname. apply String.eqb_neq in Hne. rewrite Hne.
      unfold write_file. by rewrite Hw. }
    unfold w'. rewrite Hup. cbn. split; [apply lookup_insert_eq|done]. }
  destruct (upload cfg unique_id req w) as [w0 r0] eqn:Hup.
  pose proof (upload_ends cfg unique_id req w _ _ Hup) as Hend. subst w'. cbn [fst snd] in *.
  destruct Hend as [w1 r Hf Ht Hr|name content partial w1 Hreq Hname Hw Hf Ht|
                    name content w1 Hreq Hname Hf Ht|
                    name content text partial w1 Hreq Hname Hw Hf Ht|
                    name content pds w1 Hreq Hname Hparse Hf Ht];
    rewrite ?Hf, ?Ht.
  - split; [intros p Hp; by destruct Hp|].
    split; [exists []; rewrite app_nil_r; split; [done|]; by intros t Ht'%elem_of_nil|].
    split; [intros ->; by destruct (Hr unique_id)|].
    split; [intros _ p Hp; by destruct Hp|]. split; [by rewrite Hf, Ht in Hleft|]. split; [by rewrite Hf, Ht in Hjleft|]. done.
  - split.
    { intros p Hp. destruct (decide (p = pdf_path cfg unique_id)) as [->|Hne]; [by left|].
      by rewrite lookup_insert_ne in Hp. }
    split; [exists []; rewrite app_nil_r; split; [done|]; by intros t Ht'%elem_of_nil|].
    split; [done|]. split; [intros Hclean; by destruct (Hclean _ _ _ _ Hw)|].
    split; [by rewrite Hf, Ht in Hleft|]. split; [by rewrite Hf, Ht in Hjleft|].
    intros Hno. specialize (Hno name content Hreq). congruence.
  - split.
    { intros p Hp. destruct (decide (p = pdf_path cfg unique_id)) as [->|Hne]; [by left|].
      by rewrite lookup_insert_ne in Hp. }
    split.
    { eexists. split; [done|]. intros t Ht'%list_elem_of_singleton. subst t. simpl. auto. }
    split; [done|]. split.
    { intros _ p Hp. destruct (decide (p = pdf_path cfg unique_id)) as [->|Hne].
      - apply elem_of_app. right. apply list_elem_of_here.
      - by rewrite lookup_insert_ne in Hp. }
    split; [by rewrite Hf, Ht in Hleft|]. split; [by rewrite Hf, Ht in Hjleft|].
    intros Hno. specialize (Hno name content Hreq). congruence.
  - split.
    { intros p Hp. destruct (decide (p = json_path cfg unique_id)) as [->|Hne1]; [by right|].
      destruct (decide (p = pdf_path cfg unique_id)) as [->|Hne2]; [by left|].
      by rewrite !lookup_insert_ne in Hp. }
    split.
    { eexists. split; [done|]. intros t Ht'%list_elem_of_singleton. subst t. simpl. auto. }
    split; [done|]. split; [intros Hclean; by destruct (Hclean _ _ _ _ Hw)|].
    split; [by rewrite Hf, Ht in Hleft|]. split; [by rewrite Hf, Ht in Hjleft|].
    intros Hno. specialize (Hno name content Hreq). congruence.
  - split.
    { intros p Hp. destruct (decide (p = json_path cfg unique_id)) as [->|Hne1]; [by right|].
      destruct (decide (p = pdf_path cfg unique_id)) as [->|Hne2]; [by left|].
      by rewrite !lookup_insert_ne in Hp. }
    split.
    { eexists. split; [done|]. intros t Ht'.
      apply elem_of_cons in Ht' as [->|Ht']; [simpl; auto|].
      apply list_elem_of_singleton in Ht'. subst t. simpl. auto. }
    split.
    { intros _. split; apply elem_of_app; right;
        [apply list_elem_of_here|apply list_elem_of_further, list_elem_of_here]. }
    split.
    { intros _ p Hp. destruct (decide (p = json_path cfg unique_id)) as [->|Hne1].
      - apply elem_of_app. right. apply list_elem_of_further, list_elem_of_here.
      - destruct (decide (p = pdf_path cfg unique_id)) as [->|Hne2].
        + apply elem_of_app. right. apply list_elem_of_here.
        + by rewrite !lookup_insert_ne in Hp. }
    split; [by rewrite Hf, Ht in Hleft|]. split; [by rewrite Hf, Ht in Hjleft|].
    intros Hno. specialize (Hno name content Hreq). congruence.
Qed.

(** X11. Once its deletion threads have run, nothing of an upload is
    left. On a host where removing a file goes through and a failed write
    leaves nothing behind, after the threads started by an [upload] have
    called [delete_file], every file the upload created or changed is gone
    and every other file is as it was before the upload; and if the upload
    had succeeded, [edit] and [save] now answer that the file does not
    exist or has expired, whatever the edits sent. *)
Theorem expired_upload_is_gone `{host : Host} (cfg : config_t) (unique_id : string)
    (req : upload_request) (w w' : server) (r : response) :
  (forall fs p, removable fs p = true) ->
  clean_failures ->
  upload cfg unique_id req w = (w', r) ->
  let w'' := expire (drop (length (timers w)) (timers w')) w' in
  (forall p, files w' !! p <> files w !! p -> files w'' !! p = None)
  /\ (forall p, p <> pdf_path cfg unique_id -> p <> json_path cfg unique_id ->
        files w'' !! p = files w !! p)
  /\ (r = RedirectTo (EditUrl unique_id) ->
      edit cfg unique_id w''
      = (flash "The requested file does not exist or has expired." w'', RedirectTo IndexUrl)
      /\ forall form_edits,
           save_view cfg unique_id form_edits w''
           = (flash "Original PDF file not found or has expired." w'', RedirectTo IndexUrl)).
Proof.
  intros Hrm Hclean Hup w''. pose proof (upload_ends cfg unique_id req w _ _ Hup) as Hend.
  assert (Hfiles : files w''
            = foldr (fun t fs => delete t.1 fs) (files w')
                (reverse (drop (length (timers w)) (timers w'))))
    by (by apply expire_files).
  destruct Hend as [w1 r Hf Ht Hr|name content partial w1 Hreq Hname Hw Hf Ht|
                    name content w1 Hreq Hname Hf Ht|
                    name content text partial w1 Hreq Hname Hw Hf Ht|
                    name content pds w1 Hreq Hname Hparse Hf Ht].
  - rewrite Ht, drop_all in Hfiles. cbn in Hfiles. rewrite Hfiles, Hf.
    split; [done|]. split; [done|]. intros ->. by destruct (Hr unique_id).
  - by destruct (Hclean _ _ _ _ Hw).
  - rewrite Ht, drop_app_length in Hfiles. cbn in Hfiles. rewrite Hfiles, Hf.
    split; [|split; [|done]].
    + intros p Hp. destruct (decide (p = pdf_path cfg unique_id)) as [->|Hne].
      * apply lookup_delete_eq.
      * by rewrite lookup_insert_ne in Hp.
    + intros p Hp _. by rewrite lookup_delete_ne, lookup_insert_ne.
  - by destruct (Hclean _ _ _ _ Hw).
  - rewrite Ht, drop_app_length in Hfiles. cbn in Hfiles.
    assert (Hgone : forall p,
              files w'' !! p
              = if decide (p = pdf_path cfg unique_id \/ p = json_path cfg unique_id)
                then None else files w !! p).
    { intros p. rewrite Hfiles, Hf. case_decide as Hp.
      - destruct (decide (p = json_path cfg unique_id)) as [->|Hne].
        + apply lookup_delete_eq.
        + destruct Hp as [->|Hp]; [|done].
          rewrite lookup_delete_ne by done. apply lookup_delete_eq.
      - rewrite !lookup_delete_ne, !lookup_insert_ne by (intros <-; tauto). done. }
    split; [|split].
    + intros p Hp. rewrite Hgone. case_decide as Hd; [done|].
      rewrite Hf, !lookup_insert_ne in Hp by (intros <-; tauto). done.
    + intros p Hp1 Hp2. rewrite Hgone. case_decide; [tauto|done].
    + intros _. unfold edit, save_view. cbn zeta. rewrite !Hgone.
      rewrite !decide_True by tauto. done.
Qed.


(** * The files of an identifier *)

Lemma append_inj_r (a b c : string) : a +:+ c = b +:+ c -> a = b.
Proof.
  revert b. induction a as [|x a IH]; intros [|y b] H.
  - done.
  - apply (f_equal String.length) in H. rewrite !length_append in H. simpl in H. lia.
  - apply (f_equal String.length) in H. rewrite !length_append in H. simpl in H. lia.
  - rewrite !append_cons in H. injection H as -> H. f_equal. by apply IH.
Qed.

Lemma ends_with_append (c : ascii) (a : string) (x : ascii) (b : string) :
  ends_with c (a +:+ String x b) = ends_with c (String x b).
Proof.
  induction a as [|y a IH]; [done|]. rewrite append_cons.
  change (ends_with c (String y (a +:+ String x b)))
    with (match a +:+ String x b with
          | EmptyString => Ascii.eqb y c
          | _ => ends_with c (a +:+ String x b)
          end).
  rewrite <- IH. by destruct a.
Qed.

Lemma starts_with_no_slash (file_id : string) :
  contains_char "/" file_id = false -> starts_with "/" file_id = false.
Proof. destruct file_id as [|x s]; [done|]. simpl. by intros [? _]%orb_false_elim. Qed.

Lemma path_of_id (cfg : config_t) (file_id : string) (c : ascii) (ext : string) :
  c <> "/"%char -> contains_char "/" file_id = false ->
  path_join (UPLOAD_FOLDER cfg) (file_id +:+ String c ext)
  = folder_prefix cfg +:+ file_id +:+ String c ext.
Proof.
  intros Hc Hid. rewrite path_join_prefix by done. unfold path_prefix, folder_prefix.
  by rewrite starts_with_no_slash.
Qed.

Section Isolation.
Context `{host : Host}.

Lemma save_view_files (cfg : config_t) (file_id : string) (form_edits : option string)
    (w : server) :
  files (save_view cfg file_id form_edits w).1 = files w
  /\ timers (save_view cfg file_id form_edits w).1 = timers w.
Proof.
  unfold save_view. cbn zeta. destruct (files w !! _); [|done].
  destruct form_edits as [[|c s]|]; try done.
  destruct (json_loads _ _); [|done].
  by destruct (Dynamic.apply_text_edits_to_pdf _ _).
Qed.

Lemma save_view_response (cfg : config_t) (file_id : string) (form_edits : option string)
    (w1 w2 : server) :
  files w1 = files w2 ->
  (save_view cfg file_id form_edits w1).2 = (save_view cfg file_id form_edits w2).2.
Proof.
  intros Hf. unfold save_view. cbn zeta. rewrite Hf. destruct (files w2 !! _); [|done].
  destruct form_edits as [[|c s]|]; try done.
  destruct (json_loads _ _); [|done].
  by destruct (Dynamic.apply_text_edits_to_pdf _ _).
Qed.

Lemma edit_files (cfg : config_t) (file_id : string) (w : server) :
  files (edit cfg file_id w).1 = files w /\ timers (edit cfg file_id w).1 = timers w.
Proof.
  unfold edit. destruct (files w !! _); [|done]. by destruct (_ ≫= _).
Qed.

End Isolation.

(** X13. The files of an identifier lie directly in the upload folder and
    belong to that identifier alone. For identifiers without a slash (the
    route takes no other, and [uuid4] draws no other), [<id>.pdf] and
    [<id>.json] are the folder, one separator and a name without a slash;
    different identifiers have different files, and no PDF of one is the
    JSON file of another; so an upload under another identifier, however
    it ends, leaves both files of this one as they were. *)
Theorem files_of_an_id_are_its_own `{host : Host} (cfg : config_t) (id id' : string) :
  contains_char "/" id = false ->
  contains_char "/" id' = false ->
  (pdf_path cfg id = folder_prefix cfg +:+ (id +:+ ".pdf")
   /\ json_path cfg id = folder_prefix cfg +:+ (id +:+ ".json")
   /\ contains_char "/" (id +:+ ".pdf") = false
   /\ contains_char "/" (id +:+ ".json") = false)
  /\ (pdf_path cfg id = pdf_path cfg id' -> id = id')
  /\ (json_path cfg id = json_path cfg id' -> id = id')
  /\ pdf_path cfg id <> json_path cfg id'
  /\ (id <> id' ->
      forall req w,
        files (upload cfg id' req w).1 !! pdf_path cfg id = files w !! pdf_path cfg id
        /\ files (upload cfg id' req w).1 !! json_path cfg id = files w !! json_path cfg id).
Proof.
  intros Hid Hid'.
  assert (Hpdf : forall i, contains_char "/" i = false ->
                   pdf_path cfg i = folder_prefix cfg +:+ i +:+ ".pdf")
    by (intros i Hi; by apply path_of_id).
  assert (Hjson : forall i, contains_char "/" i = false ->
                    json_path cfg i = folder_prefix cfg +:+ i +:+ ".json")
    by (intros i Hi; by apply path_of_id).
  assert (Hpp : pdf_path cfg id = pdf_path cfg id' -> id = id').
  { rewrite !Hpdf by done. by intros H%append_inj_l%append_inj_r. }
  assert (Hjj : json_path cfg id = json_path cfg id' -> id = id').
  { rewrite !Hjson by done. by intros H%append_inj_l%append_inj_r. }
  assert (Hpj : forall i j, contains_char "/" i = false -> contains_char "/" j = false ->
                  pdf_path cfg i <> json_path cfg j).
  { intros i j Hi Hj. rewrite Hpdf, Hjson by done. intros H%append_inj_l.
    apply (f_equal (ends_with "f")) in H.
    change (i +:+ ".pdf") with (i +:+ String "." "pdf") in H.
    change (j +:+ ".json") with (j +:+ String "." "json") in H.
    by rewrite !ends_with_append in H. }
  split; [|split; [done|split; [done|split; [by apply Hpj|]]]].
  - rewrite Hpdf, Hjson by done. repeat split; try done.
    + by rewrite contains_char_append, Hid.
    + by rewrite contains_char_append, Hid.
  - intros Hne req w. destruct (upload cfg id' req w) as [w' r] eqn:Hup. cbn [fst].
    destruct (upload_ends cfg id' req w _ _ Hup)
      as [w1 r Hf Ht Hr|name content partial w1 Hreq Hname Hw Hf Ht|
          name content w1 Hreq Hname Hf Ht|
          name content text partial w1 Hreq Hname Hw Hf Ht|
          name content pds w1 Hreq Hname Hparse Hf Ht]; rewrite Hf; [done|..];
      rewrite !lookup_insert_ne; try done; intros H;
        solve [ eapply Hpj; [| |exact H]; done
              | symmetry in H; eapply Hpj; [| |exact H]; done
              | apply Hne, Hpp; by symmetry
              | apply Hne, Hjj; by symmetry ].
Qed.

(** X14. [edit] and [save] read the upload and leave it as it is. Neither
    writes, removes or schedules anything, whatever the request and
    however it ends; so [save] always applies the edits to the PDF as it
    was uploaded, never to an earlier edited version: the same request
    sent again, or sent after any other [edit] or [save], gets the same
    answer. *)
Theorem edit_and_save_leave_the_upload `{host : Host} (cfg : config_t) (file_id : string)
    (form_edits : option string) (w : server) :
  let after_save := (save_view cfg file_id form_edits w).1 in
  let after_edit := (edit cfg file_id w).1 in
  (files after_save = files w /\ timers after_save = timers w)
  /\ (files after_edit = files w /\ timers after_edit = timers w)
  /\ (save_view cfg file_id form_edits after_save).2 = (save_view cfg file_id form_edits w).2
  /\ (forall other_id other_edits,
        (save_view cfg file_id form_edits (save_view cfg other_id other_edits w).1).2
        = (save_view cfg file_id form_edits w).2
        /\ (save_view cfg file_id form_edits (edit cfg other_id w).1).2
           = (save_view cfg file_id form_edits w).2).
Proof.
  intros after_save after_edit.
  split; [apply save_view_files|]. split; [apply edit_files|].
  split; [apply save_view_response, save_view_files|].
  intros other_id other_edits.
  split; apply save_view_response; [apply save_view_files|apply edit_files].
Qed.

(** * The further properties at work *)

Lemma edited_page_calls_witness :
  exists log,
    apply_pages (lib := toy_fitz None) toy_edits (new_document toy_pages) !! 0%nat
    = Some (Page toy_page0 log)
    /\ page_log_of
         (omap (valid_edit (text_spans toy_page0))
            [("2", "a"); ("x", "b"); ("7", "c"); ("1", "W")]) log.
Proof.
  apply (edited_page_calls (lib := toy_fitz None) toy_edits toy_pages 0 toy_page0);
    by vm_compute.
Defined.

Lemma every_call_is_asked_for_witness :
  exists p,
    apply_pages (lib := toy_fitz None) toy_edits (new_document toy_pages) !! 0%nat = Some p
    /\ toy_pages !! 0%nat = Some (page_text p)
    /\ (toy_edits !! str 0 = None -> page_log p = [])
    /\ Forall (fun e => call_asked_for (text_spans (page_text p)) (toy_edits !! str 0)
                          (ev_call e))
         (page_log p).
Proof.
  eexists. split; [by vm_compute|].
  apply (every_call_is_asked_for (lib := toy_fitz None) toy_edits toy_pages 0).
  by vm_compute.
Defined.

Lemma edit_reaches_the_fragment_shown_witness :
  let final :=
    apply_pages (lib := toy_fitz None) {[ str 0 := [(str 0, "Bonjour")] ]}
      (new_document toy_pages) in
  (exists (pd : page_dict) (o ok : bool) (ins : list event),
     final !! 0%nat
     = Some (Page pd (Event (AddRedactAnnot (si_bbox (make_span_info hello_span)) (1, 1, 1)) o
                        :: Event ApplyRedactions ok :: ins))
     /\ (length ins <= 1)%nat
     /\ (o && ok = false -> ins = [])
     /\ Forall (fun e => exists pt font size,
                  ev_call e = InsertText pt "Bonjour" font size (0, 0, 0)
                  /\ insertion_point (si_bbox (make_span_info hello_span)) = Some pt) ins)
  /\ (forall m, m <> 0%nat -> final !! m = new_document toy_pages !! m).
Proof.
  apply (edit_reaches_the_fragment_shown (lib := toy_fitz None) "doc.pdf" toy_pages
           toy_extraction 0 0 (extract_page toy_page0) (make_span_info hello_span) "Bonjour");
    try (by vm_compute); apply Nat.leb_le; reflexivity.
Defined.

Lemma stored_json_is_printable_ascii_witness :
  (forall v, all_chars printable (json_dumps toy_float_repr v) = true)
  /\ (forall ex, all_chars printable (json_dumps toy_float_repr (extraction_value ex)) = true).
Proof.
  apply (stored_json_is_printable_ascii toy_float_repr).
  intros f. unfold toy_float_repr.
  repeat (destruct (PrimFloat.Leibniz.eqb _ _)); reflexivity.
Defined.

Lemma well_shaped_edits_run_typed_witness :
  Dynamic.apply_text_edits_to_pdf (lib := toy_dynamic None) "doc.pdf" bonjour_value
  = lift_outcome
      (apply_text_edits_to_pdf (lib := typed_lib (toy_dynamic None)) "doc.pdf" bonjour_edits)
  /\ Dynamic.apply_text_edits_to_pdf (lib := toy_dynamic None) "doc.pdf" bonjour_value
     <> inl TypeError
  /\ Dynamic.apply_text_edits_to_pdf (lib := toy_dynamic None) "doc.pdf" bonjour_value
     <> inl KeyError
  /\ Dynamic.apply_text_edits_to_pdf (lib := toy_dynamic None) "doc.pdf" bonjour_value
     <> inl AttributeError
  /\ (forall pds, Dynamic.fitz_open (Fitz := toy_dynamic None) "doc.pdf" = Some pds ->
        Dynamic.apply_pages (lib := toy_dynamic None) bonjour_value (seq 0 (length pds))
          (Dynamic.new_document pds)
        = if apply_reads (lib := typed_lib (toy_dynamic None)) bonjour_edits
               (new_document pds)
          then inr (embed (apply_pages (lib := typed_lib (toy_dynamic None)) bonjour_edits
                             (new_document pds)))
          else inl (Library PageError)).
Proof.
  apply (well_shaped_edits_run_typed (toy_dynamic None) "doc.pdf" bonjour_value bonjour_edits).
  by vm_compute.
Defined.

Lemma misshapen_edits_witness :
  (forall v, toy_pages <> [] ->
     Dynamic.load_page (Fitz := toy_dynamic None) (Dynamic.new_document toy_pages) 0 = false ->
     Dynamic.apply_text_edits_to_pdf (lib := toy_dynamic None) "doc.pdf" v
     = inl (Library PageError))
  /\ ((forall d n, Dynamic.load_page (Fitz := toy_dynamic None) d n = true) ->
      (forall d n, Dynamic.read_text (Fitz := toy_dynamic None) d n = true) ->
      (forall v, toy_pages <> [] ->
         (v = PyNone \/ (exists b, v = PyBool b) \/ (exists x, v = PyNumber x)) ->
         Dynamic.apply_text_edits_to_pdf (lib := toy_dynamic None) "doc.pdf" v
         = inl TypeError)
      /\ (forall v n, (n < length toy_pages)%nat -> Dynamic.contains v (str n) = inr true ->
            ((exists l, v = PyList l) \/ (exists s, v = PyStr s)) ->
            Dynamic.apply_text_edits_to_pdf (lib := toy_dynamic None) "doc.pdf" v
            = inl TypeError)
      /\ (forall its n pv, (n < length toy_pages)%nat ->
            dict_get its (str n) = Some pv -> (forall its', pv <> PyDict its') ->
            Dynamic.apply_text_edits_to_pdf (lib := toy_dynamic None) "doc.pdf" (PyDict its)
            = inl AttributeError)
      /\ (forall v,
            (forall n, (n < length toy_pages)%nat ->
                       Dynamic.contains v (str n) = inr false) ->
            Dynamic.apply_text_edits_to_pdf (lib := toy_dynamic None) "doc.pdf" v
            = match Dynamic.save (Fitz := toy_dynamic None)
                      (Dynamic.new_document toy_pages) with
              | Some output =>
                  if Dynamic.close (Fitz := toy_dynamic None)
                       (Dynamic.new_document toy_pages)
                  then inr output else inl (Library CloseError)
              | None => inl (Library SaveError)
              end)).
Proof.
  apply (misshapen_edits (L := toy_dynamic None) "doc.pdf" toy_pages).
  reflexivity.
Defined.

Lemma upload_then_edit_witness :
  let w' := (upload (host := toy_host) toy_config "id-1" toy_request empty_server).1 in
  "id-1" = "id-1"
  /\ exists name content pds,
       req_pdf_file toy_request = Some (name, content)
       /\ allowed_file name = true
       /\ parse_pdf (Host := toy_host) content = Some pds
       /\ files w' !! pdf_path toy_config "id-1" = Some content
       /\ (let ex := Extraction (extract_page <$> pds) in
           extraction_floats_ok toy_float_repr toy_float_of_string ex ->
           edit (host := toy_host) toy_config "id-1" w'
           = (w', RenderEdit "id-1" (extraction_value ex))).
Proof.
  apply (upload_then_edit (host := toy_host) toy_config "id-1" toy_request empty_server).
  - intros s. simpl. by rewrite string_of_list_byte_of_string.
  - by vm_compute.
Defined.

Lemma expired_upload_is_gone_witness :
  let w' := (upload (host := toy_host) toy_config "id-1" toy_request empty_server).1 in
  let w'' := expire (H := toy_host) (drop (length (timers empty_server)) (timers w')) w' in
  (forall p, files w' !! p <> files empty_server !! p -> files w'' !! p = None)
  /\ (forall p, p <> pdf_path toy_config "id-1" -> p <> json_path toy_config "id-1" ->
        files w'' !! p = files empty_server !! p)
  /\ (RedirectTo (EditUrl "id-1") = RedirectTo (EditUrl "id-1") ->
      edit (host := toy_host) toy_config "id-1" w''
      = (flash "The requested file does not exist or has expired." w'', RedirectTo IndexUrl)
      /\ forall form_edits,
           save_view (host := toy_host) toy_config "id-1" form_edits w''
           = (flash "Original PDF file not found or has expired." w'', RedirectTo IndexUrl)).
Proof.
  apply (expired_upload_is_gone (host := toy_host) toy_config "id-1" toy_request
           empty_server _ (RedirectTo (EditUrl "id-1"))).
  - done.
  - done.
  - by vm_compute.
Defined.


(** The requests on the toy host: an upload, the page it leads to, a save
    and the expiry. *)
Example toy_session :
  let '(w1, r1) := upload (host := toy_host) toy_config "id-1" toy_request empty_server in
  let '(w2, r2) := edit (host := toy_host) toy_config "id-1" w1 in
  let '(w3, r3) := save_view (host := toy_host) toy_config "id-1" (Some bonjour_json) w2 in
  let w4 := expire (H := toy_host) (timers w3) w3 in
  r1 = RedirectTo (EditUrl "id-1")
  /\ r2 = RenderEdit "id-1" (extraction_value toy_extraction)
  /\ r3 = SendFile [Byte.x03; Byte.x00] "edited_id-1.pdf"
  /\ dom (files w3) = {[ "/srv/uploads/id-1.pdf"; "/srv/uploads/id-1.json" ]}
  /\ files w4 = ∅.
Proof. by vm_compute. Qed.

(** On the host whose disk is full, the part of the PDF that was written
    stays in the folder and no deletion thread is started. *)
Example toy_leftover :
  let '(w1, r1) := upload (host := full_host) toy_config "id-1" toy_request empty_server in
  r1 = RedirectTo RequestUrl
  /\ files w1 = {[ "/srv/uploads/id-1.pdf" := take 1 toy_pdf ]}
  /\ timers w1 = []
  /\ flashed w1 = ["Failed to save the uploaded file."].
Proof. by vm_compute. Qed.

(** Edits of another shape on the toy document: [null] and a list naming
    a page raise, a list naming none leaves the document as it is. On the
    document that cannot be read the error is the library's, whatever the
    edits are. *)
Example toy_misshapen :
  Dynamic.apply_text_edits_to_pdf (lib := toy_dynamic None) "doc.pdf" PyNone = inl TypeError
  /\ Dynamic.apply_text_edits_to_pdf (lib := toy_dynamic None) "doc.pdf"
       (PyList [PyStr "1"]) = inl TypeError
  /\ Dynamic.apply_text_edits_to_pdf (lib := toy_dynamic None) "doc.pdf"
       (PyDict [("1", PyList [])]) = inl AttributeError
  /\ Dynamic.apply_text_edits_to_pdf (lib := toy_dynamic None) "doc.pdf"
       (PyList [PyNumber (PyInt 1)]) = inr [Byte.x00; Byte.x00]
  /\ Dynamic.apply_text_edits_to_pdf (lib := locked_dynamic) "doc.pdf" PyNone
     = inl (Library PageError)
  /\ Dynamic.apply_text_edits_to_pdf (lib := locked_dynamic) "doc.pdf" (PyDict [])
     = inl (Library PageError)
  /\ Dynamic.apply_text_edits_to_pdf (lib := locked_dynamic) "doc.pdf" bonjour_value
     = inl (Library PageError).
Proof. by vm_compute. Qed.

(** File names. *)
Example toy_file_names :
  allowed_file "Report.PDF" = true
  /\ allowed_file "a.pdf.exe" = false
  /\ allowed_file "pdf" = false
  /\ allowed_file ".pdf" = true
  /\ allowed_file "a.pdf " = false.
Proof. by vm_compute. Qed.

Lemma files_of_an_id_are_its_own_witness :
  (pdf_path toy_config "id-1" = folder_prefix toy_config +:+ ("id-1" +:+ ".pdf")
   /\ json_path toy_config "id-1" = folder_prefix toy_config +:+ ("id-1" +:+ ".json")
   /\ contains_char "/" ("id-1" +:+ ".pdf") = false
   /\ contains_char "/" ("id-1" +:+ ".json") = false)
  /\ (pdf_path toy_config "id-1" = pdf_path toy_config "id-2" -> "id-1" = "id-2")
  /\ (json_path toy_config "id-1" = json_path toy_config "id-2" -> "id-1" = "id-2")
  /\ pdf_path toy_config "id-1" <> json_path toy_config "id-2"
  /\ ("id-1" <> "id-2" ->
      forall req w,
        files (upload (host := toy_host) toy_config "id-2" req w).1 !! pdf_path toy_config "id-1"
        = files w !! pdf_path toy_config "id-1"
        /\ files (upload (host := toy_host) toy_config "id-2" req w).1
             !! json_path toy_config "id-1"
           = files w !! json_path toy_config "id-1").
Proof.
  apply (files_of_an_id_are_its_own (host := toy_host) toy_config "id-1" "id-2");
    reflexivity.
Defined.

Lemma fragment_keys_read_by_value_witness :
  ((2 + count_digits (str 1) <= max_str_digits)%nat ->
   py_int (spelling " " true 2 1 " ") = Some (Z.of_nat 1)
   /\ (forall spans text,
         valid_edit spans (spelling " " true 2 1 " ", text) = valid_edit spans (str 1, text))
   /\ (forall n spans st text,
         plan_step (lib := toy_fitz None) n spans st (spelling " " true 2 1 " ", text)
         = plan_step n spans st (str 1, text)))
  /\ ((max_str_digits < 2 + count_digits (str 1))%nat ->
      py_int (spelling " " true 2 1 " ") = None
      /\ (forall n spans st text,
            plan_step (lib := toy_fitz None) n spans st (spelling " " true 2 1 " ", text)
            = st))
  /\ (forall c, is_space c = true <->
                N_of_ascii c ∈ [9; 10; 11; 12; 13; 32; 133; 160]%N)
  /\ (forall c s n spans st text,
        (28 <= N_of_ascii c <= 31)%N ->
        py_int (String c s) = None
        /\ plan_step (lib := toy_fitz None) n spans st (String c s, text) = st)
  /\ max_str_digits = 4300%nat.
Proof.
  apply (fragment_keys_read_by_value (lib := toy_fitz None) " " " " true 2 1); reflexivity.
Defined.

(** Spellings of one index: both edits of the entry reach fragment 1. A key
    with a separator before the digits, or with more digits than the limit,
    reaches none; at the limit it is read. *)
Example toy_spellings :
  spelling " " true 2 1 " " = " +001 "
  /\ omap (valid_edit (text_spans toy_page0)) [("1", "a"); (" +001 ", "b")]
     = [(world_span, "a"); (world_span, "b")]
  /\ omap (valid_edit (text_spans toy_page0)) [(String (ascii_of_N 28) "1", "c")] = []
  /\ py_int (zeros 4299 +:+ "1") = Some 1
  /\ py_int (zeros 4300 +:+ "1") = None
  /\ omap (valid_edit (text_spans toy_page0)) [(zeros 4300 +:+ "1", "d")] = [].
Proof. by vm_compute. Qed.

